(** * Verification of [scripts/setup/generate_secrets.py]

    The script provisions the secrets of a Zulip installation: it reads the
    existing secrets file with [configparser.RawConfigParser], generates
    every secret that is missing and appends the new [name = value] lines to
    the file.

    The development is a shallow embedding:
    - text is [string] over 8-bit characters (the decoded content of a file,
      code points below 256);
    - Python dictionaries are [gmap string _], Python sets are [gset _];
    - the file system, the process environment, the Django settings object,
      the Redis server, the entropy source and the standard output are the
      fields of a record [World], threaded through an exception-and-state
      monad [M];
    - the local variables [current_conf] and [lines] that the closures
      [need_secret] and [add_secret] share are the record [Locals].

    The library functions the script calls ([str.strip], [configparser],
    [get_random_string], [uuid.uuid4], the Redis client) are embedded from
    their Python sources, restricted to the configuration the script uses;
    of [random.choice] the result is modelled, an element of the sequence,
    not the way the library draws its index. *)

From stdpp Require Import gmap strings list fin_maps.
From Stdlib Require Import Ascii NArith ZArith Lia.

Local Open Scope N_scope.

(** ** Python string primitives *)

Module Py.

(** [str.isspace] on one character (code points below 256). *)
Definition isspace (c : ascii) : bool :=
  let n := N_of_ascii c in
  ((9 <=? n) && (n <=? 13)) || ((28 <=? n) && (n <=? 32))
  || (n =? 133) || (n =? 160).

(** [str.lower] on one character (code points below 256). *)
Definition lower_char (c : ascii) : ascii :=
  let n := N_of_ascii c in
  if ((65 <=? n) && (n <=? 90))
     || ((192 <=? n) && (n <=? 222) && negb (n =? 215))
  then ascii_of_N (n + 32) else c.

Fixpoint lower (s : string) : string :=
  match s with
  | "" => ""
  | String c r => String (lower_char c) (lower r)
  end.

Fixpoint lstrip (s : string) : string :=
  match s with
  | "" => ""
  | String c r => if isspace c then lstrip r else s
  end.

Fixpoint rstrip (s : string) : string :=
  match s with
  | "" => ""
  | String c r =>
      match rstrip r with
      | "" => if isspace c then "" else String c ""
      | r' => String c r'
      end
  end.

Definition strip (s : string) : string := lstrip (rstrip s).

Definition startswith (s p : string) : bool := String.prefix p s.

(** [s[:n]] *)
Fixpoint take (n : nat) (s : string) : string :=
  match n, s with
  | S n', String c r => String c (take n' r)
  | _, _ => ""
  end.

(** [s[n:]] *)
Fixpoint drop (n : nat) (s : string) : string :=
  match n, s with
  | S n', String c r => drop n' r
  | _, _ => s
  end.

(** [s[a:b]] for [a <= b] *)
Definition slice (a b : nat) (s : string) : string := take (b - a) (drop a s).

(** [sep.join(l)] *)
Fixpoint join (sep : string) (l : list string) : string :=
  match l with
  | [] => ""
  | [x] => x
  | x :: r => x +:+ sep +:+ join sep r
  end.

(** ["".join(l)] *)
Definition concat (l : list string) : string := foldr String.app "" l.

(** Truth value of a string: the empty string is false. *)
Definition truthy (s : string) : bool :=
  match s with "" => false | _ => true end.

(** Values that the script stores in [current_conf]: strings, and [None]
    when [os.getenv] finds no variable. *)
Inductive value := Str (s : string) | None_.

(** ["%s" % v] *)
Definition str (v : value) : string :=
  match v with Str s => s | None_ => "None" end.

End Py.

(** ** Text files read in universal-newlines mode *)

Definition LF : ascii := "010"%char.
Definition CR : ascii := "013"%char.

(** The state of reading a text file line by line: the lines completed so
    far, the characters of the current line, and whether the last character
    was a carriage return (a line feed that follows it belongs to the same
    line terminator). In universal-newlines mode ["\n"], ["\r\n"] and a
    lone ["\r"] all end a line. *)
Record line_reader := LineReader {
  completed : list string;
  current : string;
  pending_cr : bool
}.

Definition read_char (r : line_reader) (c : ascii) : line_reader :=
  if Ascii.eqb c CR then LineReader (completed r ++ [current r]) "" true
  else if Ascii.eqb c LF then
    if pending_cr r then LineReader (completed r) "" false
    else LineReader (completed r ++ [current r]) "" false
  else LineReader (completed r) (current r +:+ String c "") false.

Fixpoint read_chars (r : line_reader) (s : string) : line_reader :=
  match s with
  | "" => r
  | String c s' => read_chars (read_char r c) s'
  end.

(** The lines of a reader at the end of the file: the text after the last
    terminator is a line only when it is not empty. *)
Definition reader_lines (r : line_reader) : list string :=
  completed r ++ (if Py.truthy (current r) then [current r] else []).

(** The lines that iterating over a text file yields, without their
    terminators. *)
Definition file_lines (content : string) : list string :=
  reader_lines (read_chars (LineReader [] "" false) content).

(** ** Exceptions and results *)

(** The Python exceptions that occur in the modelled code: the class of
    the exception, with the section, option or key it names. The file name
    and the line number that the parser's exceptions carry are not
    modelled, nor is the text of the line that a
    [MissingSectionHeaderError] carries. *)
Inductive exn :=
| DuplicateSectionError (section : string)
| DuplicateOptionError (section : option string) (option_ : string)
| MissingSectionHeaderError
| ParsingError
| NoSectionError (section : string)
| KeyError (key : string)
| RedisConnectionError
| RedisAuthenticationError
| RedisTimeoutError
| RedisResponseError.

Inductive result (A : Type) :=
| Ok (a : A)
| Raise (e : exn).
Arguments Ok {A} a.
Arguments Raise {A} e.

(** ** [configparser.RawConfigParser], as the script configures it

    [RawConfigParser()] with its defaults: delimiters [=] and [:], comment
    prefixes [#] and [;], no inline comments, [strict], empty lines allowed
    in values, default section [DEFAULT], no interpolation, options
    lower-cased by [optionxform]. *)

Module configparser.

Definition default_section : string := "DEFAULT".
Definition comment_prefixes : list string := ["#"; ";"].
Definition is_delimiter (c : ascii) : bool :=
  Ascii.eqb c "="%char || Ascii.eqb c ":"%char.

Definition optionxform (optionstr : string) : string := Py.lower optionstr.

(** [NONSPACECRE.search(line).start()] *)
Fixpoint first_nonspace (s : string) : option nat :=
  match s with
  | "" => None
  | String c r => if Py.isspace c then S <$> first_nonspace r else Some 0%nat
  end.

(** The text of [s] before its last occurrence of [d]. *)
Fixpoint upto_last (d : ascii) (s : string) : option string :=
  match s with
  | "" => None
  | String c r =>
      match upto_last d r with
      | Some h => Some (String c h)
      | None => if Ascii.eqb c d then Some "" else None
      end
  end.

(** [SECTCRE.match(value)]: the pattern is an opening bracket, a greedy
    non-empty header, a closing bracket; the result is the group
    [header]. *)
Definition SECTCRE_match (value : string) : option string :=
  match value with
  | String "[" r =>
      match upto_last "]" r with
      | Some (String c h) => Some (String c h)
      | _ => None
      end
  | _ => None
  end.

(** The text before and after the first delimiter of [s]. *)
Fixpoint split_delimiter (s : string) : option (string * string) :=
  match s with
  | "" => None
  | String c r =>
      if is_delimiter c then Some ("", r)
      else match split_delimiter r with
           | Some (a, b) => Some (String c a, b)
           | None => None
           end
  end.

(** [OPTCRE.match(value)]: a lazy option name, optional white space, the
    first delimiter, optional white space, the rest of the line; the result
    is the groups [option] and [value]. *)
Definition OPTCRE_match (value : string) : option (string * string) :=
  match split_delimiter value with
  | Some (a, b) => Some (Py.rstrip a, Py.lstrip b)
  | None => None
  end.

(** What [cursect] points to: the parser's [_defaults] dictionary or the
    dictionary of one section in [_sections]. *)
Inductive sect_ref := RefDefaults | RefSection (name : string).

(** The parser object's dictionaries and the local variables of [_read].
    While a file is read an option's value is the list of its lines. *)
Record read_state := ReadState {
  _sections : gmap string (gmap string (list string));
  _defaults : gmap string (list string);
  elements_added_sections : gset string;
  elements_added_options : gset (option string * string);
  cursect : option sect_ref;
  sectname : option string;
  optname : option string;
  indent_level : nat;
  e : bool
}.

Definition initial : read_state :=
  ReadState ∅ ∅ ∅ ∅ None None None 0 false.

Definition deref (st : read_state) (r : sect_ref) : gmap string (list string) :=
  match r with
  | RefDefaults => _defaults st
  | RefSection n => default ∅ (_sections st !! n)
  end.

Definition assign (st : read_state) (r : sect_ref)
    (d : gmap string (list string)) : read_state :=
  match r with
  | RefDefaults =>
      ReadState (_sections st) d (elements_added_sections st)
        (elements_added_options st) (cursect st) (sectname st) (optname st)
        (indent_level st) (e st)
  | RefSection n =>
      ReadState (<[n := d]> (_sections st)) (_defaults st)
        (elements_added_sections st) (elements_added_options st)
        (cursect st) (sectname st) (optname st) (indent_level st) (e st)
  end.

Definition set_indent_level (st : read_state) (n : nat) : read_state :=
  ReadState (_sections st) (_defaults st) (elements_added_sections st)
    (elements_added_options st) (cursect st) (sectname st) (optname st) n
    (e st).

Definition handle_error (st : read_state) : read_state :=
  ReadState (_sections st) (_defaults st) (elements_added_sections st)
    (elements_added_options st) (cursect st) (sectname st) (optname st)
    (indent_level st) true.

(** The branch of [_read] for a section header. *)
Definition enter_section (st : read_state) (header : string)
    : result read_state :=
  match _sections st !! header with
  | Some _ =>
      if bool_decide (header ∈ elements_added_sections st)
      then Raise (DuplicateSectionError header)
      else Ok (ReadState (_sections st) (_defaults st)
                 ({[header]} ∪ elements_added_sections st)
                 (elements_added_options st)
                 (Some (RefSection header)) (Some header) None
                 (indent_level st) (e st))
  | None =>
      if bool_decide (header = default_section)
      then Ok (ReadState (_sections st) (_defaults st)
                 (elements_added_sections st) (elements_added_options st)
                 (Some RefDefaults) (Some header) None
                 (indent_level st) (e st))
      else Ok (ReadState (<[header := ∅]> (_sections st)) (_defaults st)
                 ({[header]} ∪ elements_added_sections st)
                 (elements_added_options st)
                 (Some (RefSection header)) (Some header) None
                 (indent_level st) (e st))
  end.

(** The branch of [_read] for an option line, [cursect] being [ref]. *)
Definition enter_option (st : read_state) (ref : sect_ref)
    (option_ optval : string) : result read_state :=
  let st := if Py.truthy option_ then st else handle_error st in
  let o := optionxform (Py.rstrip option_) in
  if bool_decide ((sectname st, o) ∈ elements_added_options st)
  then Raise (DuplicateOptionError (sectname st) o)
  else
    let st' := assign st ref (<[o := [Py.strip optval]]> (deref st ref)) in
    Ok (ReadState (_sections st') (_defaults st')
          (elements_added_sections st')
          ({[(sectname st, o)]} ∪ elements_added_options st')
          (cursect st') (sectname st') (Some o) (indent_level st') (e st')).

(** One iteration of the loop of [_read]. *)
Definition read_line (st : read_state) (line : string) : result read_state :=
  let comment := existsb (Py.startswith (Py.strip line)) comment_prefixes in
  let value := if comment then "" else Py.strip line in
  if negb (Py.truthy value) then
    match comment, cursect st, optname st with
    | false, Some ref, Some o =>
        if Py.truthy o then
          match deref st ref !! o with
          | Some vs => Ok (assign st ref (<[o := vs ++ [""]]> (deref st ref)))
          | None => Raise (KeyError o)
          end
        else Ok st
    | _, _, _ => Ok st
    end
  else
    let cur_indent_level := default 0%nat (first_nonspace line) in
    let continuation :=
      match cursect st, optname st with
      | Some ref, Some o =>
          if Py.truthy o && (indent_level st <? cur_indent_level)%nat
          then Some (ref, o) else None
      | _, _ => None
      end in
    match continuation with
    | Some (ref, o) =>
        match deref st ref !! o with
        | Some vs => Ok (assign st ref (<[o := vs ++ [value]]> (deref st ref)))
        | None => Raise (KeyError o)
        end
    | None =>
        let st := set_indent_level st cur_indent_level in
        match SECTCRE_match value with
        | Some header => enter_section st header
        | None =>
            match cursect st with
            | None => Raise MissingSectionHeaderError
            | Some ref =>
                match OPTCRE_match value with
                | Some (option_, optval) => enter_option st ref option_ optval
                | None => Ok (handle_error st)
                end
            end
        end
    end.

Fixpoint read_lines (st : read_state) (lines : list string)
    : result read_state :=
  match lines with
  | [] => Ok st
  | line :: rest =>
      match read_line st line with
      | Ok st' => read_lines st' rest
      | Raise err => Raise err
      end
  end.

(** The parser object after [read]: every value joined to one string. *)
Record parser := Parser {
  sections : gmap string (gmap string string);
  defaults : gmap string string
}.

Definition join_value (val : list string) : string :=
  Py.rstrip (Py.join (String LF "") val).

Definition join_multiline_values (st : read_state) : parser :=
  Parser (fmap (M := gmap string) (fmap (M := gmap string) join_value)
            (_sections st))
         (fmap (M := gmap string) join_value (_defaults st)).

(** [parser = RawConfigParser(); parser.read(filename)] on an existing
    file with the given content. *)
Definition read (content : string) : result parser :=
  match read_lines initial (file_lines content) with
  | Ok st => if e st then Raise ParsingError
             else Ok (join_multiline_values st)
  | Raise err => Raise err
  end.

(** [dict(parser.items(section))] *)
Definition items (p : parser) (section : string)
    : result (gmap string string) :=
  match sections p !! section with
  | Some d => Ok (d ∪ defaults p)
  | None =>
      if bool_decide (section = default_section) then Ok (defaults p)
      else Raise (NoSectionError section)
  end.

End configparser.

(** ** The world the script runs in *)

(** The Redis server as [get_redis_client().config_set] finds it: it
    executes the command, or the call raises. *)
Inductive redis_status :=
| RedisUp
| RedisFails (err : exn).

Record World := MkWorld {
  fs : gmap string string;            (* path to content, existing files *)
  environ : gmap string string;       (* os.environ *)
  MEMCACHED_LOCATION : string;        (* settings.MEMCACHED_LOCATION *)
  REDIS_HOST : string;                (* settings.REDIS_HOST *)
  SECRET_KEY : option string;         (* settings.SECRET_KEY *)
  redis : redis_status;
  requirepass : string;               (* of the running Redis server *)
  entropy : nat → N;                  (* the draws of the system's source *)
  entropy_used : nat;
  stdout : list string                (* the lines printed, oldest first *)
}.

(** Computations that read and change the world and may raise. *)
Definition M (A : Type) : Type := World → result (A * World).

Global Instance M_ret : MRet M := λ A a w, Ok (a, w).
Global Instance M_bind : MBind M := λ A B f m w,
  match m w with
  | Ok (a, w') => f a w'
  | Raise err => Raise err
  end.

Definition raise {A} (err : exn) : M A := λ _, Raise err.
Definition gets {A} (f : World → A) : M A := λ w, Ok (f w, w).
Definition modify (f : World → World) : M unit := λ w, Ok (tt, f w).

(** [try: m except C: handler], with [catches] deciding [isinstance(_, C)]. *)
Definition try_except {A} (m : M A) (catches : exn → bool) (handler : M A)
    : M A :=
  λ w, match m w with
       | Ok r => Ok r
       | Raise err => if catches err then handler w else Raise err
       end.

Definition NL : string := String LF "".

(** *** Files, environment, output *)

Definition path_exists (filename : string) : M bool :=
  gets (λ w, bool_decide (is_Some (fs w !! filename))).

Definition set_fs (w : World) (f : gmap string string) : World :=
  MkWorld f (environ w) (MEMCACHED_LOCATION w) (REDIS_HOST w) (SECRET_KEY w)
    (redis w) (requirepass w) (entropy w) (entropy_used w) (stdout w).

(** [with open(filename, "a") as f: f.write(text)] *)
Definition append_file (filename text : string) : M unit :=
  modify (λ w,
    set_fs w (<[filename := default "" (fs w !! filename) +:+ text]> (fs w))).

(** [os.getenv(name)] *)
Definition getenv (name : string) : M Py.value :=
  gets (λ w, match environ w !! name with
             | Some value => Py.Str value
             | None => Py.None_
             end).

(** [print(text)] *)
Definition print (text : string) : M unit :=
  modify (λ w,
    MkWorld (fs w) (environ w) (MEMCACHED_LOCATION w) (REDIS_HOST w)
      (SECRET_KEY w) (redis w) (requirepass w) (entropy w) (entropy_used w)
      (stdout w ++ [text])).

(** [settings.SECRET_KEY = secret_key] *)
Definition set_SECRET_KEY (secret_key : string) : M unit :=
  modify (λ w,
    MkWorld (fs w) (environ w) (MEMCACHED_LOCATION w) (REDIS_HOST w)
      (Some secret_key) (redis w) (requirepass w) (entropy w)
      (entropy_used w) (stdout w)).

(** *** Randomness *)

(** The next value of the system's source of randomness. *)
Definition draw : M N :=
  λ w, Ok (entropy w (entropy_used w),
           MkWorld (fs w) (environ w) (MEMCACHED_LOCATION w) (REDIS_HOST w)
             (SECRET_KEY w) (redis w) (requirepass w) (entropy w)
             (S (entropy_used w)) (stdout w)).

(** [os.urandom(n)]: [n] bytes. *)
Fixpoint urandom (n : nat) : M (list N) :=
  match n with
  | O => mret []
  | S n' => b ← draw; bs ← urandom n'; mret (b mod 256 :: bs)
  end.

(** [random.choice(seq)] for a non-empty string [seq], which is
    [seq[_randbelow(len(seq))]]. The library computes the index from the
    bits of [os.urandom], asking for more while the number it gets is not
    below [len(seq)]; that loop is not modelled. The index is taken here
    from the next value of the source, reduced below [len(seq)]: the
    character is an element of [seq]; which element a given output of
    [os.urandom] selects, and how many of its bytes are consumed, are not
    modelled. *)
Definition choice (seq : string) : M ascii :=
  r ← draw;
  mret (default "000"%char
         (String.get (N.to_nat (r mod N.of_nat (String.length seq))) seq)).

(** Django's [get_random_string(length, allowed_chars)]: the characters
    [random.choice(allowed_chars) for i in range(length)], joined. *)
Fixpoint get_random_string_from (length : nat) (allowed_chars : string)
    : M string :=
  match length with
  | O => mret ""
  | S n => c ← choice allowed_chars;
           r ← get_random_string_from n allowed_chars;
           mret (String c r)
  end.

(** The default of [allowed_chars]. *)
Definition default_allowed_chars : string :=
  "abcdefghijklmnopqrstuvwxyzABCDEFGHIJKLMNOPQRSTUVWXYZ0123456789".

Definition get_random_string (length : nat) : M string :=
  get_random_string_from length default_allowed_chars.

Definition hex_digit (n : N) : ascii :=
  default "0"%char (String.get (N.to_nat n) "0123456789abcdef").

(** [binascii.b2a_hex] *)
Definition b2a_hex (bs : list N) : string :=
  Py.concat ((λ b, String (hex_digit (b / 16))
                     (String (hex_digit (b mod 16)) "")) <$> bs).

(** Modelled from the spec: [zerver.lib.utils.generate_random_token] is not
    among the sources. The specification's token generator "produces a
    high-entropy 64-character random token from a cryptographically secure
    randomness source"; the token of [length] characters is taken to be the
    hexadecimal encoding of [length // 2] random bytes. *)
Definition generate_random_token (length : nat) : M string :=
  bs ← urandom (length / 2); mret (b2a_hex bs).

(** ** [uuid.uuid4] and [uuid.UUID] *)

Module uuid.
Local Open Scope Z_scope.

(** [int.from_bytes(bs, "big")] *)
Definition from_bytes (bs : list N) : Z :=
  foldl (λ acc b, acc * 256 + Z.of_N b) 0 bs.

(** [UUID(bytes=bs, version=4)]: the variant and version bits are forced
    on the 128-bit integer. *)
Definition UUID_of_bytes_v4 (bs : list N) : Z :=
  let int := from_bytes bs in
  let int := Z.land int (Z.lnot (Z.shiftl 0xc000 48)) in
  let int := Z.lor int (Z.shiftl 0x8000 48) in
  let int := Z.land int (Z.lnot (Z.shiftl 0xf000 64)) in
  Z.lor int (Z.shiftl 4 76).

Definition uuid4 : M Z :=
  bs ← urandom 16; mret (UUID_of_bytes_v4 bs).

(** The [w] low hexadecimal digits of [n], most significant first. *)
Fixpoint hexw (w : nat) (n : Z) : string :=
  match w with
  | O => ""
  | S w' => hexw w' (n / 16) +:+ String (hex_digit (Z.to_N (n mod 16))) ""
  end.

(** ['%032x' % n] for [0 <= n]: the digits of [n], zero-padded to 32. *)
Definition format_032x (n : Z) : string :=
  hexw (Nat.max 32 (Z.to_nat (Z.log2 n / 4 + 1))) n.

(** [str(UUID(int=n))] *)
Definition str (n : Z) : string :=
  let hex := format_032x n in
  Py.take 8 hex +:+ "-" +:+ Py.slice 8 12 hex +:+ "-"
  +:+ Py.slice 12 16 hex +:+ "-" +:+ Py.slice 16 20 hex
  +:+ "-" +:+ Py.drop 20 hex.

Definition hex_value (c : ascii) : option Z :=
  let n := Z.of_N (N_of_ascii c) in
  if (48 <=? n) && (n <=? 57) then Some (n - 48)
  else if (97 <=? n) && (n <=? 102) then Some (n - 87)
  else if (65 <=? n) && (n <=? 70) then Some (n - 55)
  else None.

(** [int(s, 16)] on a string of hexadecimal digits. *)
Fixpoint int16_acc (acc : Z) (s : string) : option Z :=
  match s with
  | "" => Some acc
  | String c r =>
      match hex_value c with
      | Some d => int16_acc (acc * 16 + d) r
      | None => None
      end
  end.

Fixpoint remove_dashes (s : string) : string :=
  match s with
  | "" => ""
  | String c r =>
      if Ascii.eqb c "-"%char then remove_dashes r
      else String c (remove_dashes r)
  end.

(** [UUID(s).int] for a string [s] of hexadecimal digits and dashes;
    [None] stands for the constructor's [ValueError]. *)
Definition UUID_of_hex (s : string) : option Z :=
  let hex := remove_dashes s in
  if (String.length hex =? 32)%nat then int16_acc 0 hex else None.

(** [UUID.version] *)
Definition version (n : Z) : Z := Z.land (Z.shiftr n 76) 0xf.

End uuid.

(** ** The Redis client *)

(** [isinstance(err, redis.exceptions.ConnectionError)];
    [AuthenticationError] is a subclass of [ConnectionError]. *)
Definition is_ConnectionError (err : exn) : bool :=
  match err with
  | RedisConnectionError | RedisAuthenticationError => true
  | _ => false
  end.

(** [get_redis_client().config_set("requirepass", value)] *)
Definition config_set_requirepass (value : string) : M unit :=
  λ w, match redis w with
       | RedisUp =>
           Ok (tt, MkWorld (fs w) (environ w) (MEMCACHED_LOCATION w)
                     (REDIS_HOST w) (SECRET_KEY w) (redis w) value
                     (entropy w) (entropy_used w) (stdout w))
       | RedisFails err => Raise err
       end.

(** ** The script *)

Definition AUTOGENERATED_SETTINGS : list string :=
  ["avatar_salt"; "rabbitmq_password"; "shared_secret"; "thumbor_key"].

Definition random_string (cnt : nat) : M string := get_random_string cnt.

Definition random_token : M string := generate_random_token 64.

Definition generate_django_secretkey : M string :=
  let chars := "abcdefghijklmnopqrstuvwxyz0123456789!@#$%^&*(-_=+)" in
  get_random_string_from 50 chars.

Definition get_old_conf (output_filename : string) : M (gmap string string) :=
  λ w, match fs w !! output_filename with
       | None => Ok (∅, w)
       | Some content =>
           if (String.length content =? 0)%nat then Ok (∅, w)
           else match configparser.read content with
                | Ok secrets_file =>
                    match configparser.items secrets_file "secrets" with
                    | Ok d => Ok (d, w)
                    | Raise err => Raise err
                    end
                | Raise err => Raise err
                end
       end.

(** The variables that [need_secret] and [add_secret] close over. *)
Record Locals := MkLocals {
  current_conf : gmap string Py.value;
  lines : list string
}.

Definition need_secret (l : Locals) (name : string) : bool :=
  bool_decide (current_conf l !! name = None).

Definition add_secret (name : string) (value : Py.value) (l : Locals)
    : Locals :=
  MkLocals (<[name := value]> (current_conf l))
           (lines l ++ [name +:+ " = " +:+ Py.str value +:+ NL]).

Definition OUTPUT_SETTINGS_FILENAME (development : bool) : string :=
  if development then "zproject/dev-secrets.conf"
  else "/etc/zulip/zulip-secrets.conf".

(** The loop over the candidate Redis configuration files. *)
Fixpoint append_requirepass (filenames : list string)
    (redis_password : string) : M unit :=
  match filenames with
  | [] => mret tt
  | filename :: rest =>
      found ← path_exists filename;
      if found : bool then
        append_file filename
          ("# Set a Redis password based on zulip-secrets.conf" +:+ NL
           +:+ "requirepass '" +:+ redis_password +:+ "'" +:+ NL)
      else append_requirepass rest redis_password
  end.

(** The loop over [AUTOGENERATED_SETTINGS]. *)
Fixpoint autogenerate (names : list string) (l : Locals) : M Locals :=
  match names with
  | [] => mret l
  | name :: rest =>
      l ← (if need_secret l name
           then v ← random_token; mret (add_secret name (Py.Str v) l)
           else mret l);
      autogenerate rest l
  end.

(** [generate_secrets] up to the point where every missing secret has been
    decided: the result is the final [current_conf] and [lines]. *)
Definition pending_secrets (development : bool) : M Locals :=
  current_conf ← get_old_conf (OUTPUT_SETTINGS_FILENAME development);
  let l := MkLocals (Py.Str <$> current_conf)
             (if (size current_conf =? 0)%nat then ["[secrets]" +:+ NL]
              else []) in
  l ← autogenerate AUTOGENERATED_SETTINGS l;
  l ← (if development && need_secret l "initial_password_salt"
       then v ← random_token;
            mret (add_secret "initial_password_salt" (Py.Str v) l)
       else mret l);
  l ← (if development && need_secret l "local_database_password"
       then v ← random_token;
            mret (add_secret "local_database_password" (Py.Str v) l)
       else mret l);
  l ← (if need_secret l "secret_key"
       then secret_key ← generate_django_secretkey;
            let l := add_secret "secret_key" (Py.Str secret_key) l in
            set_SECRET_KEY secret_key;; mret l
       else mret l);
  l ← (if need_secret l "camo_key"
       then v ← random_string 64; mret (add_secret "camo_key" (Py.Str v) l)
       else mret l);
  l ← (if negb development then
         l ← (if need_secret l "memcached_password" then
                location ← gets MEMCACHED_LOCATION;
                if bool_decide (location = "127.0.0.1:11211")
                then v ← random_token;
                     mret (add_secret "memcached_password" (Py.Str v) l)
                else mret l
              else mret l);
         (if need_secret l "redis_password" then
            host ← gets REDIS_HOST;
            if bool_decide (host = "127.0.0.1") then
              redis_password ← random_token;
              append_requirepass
                ["/etc/redis/zuli-redis.conf"; "/etc/redis/zulip-redis.conf"]
                redis_password;;
              try_except (config_set_requirepass redis_password)
                is_ConnectionError (mret tt);;
              mret (add_secret "redis_password" (Py.Str redis_password) l)
            else mret l
          else mret l)
       else mret l);
  l ← (if need_secret l "zulip_org_key"
       then v ← random_string 64;
            mret (add_secret "zulip_org_key" (Py.Str v) l)
       else mret l);
  l ← (if need_secret l "zulip_org_id"
       then u ← uuid.uuid4;
            mret (add_secret "zulip_org_id" (Py.Str (uuid.str u)) l)
       else mret l);
  (if need_secret l "postgres_password"
   then v ← getenv "REMOTE_POSTGRES_PASSWORD";
        mret (add_secret "postgres_password" v l)
   else mret l).

(** The end of [generate_secrets]: report, and append the pending lines. *)
Definition write_secrets (development : bool) (l : Locals) : M unit :=
  if (length (lines l) =? 0)%nat then
    print "generate_secrets: No new secrets to generate."
  else
    append_file (OUTPUT_SETTINGS_FILENAME development)
      (NL +:+ Py.concat (lines l));;
    print ("Generated new secrets in "
           +:+ OUTPUT_SETTINGS_FILENAME development +:+ ".").

Definition generate_secrets (development : bool) : M unit :=
  l ← pending_secrets development;
  write_secrets development l.

(** ** Specification vocabulary *)

(** Every character of a string satisfies [p]. *)
Fixpoint all (p : ascii → bool) (s : string) : bool :=
  match s with
  | "" => true
  | String c r => p c && all p r
  end.

(** Membership of a character in a string. *)
Fixpoint mem (c : ascii) (s : string) : bool :=
  match s with
  | "" => false
  | String c' r => Ascii.eqb c c' || mem c r
  end.

(** A character that ends a line of a text file. *)
Definition is_linebreak (c : ascii) : bool := Ascii.eqb c LF || Ascii.eqb c CR.

(** A string without line breaks. *)
Definition oneline (s : string) : bool := all (λ c, negb (is_linebreak c)) s.

(** ** Weakest preconditions for [M]

    [wp m w Q E]: from the world [w] the computation [m] either returns a
    value and a world that satisfy [Q], or raises an exception that
    satisfies [E]. *)

Definition wp {A} (m : M A) (w : World) (Q : A → World → Prop)
    (E : exn → Prop) : Prop :=
  match m w with
  | Ok (a, w') => Q a w'
  | Raise err => E err
  end.

(** What a step of [pending_secrets] leaves unchanged in the world: the
    two secrets files, the environment, the settings that are read, the
    state of the Redis server's endpoint, the entropy source and the
    output. *)
Record frame (w w' : World) : Prop := Frame {
  frame_secrets development :
    fs w' !! OUTPUT_SETTINGS_FILENAME development
    = fs w !! OUTPUT_SETTINGS_FILENAME development;
  frame_environ : environ w' = environ w;
  frame_memcached : MEMCACHED_LOCATION w' = MEMCACHED_LOCATION w;
  frame_redis_host : REDIS_HOST w' = REDIS_HOST w;
  frame_redis : redis w' = redis w;
  frame_entropy : entropy w' = entropy w;
  frame_stdout : stdout w' = stdout w
}.

Definition is_digit (c : ascii) : bool :=
  let n := N_of_ascii c in (48 <=? n) && (n <=? 57).
Definition is_lower (c : ascii) : bool :=
  let n := N_of_ascii c in (97 <=? n) && (n <=? 122).
Definition is_upper (c : ascii) : bool :=
  let n := N_of_ascii c in (65 <=? n) && (n <=? 90).

(** The character class of a token: lowercase hexadecimal digits. *)
Definition is_hex_lower (c : ascii) : bool :=
  let n := N_of_ascii c in is_digit c || ((97 <=? n) && (n <=? 102)).

(** The character class of an opaque random string. *)
Definition is_alnum (c : ascii) : bool := is_lower c || is_upper c || is_digit c.

(** The restricted alphabet of the Django secret key: lowercase letters,
    digits and a fixed set of symbols. *)
Definition is_secret_key_char (c : ascii) : bool :=
  is_lower c || is_digit c || mem c "!@#$%^&*(-_=+)".


(** The names a run makes sure of, in the order of the script: the mode
    and the two settings decide which names take part. *)
Definition ensured (development : bool) (w : World) : list string :=
  AUTOGENERATED_SETTINGS
  ++ (if development then ["initial_password_salt"; "local_database_password"]
      else [])
  ++ ["secret_key"; "camo_key"]
  ++ (if development then []
      else (if bool_decide (MEMCACHED_LOCATION w = "127.0.0.1:11211")
            then ["memcached_password"] else [])
           ++ (if bool_decide (REDIS_HOST w = "127.0.0.1")
               then ["redis_password"] else []))
  ++ ["zulip_org_key"; "zulip_org_id"; "postgres_password"].

(** The line [add_secret] appends for a name and a value. *)
Definition format_line (kv : string * Py.value) : string :=
  kv.1 +:+ " = " +:+ Py.str kv.2 +:+ NL.

(** The initial value of [lines]. *)
Definition header (conf : gmap string string) : list string :=
  if (size conf =? 0)%nat then ["[secrets]" +:+ NL] else [].

(** A dictionary after a sequence of assignments. *)
Definition inserts (conf : gmap string Py.value)
    (adds : list (string * Py.value)) : gmap string Py.value :=
  foldl (λ m kv, <[kv.1 := kv.2]> m) conf adds.

(** The value of [os.getenv(name)] in a world. *)
Definition environ_get (w : World) (name : string) : Py.value :=
  match environ w !! name with
  | Some v => Py.Str v
  | None => Py.None_
  end.

(** The shape of the value generated for each name. *)
Definition value_shape (w : World) (name : string) (v : Py.value) : Prop :=
  if decide (name = "postgres_password") then
    v = environ_get w "REMOTE_POSTGRES_PASSWORD"
  else if decide (name = "secret_key") then
    ∃ s, v = Py.Str s ∧ String.length s = 50%nat
         ∧ all is_secret_key_char s = true
  else if decide (name = "camo_key" ∨ name = "zulip_org_key") then
    ∃ s, v = Py.Str s ∧ String.length s = 64%nat ∧ all is_alnum s = true
  else if decide (name = "zulip_org_id") then
    ∃ u, v = Py.Str (uuid.str u) ∧ String.length (uuid.str u) = 36%nat
         ∧ uuid.UUID_of_hex (uuid.str u) = Some u ∧ uuid.version u = 4%Z
  else
    ∃ s, v = Py.Str s ∧ String.length s = 64%nat ∧ all is_hex_lower s = true.

(** The state of [current_conf] and [lines] once the names [names] have
    been handled, starting from the parsed file [conf0] in the world [w]:
    [adds] are the assignments made, in order. *)
Record pending (w : World) (conf0 : gmap string string) (names : list string)
    (l : Locals) (adds : list (string * Py.value)) : Prop := Pending {
  pending_names : adds.*1 = filter (λ k, conf0 !! k = None) names;
  pending_conf : current_conf l = inserts (Py.Str <$> conf0) adds;
  pending_lines : lines l = header conf0 ++ (format_line <$> adds);
  pending_values : Forall (λ kv, value_shape w kv.1 kv.2) adds
}.

(** The only exception that escapes [pending_secrets] once the secrets
    file has been parsed: the Redis call fails with an error that is not a
    connection error. *)
Definition redis_fatal (development : bool) (w : World)
    (conf0 : gmap string string) (err : exn) : Prop :=
  development = false ∧ conf0 !! "redis_password" = None
  ∧ REDIS_HOST w = "127.0.0.1" ∧ redis w = RedisFails err
  ∧ is_ConnectionError err = false.


(** ** Concrete worlds *)

(** A world with the given files, environment, settings and Redis state;
    its entropy source yields [11, 48, 85, ...]. *)
Definition world_of (files environment : gmap string string)
    (memcached_location redis_host : string) (r : redis_status) : World :=
  MkWorld files environment memcached_location redis_host None r ""
    (λ i, N.of_nat (i * 37 + 11)) 0 [].

(** A fresh production host: no secrets file, local services, Redis not
    yet reachable. *)
Definition fresh_production : World :=
  world_of ∅ ∅ "127.0.0.1:11211" "127.0.0.1" (RedisFails RedisConnectionError).

(** A fresh development checkout. *)
Definition fresh_development : World :=
  world_of ∅ ∅ "127.0.0.1:11211" "127.0.0.1" RedisUp.

(** A production host whose secrets file holds one hand-written secret and
    whose cache and queue are remote. *)
Definition remote_production : World :=
  world_of {["/etc/zulip/zulip-secrets.conf" :=
               "[secrets]" +:+ NL +:+ "secret_key = x" +:+ NL]}
    {["REMOTE_POSTGRES_PASSWORD" := "hunter2"]}
    "memcached.example.com:11211" "redis.example.com" RedisUp.

(** A development checkout whose secrets file has a section header and
    no keys. *)
Definition header_only_development : World :=
  world_of {["zproject/dev-secrets.conf" := "[secrets]" +:+ NL]} ∅
    "127.0.0.1:11211" "127.0.0.1" RedisUp.


(** The live Redis call of a production run, if it is made, returns or
    raises a connection error: no exception escapes the [try]. *)
Definition redis_call_returns (development : bool) (w : World) : Prop :=
  development = true
  ∨ match redis w with
    | RedisUp => True
    | RedisFails err => is_ConnectionError err = true
    end.


(** Every name the script can assign. *)
Definition known_names : list string :=
  AUTOGENERATED_SETTINGS
  ++ ["initial_password_salt"; "local_database_password"; "secret_key";
      "camo_key"; "memcached_password"; "redis_password"; "zulip_org_key";
      "zulip_org_id"; "postgres_password"].


(** The text of the line [add_secret] appends, without its terminator. *)
Definition line_text (kv : string * Py.value) : string :=
  kv.1 +:+ " = " +:+ Py.str kv.2.

(** An option name that a line [name = value] gives back unchanged: it is
    not empty, has no white space, no delimiter and no upper-case letter,
    and does not start a comment or a section header. *)
Definition key_char_ok (c : ascii) : bool :=
  negb (Py.isspace c) && negb (configparser.is_delimiter c)
  && Ascii.eqb (Py.lower_char c) c && negb (is_linebreak c).

Definition key_ok (k : string) : bool :=
  match k with
  | "" => false
  | String c _ =>
      negb (Ascii.eqb c "#") && negb (Ascii.eqb c ";")
      && negb (Ascii.eqb c "[") && all key_char_ok k
  end.

(** The world a run leaves ([w] itself if the run raises). *)
Definition after_run (development : bool) (w : World) : World :=
  match generate_secrets development w with
  | Ok (_, w') => w'
  | Raise _ => w
  end.

(** A development checkout whose secrets file has a default section, and
    whose environment supplies a database password of two lines. *)
Definition two_line_password_development : World :=
  world_of {["zproject/dev-secrets.conf" :=
               "[DEFAULT]" +:+ NL +:+ "a = 1" +:+ NL
               +:+ "[secrets]" +:+ NL +:+ "b = 2" +:+ NL]}
    {["REMOTE_POSTGRES_PASSWORD" := "x" +:+ NL +:+ "a = 2"]}
    "127.0.0.1:11211" "127.0.0.1" RedisUp.

(** A development checkout whose secrets file ends in another section. *)
Definition other_section_development : World :=
  world_of {["zproject/dev-secrets.conf" :=
               "[secrets]" +:+ NL +:+ "a = 1" +:+ NL
               +:+ "[other]" +:+ NL]}
    ∅ "127.0.0.1:11211" "127.0.0.1" RedisUp.

(** What the loader returns for a file (the empty mapping if it raises). *)
Definition loaded (output_filename : string) (w : World)
    : gmap string string :=
  match get_old_conf output_filename w with
  | Ok (conf, _) => conf
  | Raise _ => ∅
  end.

(** The result of [pending_secrets], for a run that returns. *)
Definition pending_of (development : bool) (w : World) : Locals * World :=
  match pending_secrets development w with
  | Ok r => r
  | Raise _ => (MkLocals ∅ [], w)
  end.

(** ** Vocabulary for the parser *)

Global Instance sect_ref_eq_dec : EqDecision configparser.sect_ref.
Proof. solve_decision. Defined.

(** The dictionary that [cursect] points to when [sectname] is [n]. *)
Definition ref_of (n : string) : configparser.sect_ref :=
  if bool_decide (n = configparser.default_section)
  then configparser.RefDefaults else configparser.RefSection n.

(** The state of [_read] after it has accepted an option line for the name
    [k] with the value [val], [cursect] being [ref]. *)
Definition add_option (st : configparser.read_state)
    (ref : configparser.sect_ref) (k val : string)
    : configparser.read_state :=
  let st' :=
    configparser.assign st ref (<[k := [val]]> (configparser.deref st ref)) in
  configparser.ReadState
    (configparser._sections st') (configparser._defaults st')
    (configparser.elements_added_sections st')
    ({[(configparser.sectname st, k)]}
     ∪ configparser.elements_added_options st')
    (configparser.cursect st') (configparser.sectname st') (Some k)
    (configparser.indent_level st') (configparser.e st').

(** An invariant of the states of [_read] on a fresh parser: [cursect] is
    the dictionary of [sectname], no section is named like the default
    section, every recorded option is in the dictionary of its section,
    [optname] is an option of the current dictionary, and a section exists
    only after a header has been read. *)
Record wf (st : configparser.read_state) : Prop := Wf {
  wf_cursect :
    configparser.cursect st = ref_of <$> configparser.sectname st;
  wf_default :
    configparser._sections st !! configparser.default_section = None;
  wf_added n k :
    (Some n, k) ∈ configparser.elements_added_options st →
    k ∈ dom (configparser.deref st (ref_of n));
  wf_optname o :
    configparser.optname st = Some o →
    ∃ ref, configparser.cursect st = Some ref
           ∧ o ∈ dom (configparser.deref st ref);
  wf_sectname :
    configparser._sections st ≠ ∅ → is_Some (configparser.sectname st)
}.

(** What [items("secrets")] will return for a state of [_read], if the
    file ends there. *)
Definition items_of (st : configparser.read_state)
    : option (gmap string string) :=
  (λ d, (configparser.join_value <$> d)
        ∪ (configparser.join_value <$> configparser._defaults st))
  <$> (configparser._sections st !! "secrets").

(** The name in the last section header of a file that [_read] accepts. *)
Definition last_section (content : string) : option string :=
  match configparser.read_lines configparser.initial (file_lines content) with
  | Ok st => configparser.sectname st
  | Raise _ => None
  end.

(** A mapping after the options [kvs], given as texts, have been read. *)
Definition with_options (m : gmap string string)
    (kvs : list (string * string)) : gmap string string :=
  foldl (λ m kv, <[kv.1 := Py.strip kv.2]> m) m kvs.

(** The text of an option line. *)
Definition option_text (kv : string * string) : string :=
  kv.1 +:+ " = " +:+ kv.2.

(** The pairs of names and value texts of a list of assignments. *)
Definition texts_of (adds : list (string * Py.value))
    : list (string * string) :=
  (λ kv, (kv.1, Py.str kv.2)) <$> adds.

(** The value of [REMOTE_POSTGRES_PASSWORD], as the script would write it,
    has no line break. *)
Definition env_oneline (w : World) : Prop :=
  oneline (Py.str (environ_get w "REMOTE_POSTGRES_PASSWORD")) = true.

(** The starting files for which a run leaves a file that reads back as
    the final [current_conf]: no file or an empty file, or a file that
    parses to at least one key and whose last section header is
    [[secrets]] or [[DEFAULT]]. *)
Definition good_start (development : bool) (w : World) : Prop :=
  fs w !! OUTPUT_SETTINGS_FILENAME development = None
  ∨ fs w !! OUTPUT_SETTINGS_FILENAME development = Some ""
  ∨ ∃ old conf0,
      fs w !! OUTPUT_SETTINGS_FILENAME development = Some old
      ∧ get_old_conf (OUTPUT_SETTINGS_FILENAME development) w = Ok (conf0, w)
      ∧ conf0 ≠ ∅
      ∧ (last_section old = Some "secrets"
         ∨ last_section old = Some configparser.default_section).

(** ** The effect of a run on the world *)

(** The world after [n] more draws of the entropy source. *)
Definition advance (n : nat) (w : World) : World :=
  MkWorld (fs w) (environ w) (MEMCACHED_LOCATION w) (REDIS_HOST w)
    (SECRET_KEY w) (redis w) (requirepass w) (entropy w)
    (entropy_used w + n) (stdout w).

(** The bytes that the draws [entropy_used w], ..., [entropy_used w + n - 1]
    give. *)
Definition drawn_bytes (n : nat) (w : World) : list N :=
  (λ i, entropy w (entropy_used w + i) mod 256) <$> seq 0 n.

(** The candidate configuration files of the Redis server, in the order
    the script tries them. *)
Definition redis_conf_files : list string :=
  ["/etc/redis/zuli-redis.conf"; "/etc/redis/zulip-redis.conf"].

(** The text the script appends to the configuration of the Redis
    server. *)
Definition requirepass_text (redis_password : string) : string :=
  "# Set a Redis password based on zulip-secrets.conf" +:+ NL
  +:+ "requirepass '" +:+ redis_password +:+ "'" +:+ NL.

(** The first of [filenames] that exists, with its content. *)
Fixpoint first_existing (files : gmap string string)
    (filenames : list string) : option (string * string) :=
  match filenames with
  | [] => None
  | filename :: rest =>
      match files !! filename with
      | Some old => Some (filename, old)
      | None => first_existing files rest
      end
  end.

(** The files after the password has been appended to the first
    configuration file that exists. *)
Definition with_requirepass (files : gmap string string)
    (redis_password : string) : gmap string string :=
  match first_existing files redis_conf_files with
  | Some (filename, old) =>
      <[filename := old +:+ requirepass_text redis_password]> files
  | None => files
  end.

(** What the step of the script that assigns [kv.1] does to the world,
    apart from [current_conf] and [lines]: the draws of the generator, and
    for [secret_key] the assignment to [settings.SECRET_KEY], for
    [redis_password] the line in the server's configuration file and the
    password of the running server if it can be reached. *)
Definition effect_of (kv : string * Py.value) (w : World) : World :=
  if decide (kv.1 = "postgres_password") then w
  else if decide (kv.1 = "secret_key") then
    MkWorld (fs w) (environ w) (MEMCACHED_LOCATION w) (REDIS_HOST w)
      (Some (Py.str kv.2)) (redis w) (requirepass w) (entropy w)
      (entropy_used w + 50) (stdout w)
  else if decide (kv.1 = "camo_key" ∨ kv.1 = "zulip_org_key") then
    advance 64 w
  else if decide (kv.1 = "zulip_org_id") then advance 16 w
  else if decide (kv.1 = "redis_password") then
    MkWorld (with_requirepass (fs w) (Py.str kv.2)) (environ w)
      (MEMCACHED_LOCATION w) (REDIS_HOST w) (SECRET_KEY w) (redis w)
      (match redis w with
       | RedisUp => Py.str kv.2
       | RedisFails _ => requirepass w
       end)
      (entropy w) (entropy_used w + 32) (stdout w)
  else advance 32 w.

(** The world after the steps that made the assignments [adds]. *)
Definition effects (w : World) (adds : list (string * Py.value)) : World :=
  foldl (λ w kv, effect_of kv w) w adds.

(** The world after [print(text)]. *)
Definition printed (w : World) (text : string) : World :=
  MkWorld (fs w) (environ w) (MEMCACHED_LOCATION w) (REDIS_HOST w)
    (SECRET_KEY w) (redis w) (requirepass w) (entropy w) (entropy_used w)
    (stdout w ++ [text]).

(** The Redis call of the script, if it is made in the world [w], does
    not raise out of the [try]. *)
Definition redis_survives (w : World) : Prop :=
  ∀ err, redis w = RedisFails err → is_ConnectionError err = true.

(** The state of a run once the names [names] have been handled: the
    local variables are as [pending] says, the world is the starting world
    after the effects of the assignments made, and the Redis call, if it
    was made, did not raise out of the [try]. *)
Record run_state (w0 : World) (conf0 : gmap string string)
    (names : list string) (l : Locals) (adds : list (string * Py.value))
    (w : World) : Prop := RunState {
  rs_pending : pending w0 conf0 names l adds;
  rs_world : w = effects w0 adds;
  rs_redis : "redis_password" ∈ adds.*1 → redis_survives w0
}.

(** A production host with local services whose Redis server is up and
    has its configuration in the second candidate file. *)
Definition local_production : World :=
  world_of {["/etc/redis/zulip-redis.conf" := "port 6379" +:+ NL]} ∅
    "127.0.0.1:11211" "127.0.0.1" RedisUp.

(** A fresh production host whose Redis server does not answer in time. *)
Definition timeout_production : World :=
  world_of ∅ ∅ "127.0.0.1:11211" "127.0.0.1" (RedisFails RedisTimeoutError).

(** A development checkout whose secrets file has every secret. *)
Definition complete_development : World :=
  world_of {["zproject/dev-secrets.conf" :=
               "[secrets]" +:+ NL
               +:+ Py.concat ((λ name, name +:+ " = x" +:+ NL)
                              <$> ensured true fresh_development)]}
    ∅ "127.0.0.1:11211" "127.0.0.1" RedisUp.

(** Whether the loader returns for a file. *)
Definition parses (output_filename : string) (w : World) : bool :=
  match get_old_conf output_filename w with
  | Ok _ => true
  | Raise _ => false
  end.


(** ** Vocabulary for the lines of a secrets file *)

(** A line that [_read] passes over when no option is being read: a
    comment, or a line of white space. *)
Definition is_skipped (line : string) : bool :=
  existsb (Py.startswith (Py.strip line)) configparser.comment_prefixes
  || negb (Py.truthy (Py.strip line)).

(** The line of the header of the section [name]. *)
Definition header_line (name : string) : string := "[" +:+ name +:+ "]".

(** The parser has read a header of the section [name]. *)
Definition section_seen (name : string) (st : configparser.read_state)
    : Prop :=
  name ∈ configparser.elements_added_sections st
  ∧ is_Some (configparser._sections st !! name).

(** Every option name the parser holds is in lower case and has no
    trailing white space. *)
Definition names_normal (st : configparser.read_state) : Prop :=
  (∀ n d k, configparser._sections st !! n = Some d → is_Some (d !! k) →
            Py.lower k = k)
  ∧ (∀ k, is_Some (configparser._defaults st !! k) → Py.lower k = k)
  ∧ (∀ o, configparser.optname st = Some o → Py.lower o = o).

(** A secrets file in which the header [[secrets]] occurs twice. *)
Definition two_headers : string :=
  "[secrets]" +:+ NL +:+ NL +:+ "[secrets]" +:+ NL +:+ "a = 1" +:+ NL.

(** ** The loopback address, in the words of the specification *)

(** The host of an endpoint [host:port]: the text before the first
    colon. *)
Fixpoint endpoint_host (location : string) : string :=
  match location with
  | "" => ""
  | String c rest =>
      if Ascii.eqb c ":" then "" else String c (endpoint_host rest)
  end.

(** Follows the specification's words, "resolves to the loopback address":
    the address [127.0.0.1] itself, and the name [localhost], which
    resolves to it. *)
Definition resolves_to_loopback (host : string) : bool :=
  bool_decide (host = "127.0.0.1") || bool_decide (host = "localhost").

(** A fresh production host configured with the name of the local host for
    Redis, and with a memcached on the loopback address at another port. *)
Definition localhost_production : World :=
  world_of ∅ ∅ "127.0.0.1:11212" "localhost" RedisUp.

(** A development checkout whose secrets file has a line that is no
    option. *)
Definition unparsable_development : World :=
  world_of {["zproject/dev-secrets.conf" :=
               "[secrets]" +:+ NL +:+ "avatar_salt" +:+ NL]}
    ∅ "127.0.0.1:11211" "127.0.0.1" RedisUp.

(** * Properties *)

(** ** Strings *)

Section strings.
Implicit Types (s t u : string) (c : ascii) (p : ascii → bool).

Lemma app_cons c s t : String c s +:+ t = String c (s +:+ t).
Proof. reflexivity. Qed.

Lemma app_empty_l s : "" +:+ s = s.
Proof. reflexivity. Qed.

Lemma app_empty_r s : s +:+ "" = s.
Proof. induction s as [|c s IH]; [done|]. by rewrite app_cons, IH. Qed.

Lemma app_assoc_s s t u : (s +:+ t) +:+ u = s +:+ (t +:+ u).
Proof. induction s as [|c s IH]; [done|]. by rewrite !app_cons, IH. Qed.

Lemma length_app_s s t :
  String.length (s +:+ t) = (String.length s + String.length t)%nat.
Proof. induction s as [|c s IH]; [done|]. rewrite app_cons. simpl. lia. Qed.

Lemma all_app p s t : all p (s +:+ t) = all p s && all p t.
Proof.
  induction s as [|c s IH]; [done|].
  rewrite app_cons. simpl. rewrite IH. by rewrite andb_assoc.
Qed.

Lemma all_impl p (q : ascii → bool) s :
  (∀ c, p c = true → q c = true) → all p s = true → all q s = true.
Proof.
  intros Hpq. induction s as [|c s IH]; [done|]. simpl.
  intros [Hc Hs]%andb_prop. by rewrite (Hpq _ Hc), IH.
Qed.

Lemma get_mem n s :
  (n < String.length s)%nat → ∃ c, String.get n s = Some c ∧ mem c s = true.
Proof.
  revert n. induction s as [|c s IH]; intros n Hn; simpl in *; [lia|].
  destruct n as [|n].
  - exists c. by rewrite Ascii.eqb_refl.
  - destruct (IH n) as (c' & Hget & Hmem); [lia|].
    exists c'. split; [done|]. by rewrite Hmem, orb_true_r.
Qed.

Lemma all_mem p s c : all p s = true → mem c s = true → p c = true.
Proof.
  induction s as [|c' s IH]; simpl; [done|].
  intros [Hc' Hs]%andb_prop [->%Ascii.eqb_eq|Hm]%orb_prop; auto.
Qed.

Lemma concat_app (l1 l2 : list string) :
  Py.concat (l1 ++ l2) = Py.concat l1 +:+ Py.concat l2.
Proof.
  induction l1 as [|x l1 IH]; [done|]. simpl.
  unfold Py.concat in *. simpl. by rewrite IH, app_assoc_s.
Qed.

End strings.

(** ** Rules for weakest preconditions *)

Section wp.
Context {A B : Type}.
Implicit Types (m : M A) (f : A → M B) (w : World) (E : exn → Prop).

Lemma wp_ret (a : A) w (Q : A → World → Prop) E : Q a w → wp (mret a) w Q E.
Proof. done. Qed.

Lemma wp_bind m f w (Q : B → World → Prop) E :
  wp m w (λ a w', wp (f a) w' Q E) E → wp (m ≫= f) w Q E.
Proof.
  unfold wp, mbind, M_bind. destruct (m w) as [[a w']|err]; done.
Qed.

Lemma wp_mono m w (Q Q' : A → World → Prop) E E' :
  (∀ a w', Q a w' → Q' a w') → (∀ err, E err → E' err) →
  wp m w Q E → wp m w Q' E'.
Proof.
  intros HQ HE. unfold wp. destruct (m w) as [[a w']|err]; auto.
Qed.

Lemma wp_ok m w (Q : A → World → Prop) :
  wp m w Q (λ _, False) → ∃ a w', m w = Ok (a, w') ∧ Q a w'.
Proof. unfold wp. destruct (m w) as [[a w']|err]; [eauto|done]. Qed.

Lemma wp_inv m w (Q : A → World → Prop) E a w' :
  wp m w Q E → m w = Ok (a, w') → Q a w'.
Proof. unfold wp. intros H Heq. by rewrite Heq in H. Qed.

Lemma wp_inv_raise m w (Q : A → World → Prop) E err :
  wp m w Q E → m w = Raise err → E err.
Proof. unfold wp. intros H Heq. by rewrite Heq in H. Qed.

End wp.

Lemma wp_gets {A} (g : World → A) w (Q : A → World → Prop) E :
  Q (g w) w → wp (gets g) w Q E.
Proof. done. Qed.

Lemma wp_modify (g : World → World) w (Q : unit → World → Prop) E :
  Q tt (g w) → wp (modify g) w Q E.
Proof. done. Qed.

(** ** The frame of a step *)

Lemma frame_refl w : frame w w.
Proof. by split. Qed.

Lemma frame_trans w1 w2 w3 : frame w1 w2 → frame w2 w3 → frame w1 w3.
Proof.
  intros [H1 H2 H3 H4 H5 H6 H7] [G1 G2 G3 G4 G5 G6 G7].
  split; intros; congruence.
Qed.

(** ** The generators *)

Lemma wp_draw w (Q : N → World → Prop) E :
  (∀ r w', frame w w' → Q r w') → wp draw w Q E.
Proof. intros HQ. apply HQ. by split. Qed.

Lemma wp_urandom n w (Q : list N → World → Prop) E :
  (∀ bs w', length bs = n → Forall (λ b, b < 256) bs → frame w w' → Q bs w') →
  wp (urandom n) w Q E.
Proof.
  revert w Q. induction n as [|n IH]; intros w Q HQ; simpl.
  - apply wp_ret, HQ; [done|constructor|apply frame_refl].
  - apply wp_bind, wp_draw. intros r w1 F1.
    apply wp_bind, IH. intros bs w2 Hlen Hbs F2.
    apply wp_ret, HQ; [by rewrite <- Hlen| |by eapply frame_trans].
    constructor; [by apply N.mod_lt|done].
Qed.

Lemma wp_choice seq w (Q : ascii → World → Prop) E :
  seq ≠ "" →
  (∀ c w', mem c seq = true → frame w w' → Q c w') →
  wp (choice seq) w Q E.
Proof.
  intros Hne HQ. unfold choice. apply wp_bind, wp_draw. intros r w' F.
  apply wp_ret.
  destruct (get_mem (N.to_nat (r mod N.of_nat (String.length seq))) seq)
    as (c & -> & Hc).
  { destruct seq; [done|].
    assert (r mod N.of_nat (String.length (String a seq))
            < N.of_nat (String.length (String a seq)))
      by (apply N.mod_lt; simpl; lia).
    lia. }
  by apply HQ.
Qed.

Lemma wp_get_random_string_from n chars w (Q : string → World → Prop) E :
  chars ≠ "" →
  (∀ v w', String.length v = n → all (λ c, mem c chars) v = true →
           frame w w' → Q v w') →
  wp (get_random_string_from n chars) w Q E.
Proof.
  intros Hne. revert w Q. induction n as [|n IH]; intros w Q HQ; simpl.
  - apply wp_ret, HQ; [done|done|apply frame_refl].
  - apply wp_bind, wp_choice; [done|]. intros c w1 Hc F1.
    apply wp_bind, IH. intros v w2 Hlen Hall F2.
    apply wp_ret, HQ; simpl; [by rewrite Hlen|by rewrite Hc, Hall|].
    by eapply frame_trans.
Qed.

Lemma hex_digit_is_hex n : n < 16 → is_hex_lower (hex_digit n) = true.
Proof.
  intros Hn.
  assert (Hcases : Forall (λ k, is_hex_lower (hex_digit (N.of_nat k)) = true)
                     (seq 0 16)) by (by repeat constructor).
  rewrite Forall_forall in Hcases.
  specialize (Hcases (N.to_nat n)). rewrite N2Nat.id in Hcases.
  apply Hcases, elem_of_seq. lia.
Qed.

Lemma b2a_hex_cons b bs :
  b2a_hex (b :: bs)
  = String (hex_digit (b / 16)) (String (hex_digit (b mod 16)) (b2a_hex bs)).
Proof. reflexivity. Qed.

Lemma b2a_hex_shape bs :
  Forall (λ b, b < 256) bs →
  String.length (b2a_hex bs) = (2 * length bs)%nat
  ∧ all is_hex_lower (b2a_hex bs) = true.
Proof.
  induction 1 as [|b bs Hb _ [IHlen IHall]]; [done|].
  rewrite b2a_hex_cons. cbn [String.length all length].
  rewrite IHlen, IHall, !hex_digit_is_hex.
  - split; [lia|done].
  - by apply N.mod_lt.
  - apply N.Div0.div_lt_upper_bound. lia.
Qed.

Lemma wp_generate_random_token n w (Q : string → World → Prop) E :
  (∀ v w', String.length v = (2 * (n / 2))%nat → all is_hex_lower v = true →
           frame w w' → Q v w') →
  wp (generate_random_token n) w Q E.
Proof.
  intros HQ. unfold generate_random_token.
  apply wp_bind, wp_urandom. intros bs w' Hlen Hbs F.
  apply wp_ret. destruct (b2a_hex_shape bs Hbs) as [H1 H2].
  apply HQ; [by rewrite H1, Hlen|done..].
Qed.

Lemma wp_random_token w (Q : string → World → Prop) E :
  (∀ v w', String.length v = 64%nat → all is_hex_lower v = true →
           frame w w' → Q v w') →
  wp random_token w Q E.
Proof. intros HQ. apply wp_generate_random_token. intros; by apply HQ. Qed.

Lemma wp_random_string w (Q : string → World → Prop) E :
  (∀ v w', String.length v = 64%nat → all is_alnum v = true →
           frame w w' → Q v w') →
  wp (random_string 64) w Q E.
Proof.
  intros HQ. apply wp_get_random_string_from; [done|].
  intros v w' Hlen Hall F. apply HQ; [done| |done].
  revert Hall. apply all_impl. intros c. by apply all_mem.
Qed.

Lemma wp_generate_django_secretkey w (Q : string → World → Prop) E :
  (∀ v w', String.length v = 50%nat → all is_secret_key_char v = true →
           frame w w' → Q v w') →
  wp generate_django_secretkey w Q E.
Proof.
  intros HQ. apply wp_get_random_string_from; [done|].
  intros v w' Hlen Hall F. apply HQ; [done| |done].
  revert Hall. apply all_impl. intros c. by apply all_mem.
Qed.

(** ** Slices *)

Lemma take_drop n s : Py.take n s +:+ Py.drop n s = s.
Proof.
  revert s. induction n as [|n IH]; intros [|c s]; simpl; try done.
  by rewrite app_cons, IH.
Qed.

Lemma drop_drop n m s : Py.drop m (Py.drop n s) = Py.drop (n + m) s.
Proof.
  revert s. induction n as [|n IH]; intros [|c s]; simpl; try done.
  by destruct m.
Qed.

Lemma length_take n s : String.length (Py.take n s) = Nat.min n (String.length s).
Proof.
  revert s. induction n as [|n IH]; intros [|c s]; simpl; try done.
  by rewrite IH.
Qed.

Lemma length_drop n s : String.length (Py.drop n s) = (String.length s - n)%nat.
Proof. revert s. induction n as [|n IH]; intros [|c s]; simpl; done. Qed.

Lemma all_take p n s : all p s = true → all p (Py.take n s) = true.
Proof.
  revert s. induction n as [|n IH]; intros [|c s]; simpl; try done.
  intros [-> Hs]%andb_prop. by apply IH.
Qed.

Lemma all_drop p n s : all p s = true → all p (Py.drop n s) = true.
Proof.
  revert s. induction n as [|n IH]; intros [|c s]; simpl; try done.
  intros [_ Hs]%andb_prop. by apply IH.
Qed.

(** ** UUIDs *)

Section uuid.
Local Open Scope Z_scope.

Lemma from_bytes_acc bs acc :
  foldl (λ acc b, acc * 256 + Z.of_N b) acc bs
  = acc * 256 ^ Z.of_nat (length bs) + uuid.from_bytes bs.
Proof.
  unfold uuid.from_bytes. revert acc.
  induction bs as [|b bs IH]; intros acc; simpl foldl.
  - simpl. lia.
  - rewrite IH, (IH (0 * 256 + Z.of_N b)).
    rewrite length_cons, Nat2Z.inj_succ, Z.pow_succ_r by lia. lia.
Qed.

Lemma from_bytes_bound bs :
  Forall (λ b, (b < 256)%N) bs →
  0 ≤ uuid.from_bytes bs < 256 ^ Z.of_nat (length bs).
Proof.
  induction 1 as [|b bs Hb _ IH].
  - by compute.
  - unfold uuid.from_bytes. simpl foldl. rewrite from_bytes_acc.
    rewrite length_cons, Nat2Z.inj_succ, Z.pow_succ_r by lia.
    nia.
Qed.

Lemma high_bits_bound y n :
  0 ≤ n → 0 ≤ y → (∀ k, n ≤ k → Z.testbit y k = false) → y < 2 ^ n.
Proof.
  intros Hn Hy Hbits.
  destruct (decide (y = 0)) as [->|Hne]; [by apply Z.pow_pos_nonneg|].
  apply Z.log2_lt_pow2; [lia|].
  destruct (decide (Z.log2 y < n)) as [|Hge]; [done|].
  pose proof (Z.bit_log2 y ltac:(lia)) as Hbit.
  rewrite Hbits in Hbit; [done|lia].
Qed.

Lemma bound_high_bits y n k :
  0 ≤ y < 2 ^ n → n ≤ k → Z.testbit y k = false.
Proof.
  intros [Hy Hlt] Hk.
  destruct (decide (y = 0)) as [->|Hne]; [apply Z.bits_0|].
  apply Z.bits_above_log2; [done|].
  assert (Z.log2 y < n); [|lia].
  apply Z.log2_lt_pow2; lia.
Qed.

Lemma UUID_of_bytes_v4_bound bs :
  Forall (λ b, (b < 256)%N) bs → length bs = 16%nat →
  0 ≤ uuid.UUID_of_bytes_v4 bs < 2 ^ 128.
Proof.
  intros Hbs Hlen. pose proof (from_bytes_bound bs Hbs) as Hx.
  rewrite Hlen in Hx. change (256 ^ Z.of_nat 16) with (2 ^ 128) in Hx.
  unfold uuid.UUID_of_bytes_v4. set (x := uuid.from_bytes bs) in *.
  split.
  - apply Z.lor_nonneg. split; [|done].
    apply Z.land_nonneg. left. apply Z.lor_nonneg. split; [|done].
    apply Z.land_nonneg. left. lia.
  - apply high_bits_bound; [done| |].
    + apply Z.lor_nonneg. split; [|done].
      apply Z.land_nonneg. left. apply Z.lor_nonneg. split; [|done].
      apply Z.land_nonneg. left. lia.
    + intros k Hk.
      rewrite Z.lor_spec, Z.land_spec, Z.lor_spec, Z.land_spec.
      rewrite (bound_high_bits x 128 k), (bound_high_bits (Z.shiftl 0x8000 48) 128 k),
        (bound_high_bits (Z.shiftl 4 76) 128 k); done.
Qed.

Lemma UUID_of_bytes_v4_version bs :
  uuid.version (uuid.UUID_of_bytes_v4 bs) = 4.
Proof.
  unfold uuid.version, uuid.UUID_of_bytes_v4.
  apply Z.bits_inj'. intros n Hn.
  rewrite Z.land_spec, Z.shiftr_spec, Z.lor_spec, Z.land_spec by done.
  rewrite Z.lnot_spec by lia.
  destruct (decide (4 ≤ n)) as [Hge|Hlt].
  - rewrite (bound_high_bits 0xf 4 n), (bound_high_bits 4 4 n) by done.
    apply andb_false_r.
  - assert (n = 0 ∨ n = 1 ∨ n = 2 ∨ n = 3) as [-> | [-> | [-> | ->]]] by lia;
      simpl; by rewrite ?andb_false_r, ?andb_true_r.
Qed.

End uuid.

Section uuid_text.
Local Open Scope Z_scope.

Lemma length_hexw w n : String.length (uuid.hexw w n) = w.
Proof.
  revert n. induction w as [|w IH]; intros n; simpl; [done|].
  rewrite length_app_s, IH. simpl. lia.
Qed.

Lemma all_hexw w n : all is_hex_lower (uuid.hexw w n) = true.
Proof.
  revert n. induction w as [|w IH]; intros n; simpl; [done|].
  rewrite all_app, IH. simpl. rewrite hex_digit_is_hex; [done|].
  pose proof (Z.mod_pos_bound n 16). lia.
Qed.

Lemma hex_value_hex_digit k :
  0 ≤ k < 16 → uuid.hex_value (hex_digit (Z.to_N k)) = Some k.
Proof.
  intros Hk.
  assert (Hcases : Forall (λ i, uuid.hex_value (hex_digit (N.of_nat i))
                                = Some (Z.of_nat i)) (seq 0 16))
    by (by repeat constructor).
  rewrite Forall_forall in Hcases.
  specialize (Hcases (Z.to_nat k)).
  rewrite Z2Nat.id, <- Z_N_nat, N2Nat.id in Hcases by lia.
  apply Hcases, elem_of_seq. lia.
Qed.

Lemma int16_acc_snoc acc s c :
  uuid.int16_acc acc (s +:+ String c "")
  = a ← uuid.int16_acc acc s; d ← uuid.hex_value c; Some (a * 16 + d).
Proof.
  revert acc. induction s as [|c' s IH]; intros acc.
  - rewrite app_empty_l. simpl. by destruct (uuid.hex_value c).
  - rewrite app_cons. simpl. destruct (uuid.hex_value c'); [apply IH|done].
Qed.

Lemma int16_acc_hexw w acc n :
  uuid.int16_acc acc (uuid.hexw w n)
  = Some (acc * 16 ^ Z.of_nat w + n mod 16 ^ Z.of_nat w).
Proof.
  revert n. induction w as [|w IH]; intros n.
  - simpl. rewrite Z.mod_1_r. f_equal. lia.
  - cbn [uuid.hexw]. rewrite int16_acc_snoc, IH. cbn [mbind option_bind].
    rewrite hex_value_hex_digit by (apply Z.mod_pos_bound; lia).
    cbn [mbind option_bind]. f_equal.
    rewrite Nat2Z.inj_succ, Z.pow_succ_r by lia.
    rewrite (Z.rem_mul_r n 16 (16 ^ Z.of_nat w)) by lia. lia.
Qed.

Lemma format_032x_hexw n : 0 ≤ n < 2 ^ 128 → uuid.format_032x n = uuid.hexw 32 n.
Proof.
  intros Hn. unfold uuid.format_032x. f_equal.
  assert (Z.log2 n < 128).
  { destruct (decide (n = 0)) as [->|]; [done|]. apply Z.log2_lt_pow2; lia. }
  pose proof (Z.log2_nonneg n).
  assert (Z.log2 n / 4 < 32) by (apply Z.div_lt_upper_bound; lia).
  assert (0 ≤ Z.log2 n / 4) by (apply Z.div_pos; lia).
  lia.
Qed.

Lemma remove_dashes_app s t :
  uuid.remove_dashes (s +:+ t) = uuid.remove_dashes s +:+ uuid.remove_dashes t.
Proof.
  induction s as [|c s IH]; [done|]. rewrite app_cons. simpl.
  destruct (Ascii.eqb c "-"); [done|]. by rewrite app_cons, IH.
Qed.

Lemma remove_dashes_hex s : all is_hex_lower s = true → uuid.remove_dashes s = s.
Proof.
  induction s as [|c s IH]; [done|]. simpl.
  intros [Hc Hs]%andb_prop. rewrite IH by done.
  destruct (Ascii.eqb_spec c "-") as [->|]; [done|done].
Qed.

Lemma str_hex n :
  0 ≤ n < 2 ^ 128 → uuid.remove_dashes (uuid.str n) = uuid.hexw 32 n.
Proof.
  intros Hn. unfold uuid.str, Py.slice. rewrite format_032x_hexw by done.
  set (h := uuid.hexw 32 n). pose proof (all_hexw 32 n) as Hh. fold h in Hh.
  clearbody h. rewrite !remove_dashes_app. simpl Nat.sub.
  rewrite (remove_dashes_hex (Py.take 8 h)),
    (remove_dashes_hex (Py.take 4 (Py.drop 8 h))),
    (remove_dashes_hex (Py.take 4 (Py.drop 12 h))),
    (remove_dashes_hex (Py.take 4 (Py.drop 16 h))),
    (remove_dashes_hex (Py.drop 20 h)) by auto using all_take, all_drop.
  change (uuid.remove_dashes "-") with "". rewrite !app_empty_l.
  change (Py.drop 20 h) with (Py.drop (16 + 4) h).
  rewrite <- (drop_drop 16 4), take_drop.
  change (Py.drop 16 h) with (Py.drop (12 + 4) h).
  rewrite <- (drop_drop 12 4), take_drop.
  change (Py.drop 12 h) with (Py.drop (8 + 4) h).
  rewrite <- (drop_drop 8 4), take_drop.
  apply take_drop.
Qed.

Lemma length_str n : 0 ≤ n < 2 ^ 128 → String.length (uuid.str n) = 36%nat.
Proof.
  intros Hn. unfold uuid.str, Py.slice. rewrite format_032x_hexw by done.
  rewrite !length_app_s, !length_take, !length_drop, !length_hexw. done.
Qed.

Lemma UUID_of_hex_str n : 0 ≤ n < 2 ^ 128 → uuid.UUID_of_hex (uuid.str n) = Some n.
Proof.
  intros Hn. unfold uuid.UUID_of_hex. rewrite str_hex, length_hexw by done.
  simpl Nat.eqb. cbv iota. rewrite int16_acc_hexw. f_equal.
  change (16 ^ Z.of_nat 32) with (2 ^ 128). rewrite Z.mod_small; lia.
Qed.

End uuid_text.

Lemma wp_uuid4 w (Q : Z → World → Prop) E :
  (∀ u w', String.length (uuid.str u) = 36%nat →
           uuid.UUID_of_hex (uuid.str u) = Some u →
           uuid.version u = 4%Z →
           frame w w' → Q u w') →
  wp uuid.uuid4 w Q E.
Proof.
  intros HQ. unfold uuid.uuid4. apply wp_bind, wp_urandom.
  intros bs w' Hlen Hbs F. apply wp_ret.
  pose proof (UUID_of_bytes_v4_bound bs Hbs Hlen).
  apply HQ; auto using length_str, UUID_of_hex_str, UUID_of_bytes_v4_version.
Qed.

(** ** Effects of the script's steps *)

Lemma wp_append_file filename text w (Q : unit → World → Prop) E :
  (∀ development, filename ≠ OUTPUT_SETTINGS_FILENAME development) →
  (∀ w', frame w w' → Q tt w') →
  wp (append_file filename text) w Q E.
Proof.
  intros Hne HQ. apply wp_modify, HQ. split; try done.
  intros development. simpl. by rewrite lookup_insert_ne.
Qed.

Lemma wp_append_requirepass filenames redis_password w
    (Q : unit → World → Prop) E :
  Forall (λ f, ∀ development, f ≠ OUTPUT_SETTINGS_FILENAME development)
    filenames →
  (∀ w', frame w w' → Q tt w') →
  wp (append_requirepass filenames redis_password) w Q E.
Proof.
  induction 1 as [|f fs Hf _ IH]; intros HQ; simpl.
  - apply wp_ret, HQ, frame_refl.
  - apply wp_bind, wp_gets.
    destruct (bool_decide _); [by apply wp_append_file|by apply IH].
Qed.

Lemma wp_try_config_set value w (Q : unit → World → Prop) E :
  (∀ w', frame w w' → Q tt w') →
  (∀ err, redis w = RedisFails err → is_ConnectionError err = false → E err) →
  wp (try_except (config_set_requirepass value) is_ConnectionError (mret tt))
     w Q E.
Proof.
  intros HQ HE. unfold wp, try_except, config_set_requirepass.
  destruct (redis w) as [|err] eqn:Hredis.
  - apply HQ. by split.
  - destruct (is_ConnectionError err) eqn:Hcatch.
    + apply HQ, frame_refl.
    + by apply HE.
Qed.

Lemma wp_set_SECRET_KEY secret_key w (Q : unit → World → Prop) E :
  (∀ w', frame w w' → Q tt w') → wp (set_SECRET_KEY secret_key) w Q E.
Proof. intros HQ. apply wp_modify, HQ. by split. Qed.

Lemma wp_getenv name w (Q : Py.value → World → Prop) E :
  Q (environ_get w name) w → wp (getenv name) w Q E.
Proof. done. Qed.

(** ** The invariant of [pending_secrets] *)

Lemma inserts_snoc conf adds kv :
  inserts conf (adds ++ [kv]) = <[kv.1 := kv.2]> (inserts conf adds).
Proof. unfold inserts. by rewrite foldl_app. Qed.

Lemma inserts_lookup_notin conf adds k :
  k ∉ adds.*1 → inserts conf adds !! k = conf !! k.
Proof.
  revert conf. induction adds as [|[k' v] adds IH]; intros conf Hk; [done|].
  rewrite fmap_cons in Hk. apply not_elem_of_cons in Hk as [Hne Hk].
  simpl. rewrite IH by done. by apply lookup_insert_ne.
Qed.

Lemma inserts_lookup_in conf adds k :
  k ∈ adds.*1 → ∃ v, (k, v) ∈ adds ∧ inserts conf adds !! k = Some v.
Proof.
  induction adds as [|[k' v] adds IH] using rev_ind; [by intros ?%elem_of_nil|].
  rewrite fmap_app, inserts_snoc. simpl.
  destruct (decide (k = k')) as [->|Hne].
  - intros _. exists v. rewrite lookup_insert_eq. split; [|done].
    apply elem_of_app. right. by apply list_elem_of_singleton.
  - rewrite elem_of_app, list_elem_of_singleton. intros [Hin|?]; [|done].
    destruct (IH Hin) as (v' & Hv' & Hl). exists v'.
    rewrite lookup_insert_ne by done. split; [|done].
    apply elem_of_app. by left.
Qed.

Section pending.
Context (w0 : World) (conf0 : gmap string string).
Implicit Types (names : list string) (l : Locals)
  (adds : list (string * Py.value)).

Lemma pending_lookup names l adds name :
  pending w0 conf0 names l adds → name ∉ names →
  current_conf l !! name = Py.Str <$> conf0 !! name.
Proof.
  intros [Hn Hc _ _] Hname.
  rewrite Hc, inserts_lookup_notin, lookup_fmap; [done|].
  rewrite Hn. intros [_ ?]%list_elem_of_filter. done.
Qed.

Lemma pending_need_secret names l adds name :
  pending w0 conf0 names l adds → name ∉ names →
  need_secret l name = bool_decide (conf0 !! name = None).
Proof.
  intros Hp Hname. unfold need_secret.
  rewrite (pending_lookup _ _ _ _ Hp Hname).
  destruct (conf0 !! name); done.
Qed.

Lemma pending_init :
  pending w0 conf0 [] (MkLocals (Py.Str <$> conf0) (header conf0)) [].
Proof. split; simpl; [done|done|by rewrite app_nil_r|constructor]. Qed.

Lemma pending_present names l adds name :
  pending w0 conf0 names l adds → name ∉ names →
  need_secret l name = false →
  pending w0 conf0 (names ++ [name]) l adds.
Proof.
  intros Hp Hname Hneed.
  rewrite (pending_need_secret _ _ _ _ Hp Hname) in Hneed.
  apply bool_decide_eq_false in Hneed.
  destruct Hp as [Hn Hc Hl Hv]. split; try done.
  rewrite filter_app, filter_cons_False, filter_nil, app_nil_r; done.
Qed.

Lemma pending_add names l adds name v :
  pending w0 conf0 names l adds → name ∉ names →
  need_secret l name = true → value_shape w0 name v →
  pending w0 conf0 (names ++ [name]) (add_secret name v l)
    (adds ++ [(name, v)]).
Proof.
  intros Hp Hname Hneed Hshape.
  rewrite (pending_need_secret _ _ _ _ Hp Hname) in Hneed.
  apply bool_decide_eq_true in Hneed.
  destruct Hp as [Hn Hc Hl Hv]. split.
  - rewrite fmap_app, Hn, filter_app, filter_cons_True, filter_nil; done.
  - simpl. by rewrite inserts_snoc, Hc.
  - simpl. by rewrite Hl, fmap_app, app_assoc.
  - apply Forall_app. split; [done|]. by repeat constructor.
Qed.

(** One step: [if need_secret(name): ...add_secret(name, v)...]. *)
Lemma wp_step name names l adds w (m : M Locals) (Q : Locals → World → Prop) E :
  pending w0 conf0 names l adds → name ∉ names → frame w0 w →
  (conf0 !! name = None →
   wp m w (λ l' w', ∃ v, l' = add_secret name v l ∧ value_shape w0 name v
                         ∧ frame w w') E) →
  (∀ l' adds' w', pending w0 conf0 (names ++ [name]) l' adds' →
                  frame w0 w' → Q l' w') →
  wp (if need_secret l name then m else mret l) w Q E.
Proof.
  intros Hp Hname F Hm HQ. destruct (need_secret l name) eqn:Hneed.
  - eapply wp_mono; [| |apply Hm]; [|done|].
    + intros l' w' (v & -> & Hshape & F'). eapply HQ.
      * by apply pending_add.
      * by eapply frame_trans.
    + rewrite (pending_need_secret _ _ _ _ Hp Hname) in Hneed.
      by apply bool_decide_eq_true in Hneed.
  - apply wp_ret. eapply HQ; [by apply pending_present|done].
Qed.

(** A step that is present in the script but adds nothing. *)
Lemma wp_step_idle name l w (Q : Locals → World → Prop) E :
  Q l w → wp (if need_secret l name then mret l else mret l) w Q E.
Proof. intros HQ. by destruct (need_secret l name). Qed.

End pending.

Ltac not_in_names :=
  repeat (apply not_elem_of_cons; split; [discriminate|]);
  apply not_elem_of_nil.

Ltac shape_of_value :=
  unfold value_shape;
  repeat match goal with
         | |- context [decide ?P] => destruct (decide P) as [?|?]
         end;
  try done; try (exfalso; intuition congruence); eauto 10.

Section pending_secrets.
Context (w0 : World) (conf0 : gmap string string).

Lemma wp_autogenerate names' names l adds w (Q : Locals → World → Prop) E :
  pending w0 conf0 names l adds → frame w0 w →
  NoDup (names ++ names') →
  Forall (λ name, name ∉ ["postgres_password"; "secret_key"; "camo_key";
                          "zulip_org_key"; "zulip_org_id"]) names' →
  (∀ l' adds' w', pending w0 conf0 (names ++ names') l' adds' →
                  frame w0 w' → Q l' w') →
  wp (autogenerate names' l) w Q E.
Proof.
  revert names l adds w.
  induction names' as [|name names' IH]; intros names l adds w Hp F Hnd Hns HQ.
  - simpl. apply wp_ret. eapply HQ; [by rewrite app_nil_r|done].
  - simpl. apply wp_bind.
    apply NoDup_app in Hnd as (Hnd1 & Hnd2 & Hnd3).
    apply NoDup_cons in Hnd3 as [Hname Hnd3].
    apply Forall_cons in Hns as [Hn Hns].
    eapply wp_step; [done| |done| |].
    + intros Hin. by apply (Hnd2 _ Hin), elem_of_cons; left.
    + intros _. apply wp_bind, wp_random_token. intros v w' Hlen Hall F'.
      apply wp_ret. eexists. split; [done|]. split; [|done].
      repeat (apply not_elem_of_cons in Hn as [? Hn]).
      unfold value_shape. repeat case_decide; try done; [tauto|eauto].
    + intros l' adds' w' Hp' F'. eapply IH; [done|done| |done|].
      * rewrite <- app_assoc. simpl. apply NoDup_app. repeat split; try done.
        by apply NoDup_cons.
      * intros l'' adds'' w'' Hp'' F''. eapply HQ; [|done].
        by rewrite <- app_assoc in Hp''.
Qed.

End pending_secrets.

Lemma get_old_conf_world output_filename w conf w' :
  get_old_conf output_filename w = Ok (conf, w') → w' = w.
Proof.
  unfold get_old_conf. intros H.
  repeat match type of H with
         | context [match ?x with _ => _ end] => destruct x
         end; congruence.
Qed.

Ltac gen_body gen_lemma :=
  apply wp_bind, gen_lemma; intros; apply wp_ret;
  eexists; split; [reflexivity|]; split; [shape_of_value|assumption].

Ltac step_body gen_lemma := intros _; gen_body gen_lemma.

Ltac step_next Hp F := clear Hp F; intros ? ? ? Hp F; simpl app in Hp.

Ltac step_with gen_lemma Hp F :=
  apply wp_bind; eapply wp_step;
  [exact Hp|not_in_names|exact F|step_body gen_lemma|step_next Hp F].

Ltac step_secret_key Hp F :=
  apply wp_bind; eapply wp_step;
  [exact Hp|not_in_names|exact F| |step_next Hp F];
  [intros _; apply wp_bind, wp_generate_django_secretkey; intros;
   apply wp_bind, wp_set_SECRET_KEY; intros; apply wp_ret;
   eexists; split; [reflexivity|]; split;
   [shape_of_value|eapply frame_trans; eassumption]|].

Ltac case_need_secret :=
  match goal with
  | |- wp (if need_secret ?l ?name then _ else _) _ _ _ =>
      destruct (need_secret l name)
  end.

Ltac step_postgres Hp F :=
  eapply wp_step;
  [exact Hp|not_in_names|exact F| |step_next Hp F];
  [intros _; apply wp_bind, wp_getenv, wp_ret;
   eexists; split; [reflexivity|]; split; [|apply frame_refl];
   unfold value_shape, environ_get; simpl; by rewrite (frame_environ _ _ F)|].

Lemma wp_pending_secrets development w conf0 :
  get_old_conf (OUTPUT_SETTINGS_FILENAME development) w = Ok (conf0, w) →
  wp (pending_secrets development) w
    (λ l w', (∃ adds, pending w conf0 (ensured development w) l adds)
             ∧ frame w w')
    (redis_fatal development w conf0).
Proof.
  intros Hconf. unfold pending_secrets. apply wp_bind.
  unfold wp at 1. rewrite Hconf. fold (header conf0).
  apply wp_bind.
  eapply (wp_autogenerate w conf0 _ []);
    [apply pending_init|apply frame_refl| | |].
  { simpl. repeat (apply NoDup_cons; split; [not_in_names|]). constructor. }
  { repeat (apply Forall_cons; split; [not_in_names|]). constructor. }
  simpl app. intros l adds w' Hp F.
  destruct development.
  - simpl andb. cbv beta iota.
    step_with wp_random_token Hp F.
    step_with wp_random_token Hp F.
    step_secret_key Hp F.
    step_with wp_random_string Hp F.
    simpl negb. cbv beta iota. apply wp_bind, wp_ret.
    step_with wp_random_string Hp F.
    step_with wp_uuid4 Hp F.
    step_postgres Hp F.
    split; [eexists; exact Hp|exact F].
  - simpl andb. cbv beta iota.
    do 2 apply wp_bind, wp_ret.
    step_secret_key Hp F.
    step_with wp_random_string Hp F.
    simpl negb. cbv beta iota. do 2 apply wp_bind.
    destruct (bool_decide (MEMCACHED_LOCATION w = "127.0.0.1:11211")) eqn:Hmem;
      [eapply wp_step; [exact Hp|not_in_names|exact F| |step_next Hp F];
       [intros _; apply wp_bind, wp_gets;
        rewrite (frame_memcached _ _ F), Hmem; gen_body wp_random_token|]
      |case_need_secret;
       [apply wp_bind, wp_gets; rewrite (frame_memcached _ _ F), Hmem|];
       apply wp_ret].
    all: destruct (bool_decide (REDIS_HOST w = "127.0.0.1")) eqn:Hredis;
      [eapply wp_step; [exact Hp|not_in_names|exact F| |step_next Hp F];
       [intros Hnone; apply wp_bind, wp_gets;
        rewrite (frame_redis_host _ _ F), Hredis;
        apply wp_bind, wp_random_token; intros v w1 Hlen Hall F1;
        apply wp_bind, wp_append_requirepass;
        [repeat constructor; intros []; discriminate|];
        intros w2 F2; apply wp_bind, wp_try_config_set;
        [intros w3 F3; apply wp_ret; eexists; split; [reflexivity|]; split;
         [shape_of_value
         |exact (frame_trans _ _ _ F1 (frame_trans _ _ _ F2 F3))]
        |intros err Hr Hc; apply bool_decide_eq_true in Hredis;
         repeat split; try done;
         rewrite <- Hr; symmetry;
         exact (frame_redis _ _
                  (frame_trans _ _ _ F (frame_trans _ _ _ F1 F2)))]
       |]
      |case_need_secret;
       [apply wp_bind, wp_gets; rewrite (frame_redis_host _ _ F), Hredis|];
       apply wp_ret].
    all: step_with wp_random_string Hp F.
    all: step_with wp_uuid4 Hp F.
    all: step_postgres Hp F.
    all: unfold ensured; rewrite Hmem, Hredis;
      split; [eexists; exact Hp|exact F].
Qed.

(** ** Runs of [pending_secrets] and [generate_secrets] *)

Lemma get_old_conf_cases output_filename w :
  (∃ conf, get_old_conf output_filename w = Ok (conf, w))
  ∨ (∃ err, get_old_conf output_filename w = Raise err).
Proof.
  destruct (get_old_conf output_filename w) as [[conf w']|err] eqn:H; [|eauto].
  left. exists conf. by rewrite (get_old_conf_world _ _ _ _ H).
Qed.

Lemma pending_secrets_raise development w err :
  get_old_conf (OUTPUT_SETTINGS_FILENAME development) w = Raise err →
  pending_secrets development w = Raise err.
Proof. intros H. unfold pending_secrets, mbind, M_bind. by rewrite H. Qed.

Lemma pending_secrets_ok development w conf0 l w1 :
  get_old_conf (OUTPUT_SETTINGS_FILENAME development) w = Ok (conf0, w) →
  pending_secrets development w = Ok (l, w1) →
  (∃ adds, pending w conf0 (ensured development w) l adds) ∧ frame w w1.
Proof.
  intros Hconf Hrun.
  exact (wp_inv _ _ _ _ _ _ (wp_pending_secrets _ _ _ Hconf) Hrun).
Qed.

Lemma pending_secrets_parsed development w l w1 :
  pending_secrets development w = Ok (l, w1) →
  ∃ conf0, get_old_conf (OUTPUT_SETTINGS_FILENAME development) w
           = Ok (conf0, w).
Proof.
  intros Hrun.
  destruct (get_old_conf_cases (OUTPUT_SETTINGS_FILENAME development) w)
    as [?|[err Herr]]; [done|].
  by rewrite (pending_secrets_raise _ _ _ Herr) in Hrun.
Qed.

Lemma pending_secrets_total development w conf0 :
  get_old_conf (OUTPUT_SETTINGS_FILENAME development) w = Ok (conf0, w) →
  (∀ err, ¬ redis_fatal development w conf0 err) →
  ∃ l w1, pending_secrets development w = Ok (l, w1).
Proof.
  intros Hconf Hredis.
  destruct (pending_secrets development w) as [[l w1]|err] eqn:Hrun; [eauto|].
  destruct (Hredis err).
  exact (wp_inv_raise _ _ _ _ _ (wp_pending_secrets _ _ _ Hconf) Hrun).
Qed.

Lemma generate_secrets_unfold development w :
  generate_secrets development w
  = match pending_secrets development w with
    | Ok (l, w1) => write_secrets development l w1
    | Raise err => Raise err
    end.
Proof. reflexivity. Qed.

Lemma write_secrets_noop development l w :
  lines l = [] →
  ∃ w', write_secrets development l w = Ok (tt, w')
        ∧ fs w' = fs w
        ∧ stdout w'
          = stdout w ++ ["generate_secrets: No new secrets to generate."].
Proof. intros Hl. unfold write_secrets. rewrite Hl. simpl. eauto. Qed.

Lemma write_secrets_append development l w :
  lines l ≠ [] →
  ∃ w', write_secrets development l w = Ok (tt, w')
        ∧ fs w' = <[OUTPUT_SETTINGS_FILENAME development :=
                     default "" (fs w !! OUTPUT_SETTINGS_FILENAME development)
                     +:+ NL +:+ Py.concat (lines l)]> (fs w)
        ∧ stdout w'
          = stdout w ++ ["Generated new secrets in "
                         +:+ OUTPUT_SETTINGS_FILENAME development +:+ "."].
Proof.
  intros Hl. unfold write_secrets.
  destruct (lines l) as [|x ls] eqn:Hlines; [done|]. simpl. eauto.
Qed.

Lemma pending_adds_ensured w conf0 names l adds :
  pending w conf0 names l adds → adds.*1 ⊆ names.
Proof.
  intros [Hn _ _ _] k. rewrite Hn. by intros [_ ?]%list_elem_of_filter.
Qed.

Lemma pending_added w conf0 names l adds k :
  pending w conf0 names l adds →
  k ∈ adds.*1 ↔ k ∈ names ∧ conf0 !! k = None.
Proof.
  intros [Hn _ _ _]. rewrite Hn, list_elem_of_filter. tauto.
Qed.

Lemma pending_conf_lookup w conf0 names l adds k :
  pending w conf0 names l adds →
  current_conf l !! k
  = match conf0 !! k with
    | Some v => Some (Py.Str v)
    | None => if decide (k ∈ names) then current_conf l !! k else None
    end.
Proof.
  intros Hp. destruct (conf0 !! k) as [v|] eqn:Hk.
  - destruct Hp as [Hn Hc _ _].
    rewrite Hc, inserts_lookup_notin, lookup_fmap, Hk; [done|].
    rewrite Hn. intros [? _]%list_elem_of_filter. congruence.
  - case_decide; [done|].
    destruct Hp as [Hn Hc _ _].
    rewrite Hc, inserts_lookup_notin, lookup_fmap, Hk; [done|].
    rewrite Hn. intros [_ ?]%list_elem_of_filter. done.
Qed.

Lemma pending_conf_added w conf0 names l adds k :
  pending w conf0 names l adds → NoDup names → k ∈ adds.*1 →
  ∃ v, (k, v) ∈ adds ∧ current_conf l !! k = Some v ∧ value_shape w k v.
Proof.
  intros [Hn Hc _ Hv] Hnd Hk.
  destruct (inserts_lookup_in (Py.Str <$> conf0) adds k Hk) as (v & Hin & Hl).
  exists v. rewrite Hc. repeat split; try done.
  rewrite Forall_forall in Hv. apply (Hv _ Hin).
Qed.

Lemma ensured_NoDup development w : NoDup (ensured development w).
Proof.
  unfold ensured.
  destruct development; simpl; repeat case_bool_decide; simpl;
    repeat (apply NoDup_cons; split; [not_in_names|]); constructor.
Qed.

Lemma get_old_conf_absent_or_empty output_filename w :
  fs w !! output_filename = None ∨ fs w !! output_filename = Some "" →
  get_old_conf output_filename w = Ok (∅, w).
Proof. unfold get_old_conf. by intros [->| ->]. Qed.

Lemma header_empty : header ∅ = ["[secrets]" +:+ NL].
Proof. reflexivity. Qed.

Lemma header_nonempty (conf : gmap string string) : conf ≠ ∅ → header conf = [].
Proof.
  intros Hne. unfold header.
  destruct (size conf =? 0)%nat eqn:Hsize; [|done].
  apply Nat.eqb_eq, map_size_empty_iff in Hsize. done.
Qed.

Lemma format_line_in_lines w conf0 names l adds k v :
  pending w conf0 names l adds → (k, v) ∈ adds → format_line (k, v) ∈ lines l.
Proof.
  intros [_ _ Hl _] Hin. rewrite Hl. apply elem_of_app. right.
  apply list_elem_of_fmap. eauto.
Qed.

Lemma redis_call_returns_not_fatal development w conf0 err :
  redis_call_returns development w → ¬ redis_fatal development w conf0 err.
Proof.
  intros [->|Hr] (Hdev & _ & _ & Hfails & Hcatch); [done|].
  rewrite Hfails in Hr. congruence.
Qed.

Lemma pending_is_Some w conf0 names l adds k :
  pending w conf0 names l adds → conf0 !! k = None →
  is_Some (current_conf l !! k) ↔ k ∈ adds.*1.
Proof.
  intros [_ Hc _ _] Hk. rewrite Hc. split.
  - intros Hsome. destruct (decide (k ∈ adds.*1)) as [|Hnotin]; [done|].
    rewrite inserts_lookup_notin, lookup_fmap, Hk in Hsome by done.
    by destruct Hsome.
  - intros Hin. destruct (inserts_lookup_in (Py.Str <$> conf0) adds k Hin)
      as (v & _ & ->). eauto.
Qed.

Lemma memcached_ensured w :
  "memcached_password" ∈ ensured false w
  ↔ MEMCACHED_LOCATION w = "127.0.0.1:11211".
Proof.
  unfold ensured, AUTOGENERATED_SETTINGS. cbv iota.
  rewrite !elem_of_app, !elem_of_cons, !elem_of_nil.
  case_bool_decide; case_bool_decide;
    rewrite ?elem_of_cons, ?elem_of_nil; split; intros; try done;
    intuition discriminate.
Qed.

Lemma redis_ensured w :
  "redis_password" ∈ ensured false w ↔ REDIS_HOST w = "127.0.0.1".
Proof.
  unfold ensured, AUTOGENERATED_SETTINGS. cbv iota.
  rewrite !elem_of_app, !elem_of_cons, !elem_of_nil.
  case_bool_decide; case_bool_decide;
    rewrite ?elem_of_cons, ?elem_of_nil; split; intros; try done;
    intuition discriminate.
Qed.

Lemma postgres_ensured development w :
  "postgres_password" ∈ ensured development w.
Proof.
  unfold ensured. rewrite !elem_of_app, !elem_of_cons. tauto.
Qed.

Lemma ensured_known development w : ensured development w ⊆ known_names.
Proof.
  intros k. unfold ensured, known_names, AUTOGENERATED_SETTINGS.
  destruct development; repeat case_bool_decide; simpl;
    rewrite !elem_of_cons, !elem_of_nil; tauto.
Qed.

Lemma format_line_not_header k v :
  k ∈ known_names → format_line (k, v) ≠ "[secrets]" +:+ NL.
Proof.
  intros Hin Heq. apply (f_equal (String.get 0)) in Heq.
  unfold known_names, AUTOGENERATED_SETTINGS in Hin. simpl in Hin.
  repeat (apply elem_of_cons in Hin as [->|Hin]; [by vm_compute in Heq|]).
  by apply elem_of_nil in Hin.
Qed.

(** The values a run assigns have the shape of their generators. *)
Lemma assigned_value_shape development w conf0 l w1 name :
  get_old_conf (OUTPUT_SETTINGS_FILENAME development) w = Ok (conf0, w) →
  pending_secrets development w = Ok (l, w1) →
  conf0 !! name = None → name ∈ ensured development w →
  ∃ v, current_conf l !! name = Some v ∧ value_shape w name v.
Proof.
  intros Hconf Hrun Habsent Hname.
  destruct (pending_secrets_ok _ _ _ _ _ Hconf Hrun) as [[adds Hp] F].
  assert (Hin : name ∈ adds.*1) by by apply (pending_added _ _ _ _ _ _ Hp).
  destruct (pending_conf_added _ _ _ _ _ _ Hp (ensured_NoDup _ _) Hin)
    as (v & _ & Hl & Hshape).
  eauto.
Qed.

(** What [generate_secrets] does after [pending_secrets] has returned. *)
Lemma run_outcome (development : bool) (w : World) (l : Locals) (w1 : World) :
  pending_secrets development w = Ok (l, w1) →
  ∃ w2,
    generate_secrets development w = Ok (tt, w2)
    ∧ (lines l = [] →
       fs w2 = fs w1
       ∧ fs w2 !! OUTPUT_SETTINGS_FILENAME development
         = fs w !! OUTPUT_SETTINGS_FILENAME development
       ∧ stdout w2
         = stdout w ++ ["generate_secrets: No new secrets to generate."])
    ∧ (lines l ≠ [] →
       fs w2 !! OUTPUT_SETTINGS_FILENAME development
       = Some (default "" (fs w !! OUTPUT_SETTINGS_FILENAME development)
               +:+ NL +:+ Py.concat (lines l))
       ∧ stdout w2
         = stdout w ++ ["Generated new secrets in "
                        +:+ OUTPUT_SETTINGS_FILENAME development +:+ "."]).
Proof.
  intros Hrun.
  destruct (pending_secrets_parsed _ _ _ _ Hrun) as [conf0 Hconf].
  destruct (pending_secrets_ok _ _ _ _ _ Hconf Hrun) as [_ F].
  rewrite generate_secrets_unfold, Hrun.
  destruct (decide (lines l = [])) as [Hl|Hl].
  - destruct (write_secrets_noop development l w1 Hl) as (w2 & -> & Hfs & Hout).
    exists w2. split; [done|]. split; [|done]. intros _.
    by rewrite Hfs, Hout, (frame_secrets _ _ F), (frame_stdout _ _ F).
  - destruct (write_secrets_append development l w1 Hl) as (w2 & -> & Hfs & Hout).
    exists w2. split; [done|]. split; [done|]. intros _.
    by rewrite Hfs, Hout, lookup_insert_eq, (frame_secrets _ _ F),
      (frame_stdout _ _ F).
Qed.

(** ** Lines of a text file *)

Lemma read_chars_app r a b :
  read_chars r (a +:+ b) = read_chars (read_chars r a) b.
Proof.
  revert r. induction a as [|c a IH]; intros r; [done|].
  rewrite app_cons. simpl. apply IH.
Qed.

Lemma read_chars_pending_cr r s :
  (pending_cr r = true → current r = "") →
  pending_cr (read_chars r s) = true → current (read_chars r s) = "".
Proof.
  revert r. induction s as [|c s IH]; intros r Hr; [done|].
  simpl. apply IH. unfold read_char.
  destruct (Ascii.eqb c CR); [done|].
  destruct (Ascii.eqb c LF); [by destruct (pending_cr r)|done].
Qed.

Lemma read_chars_oneline ls cur t :
  oneline t = true →
  read_chars (LineReader ls cur false) t = LineReader ls (cur +:+ t) false.
Proof.
  revert cur. induction t as [|c t IH]; intros cur; simpl.
  - by rewrite app_empty_r.
  - intros [Hc Ht]%andb_prop. unfold read_char.
    apply negb_true_iff, orb_false_elim in Hc as [Hlf Hcr].
    rewrite Hlf, Hcr. simpl. rewrite IH by done. by rewrite app_assoc_s.
Qed.

Lemma read_chars_NL r :
  read_chars r NL
  = if pending_cr r then LineReader (completed r) "" false
    else LineReader (completed r ++ [current r]) "" false.
Proof. reflexivity. Qed.

Lemma read_chars_texts ls texts :
  Forall (λ t, oneline t = true) texts →
  read_chars (LineReader ls "" false) (Py.concat ((λ t, t +:+ NL) <$> texts))
  = LineReader (ls ++ texts) "" false.
Proof.
  intros Htexts. revert ls.
  induction Htexts as [|t texts Ht _ IH]; intros ls.
  - by rewrite app_nil_r.
  - rewrite fmap_cons. unfold Py.concat. simpl foldr. fold Py.concat.
    fold (Py.concat ((λ t, t +:+ NL) <$> texts)).
    rewrite !read_chars_app, read_chars_oneline, read_chars_NL by done.
    simpl. rewrite IH. by rewrite <- app_assoc.
Qed.

(** The lines of a file to which a newline and complete lines are
    appended: the old lines, possibly an empty line, the new lines. *)
Lemma file_lines_append old texts :
  Forall (λ t, oneline t = true) texts →
  ∃ blank, (blank = [] ∨ blank = [""])
    ∧ file_lines (old +:+ NL +:+ Py.concat ((λ t, t +:+ NL) <$> texts))
      = file_lines old ++ blank ++ texts.
Proof.
  intros Htexts. unfold file_lines. rewrite !read_chars_app.
  pose proof (read_chars_pending_cr (LineReader [] "" false) old
                ltac:(done)) as Hcr.
  destruct (read_chars (LineReader [] "" false) old) as [ls cur pc].
  rewrite read_chars_NL. simpl in *.
  destruct pc.
  - rewrite Hcr by done. rewrite read_chars_texts by done.
    exists []. split; [by left|]. unfold reader_lines. simpl.
    by rewrite !app_nil_r.
  - rewrite read_chars_texts by done. unfold reader_lines. simpl.
    destruct cur as [|c cur]; simpl.
    + exists [""]. split; [by right|]. by rewrite !app_nil_r, <- app_assoc.
    + exists []. split; [by left|]. by rewrite !app_nil_r.
Qed.

Lemma file_lines_fresh texts :
  Forall (λ t, oneline t = true) texts →
  file_lines (NL +:+ Py.concat ((λ t, t +:+ NL) <$> texts)) = "" :: texts.
Proof.
  intros Htexts. unfold file_lines. rewrite read_chars_app, read_chars_NL.
  simpl. rewrite read_chars_texts by done. unfold reader_lines. simpl.
  by rewrite app_nil_r.
Qed.

(** ** Stripping *)

Section strip.
Implicit Types (s t k v : string) (c : ascii).

Lemma rstrip_cons_nonspace c s :
  Py.isspace c = false → Py.rstrip (String c s) = String c (Py.rstrip s).
Proof. intros Hc. simpl. rewrite Hc. by destruct (Py.rstrip s). Qed.

Lemma rstrip_cons_space c s :
  Py.isspace c = true →
  Py.rstrip (String c s)
  = match Py.rstrip s with "" => "" | r => String c r end.
Proof. intros Hc. simpl. by rewrite Hc. Qed.

Lemma rstrip_app_nonspace k s :
  all (λ c, negb (Py.isspace c)) k = true →
  Py.rstrip (k +:+ s) = k +:+ Py.rstrip s.
Proof.
  induction k as [|c k IH]; [done|]. simpl all.
  intros [Hc Hk]%andb_prop. apply negb_true_iff in Hc.
  rewrite !app_cons, rstrip_cons_nonspace by done. by rewrite IH.
Qed.

Lemma rstrip_idem s : Py.rstrip (Py.rstrip s) = Py.rstrip s.
Proof.
  induction s as [|c s IH]; [done|].
  destruct (Py.isspace c) eqn:Hc.
  - rewrite rstrip_cons_space by done.
    destruct (Py.rstrip s) as [|c' r] eqn:Hr; [done|].
    rewrite rstrip_cons_space by done. by rewrite IH.
  - rewrite !rstrip_cons_nonspace by done. by rewrite IH.
Qed.

Lemma lstrip_idem s : Py.lstrip (Py.lstrip s) = Py.lstrip s.
Proof.
  induction s as [|c s IH]; [done|]. simpl.
  destruct (Py.isspace c) eqn:Hc; [done|]. simpl. by rewrite Hc.
Qed.

Lemma rstrip_lstrip_fixed s :
  Py.rstrip s = s → Py.rstrip (Py.lstrip s) = Py.lstrip s.
Proof.
  induction s as [|c s IH]; [done|]. intros Hs.
  simpl Py.lstrip. destruct (Py.isspace c) eqn:Hc; [|done].
  apply IH. rewrite rstrip_cons_space in Hs by done.
  destruct (Py.rstrip s); [done|]. by injection Hs.
Qed.

Lemma rstrip_strip s : Py.rstrip (Py.strip s) = Py.strip s.
Proof. apply rstrip_lstrip_fixed, rstrip_idem. Qed.

Lemma strip_idem s : Py.strip (Py.strip s) = Py.strip s.
Proof.
  unfold Py.strip at 1. rewrite rstrip_strip. unfold Py.strip.
  by rewrite lstrip_idem.
Qed.

Lemma rstrip_snoc_space s c :
  Py.isspace c = true → Py.rstrip (s +:+ String c "") = Py.rstrip s.
Proof.
  intros Hc. induction s as [|c' s IH].
  - rewrite app_empty_l. simpl. by rewrite Hc.
  - rewrite app_cons. simpl. by rewrite IH.
Qed.

(** The stripped text of a line [k = v]. *)
Lemma strip_line k v :
  key_ok k = true →
  Py.strip (k +:+ " = " +:+ v)
  = k +:+ " =" +:+ Py.rstrip (String " " v).
Proof.
  intros Hk. unfold Py.strip.
  destruct k as [|c k]; [done|]. simpl in Hk.
  apply andb_prop in Hk as [_ [Hc Hk]%andb_prop].
  assert (Hns : all (λ c, negb (Py.isspace c)) (String c k) = true).
  { simpl. apply andb_true_intro. split.
    - unfold key_char_ok in Hc. by repeat apply andb_prop in Hc as [Hc _].
    - revert Hk. apply all_impl. intros c' Hc'. unfold key_char_ok in Hc'.
      by repeat apply andb_prop in Hc' as [Hc' _]. }
  rewrite rstrip_app_nonspace by done.
  change (" = " +:+ v) with (String " " (String "=" (String " " v))).
  rewrite (rstrip_cons_space " ") by done.
  rewrite (rstrip_cons_nonspace "=") by done.
  rewrite app_cons. simpl Py.lstrip.
  simpl in Hns. apply andb_prop in Hns as [Hc' _].
  apply negb_true_iff in Hc'. by rewrite Hc'.
Qed.

Lemma lstrip_rstrip_space v :
  Py.lstrip (Py.rstrip (String " " v)) = Py.strip v.
Proof.
  rewrite rstrip_cons_space by done. unfold Py.strip.
  by destruct (Py.rstrip v).
Qed.

End strip.

(** ** Reading an option line *)

Section option_line.
Import configparser.
Implicit Types (st : read_state) (k v : string).

Lemma key_ok_inv k :
  key_ok k = true →
  ∃ c r, k = String c r
    ∧ Ascii.eqb c "#" = false ∧ Ascii.eqb c ";" = false
    ∧ Ascii.eqb c "[" = false ∧ all key_char_ok k = true.
Proof.
  destruct k as [|c r]; [done|]. simpl.
  intros [[[H1 H2]%andb_prop H3]%andb_prop H4]%andb_prop.
  apply negb_true_iff in H1, H2, H3. exists c, r. by rewrite H4.
Qed.

Lemma key_chars_nonspace k :
  all key_char_ok k = true → all (λ c, negb (Py.isspace c)) k = true.
Proof.
  apply all_impl. intros c Hc. unfold key_char_ok in Hc.
  by repeat apply andb_prop in Hc as [Hc _].
Qed.

Lemma key_chars_lower k : all key_char_ok k = true → Py.lower k = k.
Proof.
  induction k as [|c k IH]; [done|]. simpl.
  intros [Hc Hk]%andb_prop. rewrite IH by done. f_equal.
  unfold key_char_ok in Hc.
  apply andb_prop in Hc as [[_ Hc]%andb_prop _]. by apply Ascii.eqb_eq.
Qed.

Lemma key_chars_oneline k : all key_char_ok k = true → oneline k = true.
Proof.
  apply all_impl. intros c Hc. unfold key_char_ok in Hc.
  by apply andb_prop in Hc as [_ Hc].
Qed.

Lemma rstrip_key k : all key_char_ok k = true → Py.rstrip k = k.
Proof.
  intros Hk%key_chars_nonspace.
  rewrite <- (app_empty_r k) at 1. rewrite rstrip_app_nonspace by done.
  apply app_empty_r.
Qed.

Lemma split_delimiter_key k d s :
  all key_char_ok k = true → is_delimiter d = true →
  split_delimiter (k +:+ String d s) = Some (k, s).
Proof.
  intros Hk Hd. induction k as [|c k IH].
  - rewrite app_empty_l. simpl. by rewrite Hd.
  - simpl in Hk. apply andb_prop in Hk as [Hc Hk].
    rewrite app_cons. simpl. rewrite IH by done.
    unfold key_char_ok in Hc.
    apply andb_prop in Hc as [[[_ Hc]%andb_prop _]%andb_prop _].
    apply negb_true_iff in Hc. by rewrite Hc.
Qed.

Lemma prefix_char a c s :
  Ascii.eqb c a = false → String.prefix (String a "") (String c s) = false.
Proof.
  intros Hc. simpl. destruct (ascii_dec a c) as [->|]; [|done].
  by rewrite Ascii.eqb_refl in Hc.
Qed.

Lemma SECTCRE_match_other c s :
  Ascii.eqb c "[" = false → SECTCRE_match (String c s) = None.
Proof. destruct c as [[] [] [] [] [] [] [] []]; done. Qed.

Lemma comment_check_key k s :
  key_ok k = true →
  existsb (Py.startswith (k +:+ s)) comment_prefixes = false.
Proof.
  intros (c & r & -> & Hhash & Hsemi & _)%key_ok_inv.
  rewrite app_cons. unfold comment_prefixes, Py.startswith.
  cbn [existsb]. by rewrite !prefix_char.
Qed.

Lemma indent_key k s :
  key_ok k = true → default 0%nat (first_nonspace (k +:+ s)) = 0%nat.
Proof.
  intros (c & r & -> & _ & _ & _ & Hchars)%key_ok_inv.
  apply key_chars_nonspace in Hchars. simpl in Hchars.
  apply andb_prop in Hchars as [Hc%negb_true_iff _].
  rewrite app_cons. simpl. by rewrite Hc.
Qed.

Lemma SECTCRE_match_key k s : key_ok k = true → SECTCRE_match (k +:+ s) = None.
Proof.
  intros (c & r & -> & _ & _ & Hbr & _)%key_ok_inv.
  rewrite app_cons. by apply SECTCRE_match_other.
Qed.

Lemma OPTCRE_match_key k v :
  key_ok k = true →
  OPTCRE_match (k +:+ " =" +:+ Py.rstrip (String " " v))
  = Some (k, Py.strip v).
Proof.
  intros (c & r & -> & _ & _ & _ & Hchars)%key_ok_inv.
  unfold OPTCRE_match.
  change (" =" +:+ Py.rstrip (String " " v))
    with (String " " (String "=" (Py.rstrip (String " " v)))).
  assert (Hsplit : ∀ k s,
    all key_char_ok k = true →
    split_delimiter (k +:+ String " " (String "=" s))
    = Some (k +:+ " ", s)).
  { clear. intros k s Hk. induction k as [|c k IH]; [done|].
    simpl in Hk. apply andb_prop in Hk as [Hc Hk].
    rewrite !app_cons. simpl. rewrite IH by done.
    unfold key_char_ok in Hc.
    apply andb_prop in Hc as [[[_ Hc]%andb_prop _]%andb_prop _].
    apply negb_true_iff in Hc. by rewrite Hc. }
  rewrite Hsplit by done.
  rewrite rstrip_app_nonspace by by apply key_chars_nonspace.
  change (Py.rstrip " ") with "". by rewrite app_empty_r, lstrip_rstrip_space.
Qed.

Lemma truthy_key k s : key_ok k = true → Py.truthy (k +:+ s) = true.
Proof. by intros (c & r & -> & _)%key_ok_inv. Qed.

Lemma read_line_option st ref k v :
  key_ok k = true → cursect st = Some ref →
  read_line st (k +:+ " = " +:+ v)
  = if bool_decide ((sectname st, k) ∈ elements_added_options st)
    then Raise (DuplicateOptionError (sectname st) k)
    else Ok (add_option (set_indent_level st 0) ref k (Py.strip v)).
Proof.
  intros Hk Hcur. unfold read_line. cbv zeta.
  rewrite strip_line, comment_check_key, truthy_key, indent_key by done.
  cbn [negb]. rewrite Hcur.
  assert (Hcont :
    match optname st with
    | Some o => if Py.truthy o && (indent_level st <? 0)%nat
                then Some (ref, o) else None
    | None => None
    end = None).
  { destruct (optname st); [|done]. by rewrite andb_false_r. }
  rewrite Hcont, SECTCRE_match_key, OPTCRE_match_key by done.
  change (cursect (set_indent_level st 0)) with (cursect st). rewrite Hcur.
  unfold enter_option.
  destruct (key_ok_inv k Hk) as (c & r & -> & _ & _ & _ & Hchars).
  cbn [Py.truthy]. unfold optionxform.
  rewrite rstrip_key, key_chars_lower, strip_idem by done.
  reflexivity.
Qed.

End option_line.

(** ** The invariant of [_read] *)

Section read_invariant.
Import configparser.
Implicit Types (st : read_state) (ref : sect_ref) (k v o : string)
  (d : gmap string (list string)).

Lemma deref_assign_eq st ref d : deref (assign st ref d) ref = d.
Proof. destruct ref; simpl; [done|]. by rewrite lookup_insert_eq. Qed.

Lemma deref_assign_ne st ref ref' d :
  ref ≠ ref' → deref (assign st ref d) ref' = deref st ref'.
Proof.
  destruct ref, ref'; simpl; try done.
  intros Hne. rewrite lookup_insert_ne; [done|congruence].
Qed.

Lemma deref_assign_dom st ref ref' d :
  dom (deref st ref) ⊆ dom d →
  dom (deref st ref') ⊆ dom (deref (assign st ref d) ref').
Proof.
  intros Hd. destruct (decide (ref = ref')) as [->|Hne].
  - by rewrite deref_assign_eq.
  - by rewrite deref_assign_ne.
Qed.

Lemma ref_of_section n : n ≠ default_section → ref_of n = RefSection n.
Proof. intros Hn. unfold ref_of. by rewrite bool_decide_eq_false_2. Qed.

Lemma ref_of_default : ref_of default_section = RefDefaults.
Proof. done. Qed.

Lemma ref_of_inj n n' : ref_of n = ref_of n' → n = n'.
Proof.
  unfold ref_of. repeat case_bool_decide; try done; congruence.
Qed.

Lemma ref_of_not_default n : ref_of n ≠ RefSection default_section.
Proof. unfold ref_of. case_bool_decide; congruence. Qed.

Lemma wf_initial : wf initial.
Proof. split; simpl; done. Qed.

Lemma wf_set_indent_level st i : wf st → wf (set_indent_level st i).
Proof. intros [H1 H2 H3 H4 H5]. by split. Qed.

Lemma wf_handle_error st : wf st → wf (handle_error st).
Proof. intros [H1 H2 H3 H4 H5]. by split. Qed.

(** Replacing the value of an existing option of the current dictionary. *)
Lemma wf_assign_update st ref o vs :
  wf st → cursect st = Some ref → o ∈ dom (deref st ref) →
  wf (assign st ref (<[o := vs]> (deref st ref))).
Proof.
  intros [H1 H2 H3 H4 H5] Hcur Ho.
  assert (Hdom : dom (<[o := vs]> (deref st ref)) = dom (deref st ref)).
  { rewrite dom_insert_L. by apply subseteq_union_1_L, singleton_subseteq_l. }
  assert (Hsub : ∀ ref',
    dom (deref st ref')
    ⊆ dom (deref (assign st ref (<[o := vs]> (deref st ref))) ref')).
  { intros ref'. apply deref_assign_dom. by rewrite Hdom. }
  assert (Hfields :
    cursect (assign st ref (<[o := vs]> (deref st ref))) = cursect st
    ∧ sectname (assign st ref (<[o := vs]> (deref st ref))) = sectname st
    ∧ optname (assign st ref (<[o := vs]> (deref st ref))) = optname st
    ∧ elements_added_options (assign st ref (<[o := vs]> (deref st ref)))
      = elements_added_options st) by by destruct ref.
  destruct Hfields as (Hf1 & Hf2 & Hf3 & Hf4).
  split.
  - by rewrite Hf1, Hf2.
  - destruct ref as [|n]; simpl; [done|].
    rewrite Hcur in H1. destruct (sectname st) as [n'|]; [|done].
    simpl in H1. injection H1 as H1.
    rewrite lookup_insert_ne; [done|]. intros ->.
    by apply (ref_of_not_default n').
  - intros n k. rewrite Hf4. intros Hin%H3. by apply Hsub.
  - intros o'. rewrite Hf3, Hf1. intros (ref' & Hc & Hin)%H4.
    exists ref'. split; [done|]. by apply Hsub.
  - intros _. rewrite Hf2. rewrite Hcur in H1.
    by destruct (sectname st).
Qed.

Lemma wf_enter_section st header st' :
  wf st → enter_section st header = Ok st' → wf st'.
Proof.
  intros [H1 H2 H3 H4 H5]. unfold enter_section.
  destruct (_sections st !! header) as [d0|] eqn:Hsec.
  - case_bool_decide; [done|]. intros [= <-].
    assert (header ≠ default_section) by congruence.
    split; simpl; try done.
    + by rewrite ref_of_section.
  - case_bool_decide as Hdef.
    + intros [= <-]. subst header. split; simpl; done.
    + intros [= <-]. split; simpl; [| | | |done].
      * by rewrite ref_of_section.
      * by rewrite lookup_insert_ne.
      * intros n k Hin%H3. destruct (ref_of n) as [|n'] eqn:Hn; [done|].
        simpl in *. destruct (decide (n' = header)) as [->|Hne].
        -- rewrite Hsec in Hin. simpl in Hin. by apply elem_of_empty in Hin.
        -- by rewrite lookup_insert_ne.
      * done.
Qed.

Lemma wf_add_option st ref k val :
  wf st → cursect st = Some ref → wf (add_option st ref k val).
Proof.
  intros [H1 H2 H3 H4 H5] Hcur.
  rewrite Hcur in H1. destruct (sectname st) as [n|] eqn:Hn; [|done].
  simpl in H1. injection H1 as ->.
  assert (Hsub : ∀ ref',
    dom (deref st ref')
    ⊆ dom (deref (add_option st (ref_of n) k val) ref')).
  { intros ref'.
    change (deref (add_option st (ref_of n) k val) ref')
      with (deref (assign st (ref_of n)
                     (<[k := [val]]> (deref st (ref_of n)))) ref').
    apply deref_assign_dom.
    rewrite dom_insert_L. apply union_subseteq_r. }
  assert (Heq : deref (add_option st (ref_of n) k val) (ref_of n)
                = <[k := [val]]> (deref st (ref_of n))).
  { change (deref (add_option st (ref_of n) k val) (ref_of n))
      with (deref (assign st (ref_of n)
                     (<[k := [val]]> (deref st (ref_of n)))) (ref_of n)).
    apply deref_assign_eq. }
  assert (Hfields :
    cursect (add_option st (ref_of n) k val) = Some (ref_of n)
    ∧ sectname (add_option st (ref_of n) k val) = Some n
    ∧ optname (add_option st (ref_of n) k val) = Some k
    ∧ elements_added_options (add_option st (ref_of n) k val)
      = {[(Some n, k)]} ∪ elements_added_options st).
  { unfold add_option. destruct (ref_of n); simpl; by rewrite ?Hcur, ?Hn. }
  destruct Hfields as (Hf1 & Hf2 & Hf3 & Hf4).
  split.
  - by rewrite Hf1, Hf2.
  - unfold add_option. destruct (ref_of n) as [|n'] eqn:Href; simpl; [done|].
    rewrite lookup_insert_ne; [done|]. intros ->.
    by apply (ref_of_not_default n).
  - intros n' k'. rewrite Hf4, elem_of_union, elem_of_singleton.
    intros [[= -> ->]|Hin].
    + rewrite Heq, dom_insert_L. by apply elem_of_union_l, elem_of_singleton.
    + by apply Hsub, H3.
  - intros o. rewrite Hf3, Hf1. intros [= <-]. exists (ref_of n).
    split; [done|]. rewrite Heq, dom_insert_L.
    by apply elem_of_union_l, elem_of_singleton.
  - intros _. by rewrite Hf2.
Qed.

End read_invariant.

Section read_line_invariant.
Import configparser.
Implicit Types (st : read_state) (ref : sect_ref).

Lemma enter_option_add st ref option_ optval :
  enter_option st ref option_ optval
  = let st1 := if Py.truthy option_ then st else handle_error st in
    let o := optionxform (Py.rstrip option_) in
    if bool_decide ((sectname st1, o) ∈ elements_added_options st1)
    then Raise (DuplicateOptionError (sectname st1) o)
    else Ok (add_option st1 ref o (Py.strip optval)).
Proof. reflexivity. Qed.

Lemma wf_enter_option st ref option_ optval st' :
  wf st → cursect st = Some ref →
  enter_option st ref option_ optval = Ok st' → wf st'.
Proof.
  intros Hwf Hcur. rewrite enter_option_add. cbv zeta.
  case_bool_decide; [done|]. intros [= <-].
  apply wf_add_option; destruct (Py.truthy option_);
    auto using wf_handle_error.
Qed.

Lemma wf_append_value st ref o (v : string) st' :
  wf st → cursect st = Some ref →
  match deref st ref !! o with
  | Some vs => Ok (assign st ref (<[o := vs ++ [v]]> (deref st ref)))
  | None => Raise (KeyError o)
  end = Ok st' →
  wf st'.
Proof.
  intros Hwf Hcur. destruct (deref st ref !! o) as [vs'|] eqn:Ho; [|done].
  intros [= <-]. apply wf_assign_update; [done|done|].
  apply elem_of_dom. eauto.
Qed.

(** Every iteration of the loop of [_read] keeps the invariant. *)
Lemma wf_read_line st line st' :
  wf st → read_line st line = Ok st' → wf st'.
Proof.
  intros Hwf. unfold read_line. cbv zeta.
  destruct (negb _).
  - destruct (existsb _ _); [by intros [= <-]|].
    destruct (cursect st) as [ref|] eqn:Hcur; [|by intros [= <-]].
    destruct (optname st) as [o|]; [|by intros [= <-]].
    destruct (Py.truthy o); [|by intros [= <-]].
    by apply wf_append_value.
  - destruct (cursect st) as [ref|] eqn:Hcur.
    + destruct (optname st) as [o|].
      * destruct (Py.truthy o && _).
        -- by apply wf_append_value.
        -- destruct (SECTCRE_match _) as [header|].
           ++ apply wf_enter_section. by apply wf_set_indent_level.
           ++ change (cursect (set_indent_level st
                        (default 0%nat (first_nonspace line))))
                with (cursect st). rewrite Hcur.
              destruct (OPTCRE_match _) as [[option_ optval]|].
              ** apply wf_enter_option; [by apply wf_set_indent_level|done].
              ** intros [= <-].
                 by apply wf_handle_error, wf_set_indent_level.
      * destruct (SECTCRE_match _) as [header|].
        -- apply wf_enter_section. by apply wf_set_indent_level.
        -- change (cursect (set_indent_level st
                     (default 0%nat (first_nonspace line))))
             with (cursect st). rewrite Hcur.
           destruct (OPTCRE_match _) as [[option_ optval]|].
           ++ apply wf_enter_option; [by apply wf_set_indent_level|done].
           ++ intros [= <-].
              by apply wf_handle_error, wf_set_indent_level.
    + destruct (SECTCRE_match _) as [header|].
      * apply wf_enter_section. by apply wf_set_indent_level.
      * change (cursect (set_indent_level st
                  (default 0%nat (first_nonspace line))))
          with (cursect st). by rewrite Hcur.
Qed.

Lemma wf_read_lines st lines st' :
  wf st → read_lines st lines = Ok st' → wf st'.
Proof.
  revert st. induction lines as [|line lines IH]; intros st Hwf; simpl.
  - by intros [= <-].
  - destruct (read_line st line) as [st1|err] eqn:Hline; [|done].
    apply IH. by eapply wf_read_line.
Qed.

Lemma read_lines_app st l1 l2 :
  read_lines st (l1 ++ l2)
  = match read_lines st l1 with
    | Ok st' => read_lines st' l2
    | Raise err => Raise err
    end.
Proof.
  revert st. induction l1 as [|line l1 IH]; intros st; simpl; [done|].
  destruct (read_line st line); [apply IH|done].
Qed.

End read_line_invariant.

(** ** Reading appended option lines *)

Section appended.
Import configparser.
Implicit Types (st : read_state) (ref : sect_ref) (m : gmap string string)
  (kvs : list (string * string)).

Lemma join_value_single v : join_value [Py.strip v] = Py.strip v.
Proof. unfold join_value. simpl. apply rstrip_strip. Qed.

Lemma join_snoc_empty vs :
  vs ≠ [] → Py.join NL (vs ++ [""]) = Py.join NL vs +:+ NL.
Proof.
  induction vs as [|v vs IH]; [done|]. intros _.
  destruct vs as [|v' vs].
  - simpl. by rewrite app_empty_r.
  - change (Py.join NL ((v :: v' :: vs) ++ [""]))
      with (v +:+ NL +:+ Py.join NL ((v' :: vs) ++ [""])).
    rewrite IH by done.
    change (Py.join NL (v :: v' :: vs))
      with (v +:+ NL +:+ Py.join NL (v' :: vs)).
    by rewrite !app_assoc_s.
Qed.

Lemma join_value_snoc_empty vs : join_value (vs ++ [""]) = join_value vs.
Proof.
  unfold join_value. destruct vs as [|v vs]; [done|].
  rewrite join_snoc_empty by done. by apply rstrip_snoc_space.
Qed.

Lemma items_of_join st :
  items_of st
  = (λ d, d ∪ defaults (join_multiline_values st))
    <$> (sections (join_multiline_values st) !! "secrets").
Proof.
  unfold items_of, join_multiline_values. simpl. rewrite lookup_fmap.
  by destruct (_sections st !! "secrets").
Qed.

Lemma items_of_read content p :
  read content = Ok p →
  ∃ st, read_lines initial (file_lines content) = Ok st ∧ e st = false
        ∧ p = join_multiline_values st
        ∧ items p "secrets" = match items_of st with
                              | Some m => Ok m
                              | None => Raise (NoSectionError "secrets")
                              end.
Proof.
  unfold read. destruct (read_lines _ _) as [st|err]; [|done].
  destruct (e st) eqn:He; [done|]. intros [= <-].
  exists st. repeat split; try done.
  rewrite items_of_join. unfold items.
  by destruct (sections (join_multiline_values st) !! "secrets").
Qed.

Lemma items_of_dom st m :
  items_of st = Some m →
  dom m = dom (deref st (RefSection "secrets")) ∪ dom (deref st RefDefaults).
Proof.
  unfold items_of. simpl.
  destruct (_sections st !! "secrets") as [d|]; [|done].
  intros [= <-]. by rewrite dom_union_L, !dom_fmap_L.
Qed.

Lemma join_assign_snoc_empty st ref o vs :
  deref st ref !! o = Some vs →
  join_multiline_values (assign st ref (<[o := vs ++ [""]]> (deref st ref)))
  = join_multiline_values st.
Proof.
  intros Ho.
  assert (Hd : ∀ d : gmap string (list string),
    d !! o = Some vs →
    join_value <$> <[o := vs ++ [""]]> d = join_value <$> d).
  { intros d Hdo. rewrite fmap_insert, join_value_snoc_empty.
    apply insert_id. by rewrite lookup_fmap, Hdo. }
  unfold join_multiline_values. destruct ref as [|n]; simpl in *.
  - by rewrite Hd.
  - destruct (_sections st !! n) as [d|] eqn:Hn; simpl in *.
    + rewrite fmap_insert, Hd by done. f_equal.
      apply insert_id. by rewrite lookup_fmap, Hn.
    + by rewrite lookup_empty in Ho.
Qed.

(** A blank line changes nothing that [items] can see. *)
Lemma read_blank_line st :
  wf st →
  ∃ st', read_line st "" = Ok st' ∧ wf st'
    ∧ cursect st' = cursect st ∧ sectname st' = sectname st
    ∧ e st' = e st
    ∧ elements_added_options st' = elements_added_options st
    ∧ items_of st' = items_of st.
Proof.
  intros Hwf.
  destruct (read_line st "") as [st'|err] eqn:Hline.
  - exists st'. split; [done|]. split; [by eapply wf_read_line|].
    revert Hline. unfold read_line. simpl.
    destruct (cursect st) as [ref|] eqn:Hcur; [|by intros [= <-]].
    destruct (optname st) as [o|]; [|by intros [= <-]].
    destruct (Py.truthy o); [|by intros [= <-]].
    destruct (deref st ref !! o) as [vs|] eqn:Ho; [|done].
    intros [= <-]. repeat split; try by destruct ref.
    by rewrite !items_of_join, join_assign_snoc_empty.
  - exfalso. revert Hline. unfold read_line. simpl.
    destruct (cursect st) as [ref|] eqn:Hcur; [|done].
    destruct (optname st) as [o|] eqn:Hopt; [|done].
    destruct (Py.truthy o); [|done].
    destruct (wf_optname st Hwf o Hopt) as (ref' & Href & Hin).
    rewrite Hcur in Href. injection Href as <-.
    apply elem_of_dom in Hin as [vs ->]. done.
Qed.

End appended.

Section option_lines.
Import configparser.
Implicit Types (st : read_state) (m : gmap string string)
  (kvs : list (string * string)).

Lemma add_option_fields st ref k val :
  cursect (add_option st ref k val) = cursect st
  ∧ sectname (add_option st ref k val) = sectname st
  ∧ e (add_option st ref k val) = e st.
Proof. by destruct ref. Qed.

Lemma items_of_set_indent_level st i :
  items_of (set_indent_level st i) = items_of st.
Proof. reflexivity. Qed.

Lemma items_of_add_option st n k v m :
  items_of st = Some m → m !! k = None →
  items_of (add_option st (ref_of n) k (Py.strip v))
  = Some (if decide (n = "secrets" ∨ n = default_section)
          then <[k := Py.strip v]> m else m).
Proof.
  unfold items_of. intros Hm Hk.
  destruct (_sections st !! "secrets") as [d|] eqn:Hsec; [|done].
  simpl in Hm. injection Hm as <-.
  apply lookup_union_None in Hk as [Hk1 Hk2].
  unfold ref_of. case_bool_decide as Hdef.
  - subst n. rewrite decide_True by by right. simpl. rewrite Hsec. simpl.
    f_equal. rewrite fmap_insert, join_value_single.
    by rewrite insert_union_r.
  - destruct (decide (n = "secrets")) as [->|Hne].
    + rewrite decide_True by by left. simpl.
      rewrite lookup_insert_eq, Hsec. simpl. f_equal.
      rewrite fmap_insert, join_value_single. by rewrite insert_union_l.
    + rewrite decide_False by (intros [?|?]; done). simpl.
      rewrite lookup_insert_ne by done. by rewrite Hsec.
Qed.

Lemma with_options_lookup_notin m kvs k :
  k ∉ kvs.*1 → with_options m kvs !! k = m !! k.
Proof.
  revert m. induction kvs as [|[k' v] kvs IH]; intros m Hk; [done|].
  rewrite fmap_cons in Hk. apply not_elem_of_cons in Hk as [Hne Hk].
  unfold with_options in *. simpl. rewrite IH by done.
  by apply lookup_insert_ne.
Qed.

(** Reading the option lines of [kvs], whose names are new, from a state
    whose current section is [n]: in the sections [secrets] and [DEFAULT]
    the lines are accepted and extend what [items] returns; in another
    section they leave it unchanged, if they are accepted. *)
Lemma read_option_lines kvs st n m :
  wf st → sectname st = Some n → items_of st = Some m →
  Forall (λ kv, key_ok kv.1 = true) kvs → NoDup kvs.*1 →
  Forall (λ kv, m !! kv.1 = None) kvs →
  match read_lines st (option_text <$> kvs) with
  | Ok st' =>
      e st' = e st
      ∧ items_of st'
        = Some (if decide (n = "secrets" ∨ n = default_section)
                then with_options m kvs else m)
  | Raise err => ¬ (n = "secrets" ∨ n = default_section)
  end.
Proof.
  revert st m.
  induction kvs as [|[k v] kvs IH]; intros st m Hwf Hn Hm Hkeys Hnd Hfresh.
  - simpl. split; [done|]. by destruct (decide _).
  - rewrite fmap_cons in Hnd. apply NoDup_cons in Hnd as [Hk Hnd].
    apply Forall_cons in Hkeys as [Hkey Hkeys].
    apply Forall_cons in Hfresh as [Hkfresh Hfresh].
    cbn [fst snd] in Hkey, Hkfresh, Hk.
    pose proof (wf_cursect st Hwf) as Hcur. rewrite Hn in Hcur. simpl in Hcur.
    rewrite fmap_cons. cbn [read_lines]. unfold option_text at 1.
    cbn [fst snd]. rewrite (read_line_option st (ref_of n)) by done.
    case_bool_decide as Hdup.
    + rewrite Hn in Hdup. apply (wf_added st Hwf) in Hdup.
      intros Hint. apply not_elem_of_dom in Hkfresh. apply Hkfresh.
      rewrite (items_of_dom st m Hm).
      destruct Hint as [->| ->]; [apply elem_of_union_l|apply elem_of_union_r];
        done.
    + set (st1 := add_option (set_indent_level st 0) (ref_of n) k (Py.strip v)).
      assert (Hwf1 : wf st1).
      { apply wf_add_option; [by apply wf_set_indent_level|done]. }
      assert (Hn1 : sectname st1 = Some n).
      { unfold st1. by destruct (ref_of n). }
      assert (He1 : e st1 = e st).
      { unfold st1. by destruct (ref_of n). }
      pose proof (items_of_add_option (set_indent_level st 0) n k v m Hm Hkfresh)
        as Hm1. fold st1 in Hm1.
      destruct (decide (n = "secrets" ∨ n = default_section)) as [Hint|Hint].
      * assert (Hfresh1 :
          Forall (λ kv, <[k := Py.strip v]> m !! kv.1 = None) kvs).
        { apply Forall_forall. intros kv Hin.
          rewrite Forall_forall in Hfresh.
          rewrite lookup_insert_ne; [by apply Hfresh|].
          intros ->. apply Hk. apply list_elem_of_fmap. eauto. }
        specialize (IH st1 (<[k := Py.strip v]> m) Hwf1 Hn1 Hm1 Hkeys Hnd
                      Hfresh1).
        destruct (read_lines st1 (option_text <$> kvs)) as [st'|err]; [|done].
        destruct IH as [He Hitems].
        split; [congruence|done].
      * specialize (IH st1 m Hwf1 Hn1 Hm1 Hkeys Hnd Hfresh).
        destruct (read_lines st1 (option_text <$> kvs)) as [st'|err]; [|done].
        destruct IH as [He Hitems].
        split; [congruence|done].
Qed.

End option_lines.

(** ** Reading back a file to which options were appended *)

Section read_back.
Import configparser.
Implicit Types (kvs : list (string * string)) (m : gmap string string).

Lemma option_text_oneline kv :
  key_ok kv.1 = true → oneline kv.2 = true → oneline (option_text kv) = true.
Proof.
  intros (c & r & Hk & _ & _ & _ & Hchars)%key_ok_inv Hv.
  unfold option_text, oneline. rewrite !all_app.
  apply key_chars_oneline in Hchars. unfold oneline in Hchars, Hv.
  by rewrite Hchars, Hv.
Qed.

Lemma option_texts_oneline kvs :
  Forall (λ kv, key_ok kv.1 = true) kvs →
  Forall (λ kv, oneline kv.2 = true) kvs →
  Forall (λ t, oneline t = true) (option_text <$> kvs).
Proof.
  intros Hk Hv. apply Forall_fmap, Forall_forall. intros kv Hin.
  rewrite Forall_forall in Hk, Hv. apply option_text_oneline; auto.
Qed.

Lemma fmap_option_lines kvs :
  (λ kv, option_text kv +:+ NL) <$> kvs
  = (λ t, t +:+ NL) <$> (option_text <$> kvs).
Proof. by rewrite <- list_fmap_compose. Qed.

(** The file [old] followed by a newline and the option lines of [kvs]. *)
Lemma read_appended old st0 m0 kvs :
  read_lines initial (file_lines old) = Ok st0 →
  items_of st0 = Some m0 →
  Forall (λ kv, key_ok kv.1 = true) kvs →
  Forall (λ kv, oneline kv.2 = true) kvs →
  NoDup kvs.*1 →
  Forall (λ kv, m0 !! kv.1 = None) kvs →
  ∃ n, sectname st0 = Some n
    ∧ match read_lines initial
              (file_lines
                 (old +:+ NL
                  +:+ Py.concat ((λ kv, option_text kv +:+ NL) <$> kvs))) with
      | Ok st2 =>
          e st2 = e st0
          ∧ items_of st2
            = Some (if decide (n = "secrets" ∨ n = default_section)
                    then with_options m0 kvs else m0)
      | Raise err => ¬ (n = "secrets" ∨ n = default_section)
      end.
Proof.
  intros Hold Hm0 Hkeys Hvals Hnd Hfresh.
  assert (Hwf0 : wf st0) by (eapply wf_read_lines; [apply wf_initial|done]).
  destruct (wf_sectname st0 Hwf0) as [n Hn].
  { unfold items_of in Hm0. intros Hempty. rewrite Hempty in Hm0. done. }
  exists n. split; [done|].
  rewrite fmap_option_lines.
  destruct (file_lines_append old (option_text <$> kvs)) as (blank & Hb & ->).
  { by apply option_texts_oneline. }
  rewrite read_lines_app, Hold.
  assert (Hblank : ∃ st1, read_lines st0 blank = Ok st1 ∧ wf st1
            ∧ sectname st1 = Some n ∧ e st1 = e st0
            ∧ items_of st1 = Some m0).
  { destruct Hb as [->| ->].
    - by exists st0.
    - destruct (read_blank_line st0 Hwf0)
        as (st1 & Hl & Hwf1 & _ & Hs & He & _ & Hi).
      exists st1. simpl. rewrite Hl.
      split; [done|]. split; [done|]. split; [congruence|].
      split; [done|congruence]. }
  destruct Hblank as (st1 & Hl & Hwf1 & Hn1 & He1 & Hm1).
  rewrite read_lines_app, Hl.
  pose proof (read_option_lines kvs st1 n m0 Hwf1 Hn1 Hm1 Hkeys Hnd Hfresh)
    as Hopts.
  destruct (read_lines st1 (option_text <$> kvs)) as [st2|err]; [|done].
  destruct Hopts as [He Hitems]. split; [congruence|done].
Qed.

(** The file a run writes when there was none: a blank line, the section
    header and the option lines of [kvs]. *)
Lemma read_fresh kvs :
  Forall (λ kv, key_ok kv.1 = true) kvs →
  Forall (λ kv, oneline kv.2 = true) kvs →
  NoDup kvs.*1 →
  ∃ st2,
    read_lines initial
      (file_lines
         (NL +:+ "[secrets]" +:+ NL
          +:+ Py.concat ((λ kv, option_text kv +:+ NL) <$> kvs)))
    = Ok st2
    ∧ e st2 = false ∧ items_of st2 = Some (with_options ∅ kvs).
Proof.
  intros Hkeys Hvals Hnd.
  rewrite fmap_option_lines.
  change ("[secrets]" +:+ NL
          +:+ Py.concat ((λ t, t +:+ NL) <$> (option_text <$> kvs)))
    with (Py.concat ((λ t, t +:+ NL)
                     <$> ("[secrets]" :: (option_text <$> kvs)))).
  rewrite file_lines_fresh.
  2:{ apply Forall_cons. split; [done|]. by apply option_texts_oneline. }
  set (st1 := ReadState {["secrets" := ∅]} ∅ {["secrets"]} ∅
                (Some (RefSection "secrets")) (Some "secrets") None 0 false).
  assert (Hst1 : read_lines initial ["" ; "[secrets]"] = Ok st1)
    by (vm_compute; reflexivity).
  change ("" :: "[secrets]" :: (option_text <$> kvs))
    with (["" ; "[secrets]"] ++ (option_text <$> kvs)).
  rewrite read_lines_app, Hst1.
  assert (Hwf1 : wf st1) by (eapply wf_read_lines; [apply wf_initial|done]).
  assert (Hm1 : items_of st1 = Some ∅) by (vm_compute; reflexivity).
  pose proof (read_option_lines kvs st1 "secrets" ∅ Hwf1 eq_refl Hm1 Hkeys Hnd)
    as Hopts.
  destruct (read_lines st1 (option_text <$> kvs)) as [st2|err].
  - destruct Hopts as [He Hitems].
    { apply Forall_forall. intros. apply lookup_empty. }
    exists st2. rewrite decide_True in Hitems by by left. done.
  - destruct Hopts; [|by left].
    apply Forall_forall. intros. apply lookup_empty.
Qed.

End read_back.

(** ** The file a run leaves *)

Lemma hex_lower_not_linebreak c :
  is_hex_lower c = true → negb (is_linebreak c) = true.
Proof. destruct c as [[] [] [] [] [] [] [] []]; done. Qed.

Lemma alnum_not_linebreak c :
  is_alnum c = true → negb (is_linebreak c) = true.
Proof. destruct c as [[] [] [] [] [] [] [] []]; done. Qed.

Lemma secret_key_char_not_linebreak c :
  is_secret_key_char c = true → negb (is_linebreak c) = true.
Proof. destruct c as [[] [] [] [] [] [] [] []]; done. Qed.

Lemma int16_acc_oneline s acc n :
  uuid.int16_acc acc s = Some n →
  all (λ c, bool_decide (is_Some (uuid.hex_value c))) s = true.
Proof.
  revert acc. induction s as [|c s IH]; intros acc; [done|]. simpl.
  destruct (uuid.hex_value c) as [d|]; [|done].
  intros Hs%IH. rewrite Hs. by rewrite bool_decide_eq_true_2.
Qed.

Lemma remove_dashes_all (p : ascii → bool) s :
  all p (uuid.remove_dashes s) = true →
  all (λ c, Ascii.eqb c "-" || p c) s = true.
Proof.
  induction s as [|c s IH]; [done|]. simpl.
  destruct (Ascii.eqb c "-"); simpl; [done|].
  intros [-> Hs]%andb_prop. by apply IH.
Qed.

Lemma UUID_of_hex_oneline s n : uuid.UUID_of_hex s = Some n → oneline s = true.
Proof.
  unfold uuid.UUID_of_hex. destruct (_ =? _)%nat; [|done].
  intros Hs%int16_acc_oneline%remove_dashes_all.
  revert Hs. apply all_impl. intros c.
  destruct c as [[] [] [] [] [] [] [] []]; done.
Qed.

Lemma value_shape_oneline w k v :
  env_oneline w → value_shape w k v → oneline (Py.str v) = true.
Proof.
  intros Henv. unfold value_shape. repeat case_decide.
  - by intros ->.
  - intros (s & -> & _ & Hs). revert Hs.
    apply all_impl, secret_key_char_not_linebreak.
  - intros (s & -> & _ & Hs). revert Hs. apply all_impl, alnum_not_linebreak.
  - intros (u & -> & _ & Hu & _). by eapply UUID_of_hex_oneline.
  - intros (s & -> & _ & Hs). revert Hs.
    apply all_impl, hex_lower_not_linebreak.
Qed.

Lemma known_names_key_ok : Forall (λ k, key_ok k = true) known_names.
Proof. by repeat constructor. Qed.

Lemma texts_of_keys adds : (texts_of adds).*1 = adds.*1.
Proof. unfold texts_of. by rewrite <- list_fmap_compose. Qed.

Lemma format_lines_texts adds :
  format_line <$> adds = (λ kv, option_text kv +:+ NL) <$> texts_of adds.
Proof.
  unfold texts_of. rewrite <- list_fmap_compose. apply list_fmap_ext.
  intros _ [k v] _. unfold format_line, option_text. simpl.
  by rewrite !app_assoc_s.
Qed.

(** The assignments of a run are option lines that read back. *)
Lemma pending_texts development w conf0 l adds :
  pending w conf0 (ensured development w) l adds → env_oneline w →
  Forall (λ kv, key_ok kv.1 = true) (texts_of adds)
  ∧ Forall (λ kv, oneline kv.2 = true) (texts_of adds)
  ∧ NoDup (texts_of adds).*1
  ∧ Forall (λ kv, conf0 !! kv.1 = None) (texts_of adds).
Proof.
  intros Hp Henv. pose proof (pending_adds_ensured _ _ _ _ _ Hp) as Hsub.
  destruct Hp as [Hn _ _ Hv]. repeat split.
  - apply Forall_fmap, Forall_forall. intros [k v] Hin. simpl.
    pose proof known_names_key_ok as Hok. rewrite Forall_forall in Hok.
    apply Hok, ensured_known with development w, Hsub.
    apply list_elem_of_fmap. by exists (k, v).
  - apply Forall_fmap. eapply Forall_impl; [exact Hv|].
    intros [k v] Hshape. simpl in *. by eapply value_shape_oneline.
  - rewrite texts_of_keys, Hn. apply NoDup_filter, ensured_NoDup.
  - apply Forall_fmap, Forall_forall. intros [k v] Hin. simpl.
    assert (Hk : k ∈ adds.*1) by (apply list_elem_of_fmap; by exists (k, v)).
    rewrite Hn in Hk. by apply list_elem_of_filter in Hk as [? _].
Qed.

Lemma with_options_lookup m kvs k :
  k ∈ kvs.*1 → is_Some (with_options m kvs !! k).
Proof.
  induction kvs as [|[k' v] kvs IH] using rev_ind; [by intros ?%elem_of_nil|].
  unfold with_options in *. rewrite fmap_app, foldl_app. simpl.
  rewrite elem_of_app, list_elem_of_singleton.
  destruct (decide (k = k')) as [->|Hne].
  - rewrite lookup_insert_eq. eauto.
  - rewrite lookup_insert_ne by done. intros [Hin|?]; [by apply IH|done].
Qed.

Lemma get_old_conf_read output_filename w content :
  fs w !! output_filename = Some content → content ≠ "" →
  get_old_conf output_filename w
  = match configparser.read_lines configparser.initial (file_lines content)
    with
    | Ok st =>
        if configparser.e st then Raise ParsingError
        else match items_of st with
             | Some m => Ok (m, w)
             | None => Raise (NoSectionError "secrets")
             end
    | Raise err => Raise err
    end.
Proof.
  intros Hf Hne. unfold get_old_conf. rewrite Hf.
  destruct content as [|c content]; [done|]. simpl Nat.eqb. cbv iota.
  unfold configparser.read.
  destruct (configparser.read_lines _ _) as [st|err]; [|done].
  destruct (configparser.e st); [done|].
  rewrite items_of_join. unfold configparser.items.
  by destruct (configparser.sections _ !! "secrets").
Qed.

Lemma get_old_conf_nonempty output_filename w conf0 :
  get_old_conf output_filename w = Ok (conf0, w) → conf0 ≠ ∅ →
  ∃ content st,
    fs w !! output_filename = Some content ∧ content ≠ ""
    ∧ configparser.read_lines configparser.initial (file_lines content)
      = Ok st
    ∧ configparser.e st = false ∧ items_of st = Some conf0.
Proof.
  intros Hconf Hne.
  destruct (fs w !! output_filename) as [content|] eqn:Hf.
  - destruct (decide (content = "")) as [->|Hc].
    + rewrite get_old_conf_absent_or_empty in Hconf by by right. congruence.
    + rewrite (get_old_conf_read _ _ _ Hf Hc) in Hconf.
      destruct (configparser.read_lines _ _) as [st|err] eqn:Hread; [|done].
      destruct (configparser.e st) eqn:He; [done|].
      destruct (items_of st) as [m|] eqn:Hm; [|done].
      injection Hconf as ->. by exists content, st.
  - rewrite get_old_conf_absent_or_empty in Hconf by by left. congruence.
Qed.

Lemma get_old_conf_ext output_filename w w' :
  fs w' !! output_filename = fs w !! output_filename →
  get_old_conf output_filename w'
  = match get_old_conf output_filename w with
    | Ok (conf, _) => Ok (conf, w')
    | Raise err => Raise err
    end.
Proof.
  intros Hfs. unfold get_old_conf. rewrite Hfs.
  repeat match goal with
         | |- context [match ?x with _ => _ end] => destruct x
         end; done.
Qed.

Lemma write_secrets_settings development l w1 w2 :
  write_secrets development l w1 = Ok (tt, w2) →
  MEMCACHED_LOCATION w2 = MEMCACHED_LOCATION w1
  ∧ REDIS_HOST w2 = REDIS_HOST w1 ∧ redis w2 = redis w1
  ∧ environ w2 = environ w1.
Proof.
  unfold write_secrets. destruct (_ =? _)%nat; by intros [= <-].
Qed.

Lemma ensured_ext development w w' :
  MEMCACHED_LOCATION w' = MEMCACHED_LOCATION w →
  REDIS_HOST w' = REDIS_HOST w →
  ensured development w' = ensured development w.
Proof. intros Hm Hr. unfold ensured. by rewrite Hm, Hr. Qed.

Lemma length_nonempty_app s t : String.length (s +:+ NL +:+ t) ≠ 0%nat.
Proof. rewrite length_app_s. simpl. lia. Qed.

Lemma appended_nonempty s t : s +:+ NL +:+ t ≠ "".
Proof.
  intros Heq. apply (f_equal String.length) in Heq.
  by apply length_nonempty_app in Heq.
Qed.

(** The secrets file after a run reads back as follows. *)
Lemma read_back development w conf0 l adds w1 w2 :
  get_old_conf (OUTPUT_SETTINGS_FILENAME development) w = Ok (conf0, w) →
  pending w conf0 (ensured development w) l adds → frame w w1 →
  write_secrets development l w1 = Ok (tt, w2) →
  env_oneline w →
  match get_old_conf (OUTPUT_SETTINGS_FILENAME development) w2 with
  | Ok (conf2, _) =>
      (∀ k v, conf0 !! k = Some v → conf2 !! k = Some v)
      ∧ (good_start development w →
         conf2 = with_options conf0 (texts_of adds))
  | Raise err => ¬ good_start development w
  end.
Proof.
  intros Hconf Hp F Hwrite Henv.
  destruct (pending_texts _ _ _ _ _ Hp Henv) as (Hkeys & Hvals & Hnd & Hfresh).
  pose proof (pending_lines _ _ _ _ _ Hp) as Hl.
  destruct (decide (lines l = [])) as [Hnil|Hnil].
  { (* nothing was written *)
    destruct (write_secrets_noop development l w1 Hnil) as (w2' & Hw & Hfs & _).
    rewrite Hw in Hwrite. injection Hwrite as ->.
    rewrite (get_old_conf_ext (OUTPUT_SETTINGS_FILENAME development) w w2),
      Hconf
      by by rewrite Hfs, (frame_secrets _ _ F).
    split; [done|]. intros _.
    rewrite Hl in Hnil. apply app_eq_nil in Hnil as [_ Hadds].
    apply fmap_nil_inv in Hadds. by subst adds. }
  destruct (write_secrets_append development l w1 Hnil) as (w2' & Hw & Hfs & _).
  rewrite Hw in Hwrite. injection Hwrite as ->.
  assert (Hfile :
    fs w2 !! OUTPUT_SETTINGS_FILENAME development
    = Some (default "" (fs w !! OUTPUT_SETTINGS_FILENAME development)
            +:+ NL +:+ Py.concat (lines l))).
  { by rewrite Hfs, lookup_insert_eq, (frame_secrets _ _ F). }
  rewrite (get_old_conf_read _ _ _ Hfile) by apply appended_nonempty.
  destruct (decide (conf0 = ∅)) as [->|Hne].
  - (* the header was written *)
    rewrite header_empty in Hl.
    destruct (decide (fs w !! OUTPUT_SETTINGS_FILENAME development = None
                      ∨ fs w !! OUTPUT_SETTINGS_FILENAME development
                        = Some "")) as [Hfresh0|Hold].
    + assert (Hcontent :
        default "" (fs w !! OUTPUT_SETTINGS_FILENAME development)
        +:+ NL +:+ Py.concat (lines l)
        = NL +:+ "[secrets]" +:+ NL
          +:+ Py.concat ((λ kv, option_text kv +:+ NL) <$> texts_of adds)).
      { rewrite Hl, concat_app, format_lines_texts.
        destruct Hfresh0 as [->| ->]; simpl; unfold Py.concat at 1; simpl;
          by rewrite !app_assoc_s. }
      rewrite Hcontent.
      destruct (read_fresh (texts_of adds) Hkeys Hvals Hnd)
        as (st2 & -> & -> & ->).
      split; [by intros k v; rewrite lookup_empty|done].
    + assert (Hbad : ¬ good_start development w).
      { intros [?|[?|(old & conf & _ & Hc & Hcne & _)]]; [tauto|tauto|].
        rewrite Hconf in Hc. by injection Hc as <-. }
      destruct (configparser.read_lines _ _) as [st2|err]; [|done].
      destruct (configparser.e st2); [done|].
      destruct (items_of st2); [|done].
      split; [by intros k v; rewrite lookup_empty|done].
  - (* option lines were appended to a parsed file *)
    rewrite header_nonempty in Hl by done. simpl in Hl.
    destruct (get_old_conf_nonempty (OUTPUT_SETTINGS_FILENAME development) w
                conf0 Hconf Hne)
      as (old & st0 & Hold & Holdne & Hread & He0 & Hm0).
    rewrite Hold, Hl, format_lines_texts. simpl default.
    destruct (read_appended old st0 conf0 (texts_of adds) Hread Hm0 Hkeys Hvals
                Hnd Hfresh) as (n & Hn & Hnew).
    assert (Hgood : good_start development w
                    → n = "secrets" ∨ n = configparser.default_section).
    { intros [Hf|[Hf|(old' & conf & Hf & _ & _ & Hlast)]];
        rewrite Hold in Hf; [done|congruence|].
      injection Hf as <-. unfold last_section in Hlast.
      rewrite Hread, Hn in Hlast. destruct Hlast as [[= ->]|[= ->]]; auto. }
    match goal with
    | |- context [configparser.read_lines ?a ?b] =>
        destruct (configparser.read_lines a b) as [st2|err]
    end; [|intros Hg; exact (Hnew (Hgood Hg))].
    destruct Hnew as [He2 Hm2]. rewrite He2, He0, Hm2. split.
    + intros k v Hk. case_decide; [|done].
      rewrite with_options_lookup_notin; [done|].
      intros Hin. rewrite Forall_forall in Hfresh.
      apply list_elem_of_fmap in Hin as (kv & -> & Hin).
      specialize (Hfresh kv Hin). congruence.
    + intros Hg. by rewrite decide_True by auto.
Qed.

Lemma filter_none {A} (P : A → Prop) `{∀ x, Decision (P x)} (l : list A) :
  Forall (λ x, ¬ P x) l → filter P l = [].
Proof.
  induction 1 as [|x l Hx _ IH]; [done|].
  by rewrite filter_cons_False.
Qed.

Lemma ensured_present development w conf0 l adds k :
  pending w conf0 (ensured development w) l adds →
  k ∈ ensured development w →
  is_Some (with_options conf0 (texts_of adds) !! k).
Proof.
  intros Hp Hk. destruct (decide (k ∈ adds.*1)) as [Hin|Hnotin].
  - apply with_options_lookup. by rewrite texts_of_keys.
  - rewrite with_options_lookup_notin by by rewrite texts_of_keys.
    destruct (conf0 !! k) eqn:Hc; [eauto|].
    destruct Hnotin. by apply (pending_added _ _ _ _ _ _ Hp).
Qed.

Lemma avatar_salt_ensured development w :
  "avatar_salt" ∈ ensured development w.
Proof. unfold ensured. apply elem_of_app. left. by left. Qed.

Lemma file_lines_texts texts :
  Forall (λ t, oneline t = true) texts →
  file_lines (Py.concat ((λ t, t +:+ NL) <$> texts)) = texts.
Proof.
  intros Htexts. unfold file_lines. rewrite read_chars_texts by done.
  unfold reader_lines. simpl. by rewrite app_nil_r.
Qed.

(** A file that consists of the section header and option lines. *)
Lemma read_single_section kvs :
  Forall (λ kv, key_ok kv.1 = true) kvs →
  Forall (λ kv, oneline kv.2 = true) kvs →
  NoDup kvs.*1 →
  ∃ st2,
    configparser.read_lines configparser.initial
      (file_lines
         ("[secrets]" +:+ NL
          +:+ Py.concat ((λ kv, option_text kv +:+ NL) <$> kvs)))
    = Ok st2
    ∧ configparser.e st2 = false
    ∧ items_of st2 = Some (with_options ∅ kvs).
Proof.
  intros Hkeys Hvals Hnd.
  rewrite fmap_option_lines.
  change ("[secrets]" +:+ NL
          +:+ Py.concat ((λ t, t +:+ NL) <$> (option_text <$> kvs)))
    with (Py.concat ((λ t, t +:+ NL)
                     <$> ("[secrets]" :: (option_text <$> kvs)))).
  rewrite file_lines_texts.
  2:{ apply Forall_cons. split; [done|]. by apply option_texts_oneline. }
  set (st1 := configparser.ReadState {["secrets" := ∅]} ∅ {["secrets"]} ∅
                (Some (configparser.RefSection "secrets")) (Some "secrets")
                None 0 false).
  assert (Hst1 : configparser.read_lines configparser.initial ["[secrets]"]
                 = Ok st1) by (vm_compute; reflexivity).
  change ("[secrets]" :: (option_text <$> kvs))
    with (["[secrets]"] ++ (option_text <$> kvs)).
  rewrite read_lines_app, Hst1.
  assert (Hwf1 : wf st1) by (eapply wf_read_lines; [apply wf_initial|done]).
  assert (Hm1 : items_of st1 = Some ∅) by (vm_compute; reflexivity).
  pose proof (read_option_lines kvs st1 "secrets" ∅ Hwf1 eq_refl Hm1 Hkeys Hnd)
    as Hopts.
  destruct (configparser.read_lines st1 (option_text <$> kvs)) as [st2|err].
  - destruct Hopts as [He Hitems].
    { apply Forall_forall. intros. apply lookup_empty. }
    exists st2. rewrite decide_True in Hitems by by left. done.
  - destruct Hopts; [|by left].
    apply Forall_forall. intros. apply lookup_empty.
Qed.

(** * The claims *)

(** C1, amended. Idempotence. When the starting secrets file is absent or
    empty, or parses to at least one key and ends in the section
    [[secrets]] or [[DEFAULT]], and the value of [REMOTE_POSTGRES_PASSWORD]
    has no line break, a second run with the same mode against the world
    the first run left has no pending line, writes nothing and leaves the
    secrets file as the first run left it. *)
Theorem idempotence (development : bool) (w w2 : World) :
  good_start development w → env_oneline w →
  generate_secrets development w = Ok (tt, w2) →
  ∃ l2 w3 w4,
    pending_secrets development w2 = Ok (l2, w3)
    ∧ lines l2 = []
    ∧ generate_secrets development w2 = Ok (tt, w4)
    ∧ fs w4 = fs w3
    ∧ fs w4 !! OUTPUT_SETTINGS_FILENAME development
      = fs w2 !! OUTPUT_SETTINGS_FILENAME development.
Proof.
  intros Hgood Henv Hgen. rewrite generate_secrets_unfold in Hgen.
  destruct (pending_secrets development w) as [[l w1]|] eqn:Hrun; [|done].
  destruct (pending_secrets_parsed _ _ _ _ Hrun) as [conf0 Hconf].
  destruct (pending_secrets_ok _ _ _ _ _ Hconf Hrun) as [[adds Hp] F].
  pose proof (read_back _ _ _ _ _ _ _ Hconf Hp F Hgen Henv) as Hback.
  destruct (get_old_conf (OUTPUT_SETTINGS_FILENAME development) w2)
    as [[conf2 w2']|err] eqn:Hconf2; [|by destruct Hback].
  pose proof (get_old_conf_world _ _ _ _ Hconf2) as ->.
  destruct Hback as [_ Hc2]. specialize (Hc2 Hgood). subst conf2.
  set (conf2 := with_options conf0 (texts_of adds)) in *.
  destruct (write_secrets_settings _ _ _ _ Hgen) as (Hmem & Hhost & _ & _).
  assert (Hens : ensured development w2 = ensured development w).
  { apply ensured_ext.
    - by rewrite Hmem, (frame_memcached _ _ F).
    - by rewrite Hhost, (frame_redis_host _ _ F). }
  assert (Hpresent : ∀ k, k ∈ ensured development w2 → is_Some (conf2 !! k)).
  { intros k. rewrite Hens. by apply ensured_present with l. }
  destruct (pending_secrets_total development w2 conf2 Hconf2)
    as (l2 & w3 & Hrun2).
  { intros err (-> & Hnone & Hloop & _).
    destruct (Hpresent "redis_password") as [v Hv]; [|congruence].
    by apply redis_ensured. }
  destruct (pending_secrets_ok _ _ _ _ _ Hconf2 Hrun2) as [[adds2 Hp2] F2].
  assert (Hadds2 : adds2 = []).
  { apply fmap_nil_inv with (f := fst).
    rewrite (pending_names _ _ _ _ _ Hp2).
    apply filter_none, Forall_forall. intros k Hk%Hpresent Hnone.
    rewrite Hnone in Hk. by destruct Hk. }
  assert (Hl2 : lines l2 = []).
  { rewrite (pending_lines _ _ _ _ _ Hp2), Hadds2, header_nonempty; [done|].
    intros Hempty.
    destruct (Hpresent "avatar_salt") as [v Hv];
      [apply avatar_salt_ensured|].
    by rewrite Hempty, lookup_empty in Hv. }
  destruct (run_outcome development w2 l2 w3 Hrun2) as (w4 & Hgen2 & Hnoop & _).
  destruct (Hnoop Hl2) as (Hfs & Hfile & _).
  by exists l2, w3, w4.
Qed.

Lemma idempotence_witness :
  good_start false remote_production
  ∧ env_oneline remote_production
  ∧ generate_secrets false remote_production
    = Ok (tt, after_run false remote_production)
  ∧ ∃ l2 w3 w4,
      pending_secrets false (after_run false remote_production) = Ok (l2, w3)
      ∧ lines l2 = []
      ∧ generate_secrets false (after_run false remote_production)
        = Ok (tt, w4)
      ∧ fs w4 = fs w3
      ∧ fs w4 !! OUTPUT_SETTINGS_FILENAME false
        = fs (after_run false remote_production)
            !! OUTPUT_SETTINGS_FILENAME false.
Proof.
  assert (Hgood : good_start false remote_production).
  { right. right.
    exists ("[secrets]" +:+ NL +:+ "secret_key = x" +:+ NL),
      {["secret_key" := "x"]}.
    split; [reflexivity|]. split; [vm_compute; reflexivity|].
    split; [apply map_size_non_empty_iff; vm_compute; lia|].
    left. vm_compute; reflexivity. }
  assert (Henv : env_oneline remote_production) by reflexivity.
  assert (Hgen : generate_secrets false remote_production
                 = Ok (tt, after_run false remote_production))
    by (vm_compute; reflexivity).
  split; [exact Hgood|]. split; [exact Henv|]. split; [exact Hgen|].
  exact (idempotence false remote_production _ Hgood Henv Hgen).
Defined.

(** The claim as the specification states it fails on a secrets file that
    has a section header and no key: the first run appends a second
    header, and the second run cannot read the file it left. *)
Lemma idempotence_counterexample :
  generate_secrets true header_only_development
  = Ok (tt, after_run true header_only_development)
  ∧ pending_secrets true (after_run true header_only_development)
    = Raise (DuplicateSectionError "secrets")
  ∧ generate_secrets true (after_run true header_only_development)
    = Raise (DuplicateSectionError "secrets")
  ∧ ¬ ∃ l2 w3,
        pending_secrets true (after_run true header_only_development)
        = Ok (l2, w3)
        ∧ lines l2 = [].
Proof.
  assert (Hraise :
    pending_secrets true (after_run true header_only_development)
    = Raise (DuplicateSectionError "secrets")) by (vm_compute; reflexivity).
  split; [vm_compute; reflexivity|]. split; [exact Hraise|].
  split; [by rewrite generate_secrets_unfold, Hraise|].
  intros (l2 & w3 & Hrun & _). by rewrite Hraise in Hrun.
Qed.

(** The other two conditions of the amended claim are needed as well: a
    value of [REMOTE_POSTGRES_PASSWORD] with a line break is written as it
    is, and a file that ends in another section receives the new options
    in that section. *)
Example two_line_password_overrides :
  get_old_conf "zproject/dev-secrets.conf" two_line_password_development
  = Ok ({["a" := "1"; "b" := "2"]}, two_line_password_development)
  ∧ generate_secrets true two_line_password_development
    = Ok (tt, after_run true two_line_password_development)
  ∧ get_old_conf "zproject/dev-secrets.conf"
      (after_run true two_line_password_development)
    = Ok (loaded "zproject/dev-secrets.conf"
            (after_run true two_line_password_development),
          after_run true two_line_password_development)
  ∧ loaded "zproject/dev-secrets.conf"
      (after_run true two_line_password_development) !! "a"
    = Some "2".
Proof.
  split; [vm_compute; reflexivity|]. split; [vm_compute; reflexivity|].
  split; vm_compute; reflexivity.
Qed.

Example other_section_not_idempotent :
  generate_secrets true other_section_development
  = Ok (tt, after_run true other_section_development)
  ∧ pending_secrets true (after_run true other_section_development)
    = Ok (pending_of true (after_run true other_section_development))
  ∧ length (lines (pending_of true
                     (after_run true other_section_development)).1)
    = 11%nat.
Proof.
  split; [vm_compute; reflexivity|]. split; vm_compute; reflexivity.
Qed.

(** C2. Preservation. A name that the parsed secrets file maps to a value
    before a run, in either mode, is never assigned by the run: it maps to
    the same value in the final [current_conf], and the run only appends to
    the file, the old content staying in front. When the value of
    [REMOTE_POSTGRES_PASSWORD] has no line break, the name also maps to the
    same value whenever the file the run leaves is read again. *)
Theorem preservation (development : bool) (w : World)
    (conf0 : gmap string string) (name value : string) (w2 : World) :
  get_old_conf (OUTPUT_SETTINGS_FILENAME development) w = Ok (conf0, w) →
  conf0 !! name = Some value →
  generate_secrets development w = Ok (tt, w2) →
  ∃ l w1 adds old appended,
    pending_secrets development w = Ok (l, w1)
    ∧ current_conf l = inserts (Py.Str <$> conf0) adds
    ∧ (name ∉ adds.*1)
    ∧ current_conf l !! name = Some (Py.Str value)
    ∧ fs w !! OUTPUT_SETTINGS_FILENAME development = Some old
    ∧ fs w2 !! OUTPUT_SETTINGS_FILENAME development = Some (old +:+ appended)
    ∧ (env_oneline w →
       ∀ conf2,
         get_old_conf (OUTPUT_SETTINGS_FILENAME development) w2
         = Ok (conf2, w2) →
         conf2 !! name = Some value).
Proof.
  intros Hconf Hname Hgen.
  pose proof Hgen as Hgen'. rewrite generate_secrets_unfold in Hgen'.
  destruct (pending_secrets development w) as [[l w1]|] eqn:Hrun; [|done].
  destruct (pending_secrets_ok _ _ _ _ _ Hconf Hrun) as [[adds Hp] F].
  destruct (get_old_conf_nonempty _ _ _ Hconf) as (old & _ & Hold & _).
  { intros ->. by rewrite lookup_empty in Hname. }
  destruct (run_outcome development w l w1 Hrun) as (w2' & Hgen2 & Hnoop & Happ).
  rewrite Hgen in Hgen2. injection Hgen2 as <-.
  exists l, w1, adds, old,
    (if decide (lines l = []) then "" else NL +:+ Py.concat (lines l)).
  split; [done|]. split; [apply Hp|]. split; [|split; [|split; [done|split]]].
  - intros Hin%(pending_added _ _ _ _ _ _ Hp). destruct Hin. congruence.
  - by rewrite (pending_conf_lookup _ _ _ _ _ _ Hp), Hname.
  - case_decide as Hl.
    + destruct (Hnoop Hl) as (_ & -> & _). by rewrite app_empty_r.
    + destruct (Happ Hl) as [-> _]. by rewrite Hold.
  - intros Henv conf2 Hconf2.
    pose proof (read_back _ _ _ _ _ _ _ Hconf Hp F Hgen' Henv) as Hback.
    rewrite Hconf2 in Hback. destruct Hback as [Hkeep _]. by apply Hkeep.
Qed.

Lemma preservation_witness :
  get_old_conf (OUTPUT_SETTINGS_FILENAME false) remote_production
  = Ok ({["secret_key" := "x"]}, remote_production)
  ∧ ({["secret_key" := "x"]} : gmap string string) !! "secret_key" = Some "x"
  ∧ generate_secrets false remote_production
    = Ok (tt, after_run false remote_production)
  ∧ ∃ l w1 adds old appended,
      pending_secrets false remote_production = Ok (l, w1)
      ∧ current_conf l = inserts (Py.Str <$> {["secret_key" := "x"]}) adds
      ∧ ("secret_key" ∉ adds.*1)
      ∧ current_conf l !! "secret_key" = Some (Py.Str "x")
      ∧ fs remote_production !! OUTPUT_SETTINGS_FILENAME false = Some old
      ∧ fs (after_run false remote_production)
          !! OUTPUT_SETTINGS_FILENAME false
        = Some (old +:+ appended)
      ∧ (env_oneline remote_production →
         ∀ conf2,
           get_old_conf (OUTPUT_SETTINGS_FILENAME false)
             (after_run false remote_production)
           = Ok (conf2, after_run false remote_production) →
           conf2 !! "secret_key" = Some "x").
Proof.
  assert (H1 : get_old_conf (OUTPUT_SETTINGS_FILENAME false) remote_production
               = Ok ({["secret_key" := "x"]}, remote_production))
    by (vm_compute; reflexivity).
  assert (H2 : ({["secret_key" := "x"]} : gmap string string) !! "secret_key"
               = Some "x") by (vm_compute; reflexivity).
  assert (H3 : generate_secrets false remote_production
               = Ok (tt, after_run false remote_production))
    by (vm_compute; reflexivity).
  split; [exact H1|]. split; [exact H2|]. split; [exact H3|].
  exact (preservation false remote_production _ _ _ _ H1 H2 H3).
Defined.

(** The claim as first worded, that the name maps to its original value
    after the run, fails for the file the run leaves: a password of two
    lines is written as it is, and its second line is read back as an
    option of the section, which takes precedence over the key [a] that
    the section inherited from [[DEFAULT]]. *)
Lemma preservation_counterexample :
  get_old_conf (OUTPUT_SETTINGS_FILENAME true) two_line_password_development
  = Ok ({["a" := "1"; "b" := "2"]}, two_line_password_development)
  ∧ ({["a" := "1"; "b" := "2"]} : gmap string string) !! "a" = Some "1"
  ∧ generate_secrets true two_line_password_development
    = Ok (tt, after_run true two_line_password_development)
  ∧ get_old_conf (OUTPUT_SETTINGS_FILENAME true)
      (after_run true two_line_password_development)
    = Ok (loaded (OUTPUT_SETTINGS_FILENAME true)
            (after_run true two_line_password_development),
          after_run true two_line_password_development)
  ∧ loaded (OUTPUT_SETTINGS_FILENAME true)
      (after_run true two_line_password_development) !! "a"
    = Some "2"
  ∧ loaded (OUTPUT_SETTINGS_FILENAME true)
      (after_run true two_line_password_development) !! "a"
    ≠ Some "1".
Proof.
  assert (Ha : loaded (OUTPUT_SETTINGS_FILENAME true)
                 (after_run true two_line_password_development) !! "a"
               = Some "2") by (vm_compute; reflexivity).
  split; [vm_compute; reflexivity|]. split; [vm_compute; reflexivity|].
  split; [vm_compute; reflexivity|]. split; [vm_compute; reflexivity|].
  split; [exact Ha|]. rewrite Ha. discriminate.
Qed.

(** C3. Mode gating. Starting from an absent or empty secrets file, a run
    in production mode never adds [initial_password_salt] or
    [local_database_password], and a run in development mode never adds
    [memcached_password] or [redis_password]: the pending lines are the
    section header followed by the lines of the assignments made, none of
    which is to a gated name, the final [current_conf] has no gated name, and
    the file written consists of exactly those lines. *)
Theorem mode_gating (development : bool) (w : World) (l : Locals) (w1 : World) :
  fs w !! OUTPUT_SETTINGS_FILENAME development = None
  ∨ fs w !! OUTPUT_SETTINGS_FILENAME development = Some "" →
  pending_secrets development w = Ok (l, w1) →
  ∃ adds w2,
    lines l = ["[secrets]" +:+ NL] ++ (format_line <$> adds)
    ∧ current_conf l = inserts ∅ adds
    ∧ generate_secrets development w = Ok (tt, w2)
    ∧ fs w2 !! OUTPUT_SETTINGS_FILENAME development
      = Some (NL +:+ Py.concat (lines l))
    ∧ ∀ name,
        name ∈ (if development then ["memcached_password"; "redis_password"]
                else ["initial_password_salt"; "local_database_password"]) →
        (name ∉ adds.*1) ∧ current_conf l !! name = None.
Proof.
  intros Hfile Hrun.
  pose proof (get_old_conf_absent_or_empty _ _ Hfile) as Hconf.
  destruct (pending_secrets_ok _ _ _ _ _ Hconf Hrun) as [[adds Hp] F].
  destruct (write_secrets_append development l w1) as (w2 & Hw & Hfs & _).
  { rewrite (pending_lines _ _ _ _ _ Hp). done. }
  exists adds, w2. repeat split.
  - by rewrite (pending_lines _ _ _ _ _ Hp).
  - rewrite (pending_conf _ _ _ _ _ Hp). by rewrite fmap_empty.
  - by rewrite generate_secrets_unfold, Hrun.
  - rewrite Hfs, lookup_insert_eq, (frame_secrets _ _ F).
    by destruct Hfile as [->| ->].
  - intros Hin%(pending_adds_ensured _ _ _ _ _ Hp). revert Hin H.
    unfold ensured. destruct development; simpl;
      repeat case_bool_decide; simpl; rewrite !elem_of_cons, !elem_of_nil;
      intros Hin Hname; destruct Hname as [->|[->|[]]];
      repeat (destruct Hin as [Hin|Hin]; [discriminate Hin|]); done.
  - rewrite (pending_conf_lookup _ _ _ _ _ _ Hp), lookup_empty.
    case_decide as Hin; [|done]. revert Hin H.
    unfold ensured. destruct development; simpl;
      repeat case_bool_decide; simpl; rewrite !elem_of_cons, !elem_of_nil;
      intros Hin Hname; destruct Hname as [->|[->|[]]];
      repeat (destruct Hin as [Hin|Hin]; [discriminate Hin|]); done.
Qed.

Lemma mode_gating_witness :
  (fs fresh_production !! OUTPUT_SETTINGS_FILENAME false = None
   ∨ fs fresh_production !! OUTPUT_SETTINGS_FILENAME false = Some "")
  ∧ pending_secrets false fresh_production
    = Ok ((pending_of false fresh_production).1,
          (pending_of false fresh_production).2)
  ∧ ∃ adds w2,
      lines (pending_of false fresh_production).1
      = ["[secrets]" +:+ NL] ++ (format_line <$> adds)
      ∧ current_conf (pending_of false fresh_production).1 = inserts ∅ adds
      ∧ generate_secrets false fresh_production = Ok (tt, w2)
      ∧ fs w2 !! OUTPUT_SETTINGS_FILENAME false
        = Some (NL +:+ Py.concat (lines (pending_of false fresh_production).1))
      ∧ ∀ name,
          name ∈ ["initial_password_salt"; "local_database_password"] →
          (name ∉ adds.*1)
          ∧ current_conf (pending_of false fresh_production).1 !! name = None.
Proof.
  assert (H1 : fs fresh_production !! OUTPUT_SETTINGS_FILENAME false = None
               ∨ fs fresh_production !! OUTPUT_SETTINGS_FILENAME false
                 = Some "") by (left; reflexivity).
  assert (H2 : pending_secrets false fresh_production
               = Ok ((pending_of false fresh_production).1,
                     (pending_of false fresh_production).2))
    by (vm_compute; reflexivity).
  split; [exact H1|]. split; [exact H2|].
  exact (mode_gating false fresh_production _ _ H1 H2).
Defined.

(** C4. Conditional generation. In production mode, with
    [memcached_password] absent from the parsed file, the secret is
    generated if and only if [settings.MEMCACHED_LOCATION] is the loopback
    endpoint ["127.0.0.1:11211"], and otherwise it is still absent at the
    end of the run; likewise for [redis_password] and [settings.REDIS_HOST]
    with the loopback address ["127.0.0.1"]. The comparison is the script's:
    equality with the literal address. *)
Theorem conditional_generation (w : World) (conf0 : gmap string string)
    (l : Locals) (w1 : World) :
  get_old_conf (OUTPUT_SETTINGS_FILENAME false) w = Ok (conf0, w) →
  pending_secrets false w = Ok (l, w1) →
  ∃ adds,
    lines l = header conf0 ++ (format_line <$> adds)
    ∧ current_conf l = inserts (Py.Str <$> conf0) adds
    ∧ (conf0 !! "memcached_password" = None →
       ("memcached_password" ∈ adds.*1
        ↔ MEMCACHED_LOCATION w = "127.0.0.1:11211")
       ∧ (is_Some (current_conf l !! "memcached_password")
          ↔ MEMCACHED_LOCATION w = "127.0.0.1:11211"))
    ∧ (conf0 !! "redis_password" = None →
       ("redis_password" ∈ adds.*1 ↔ REDIS_HOST w = "127.0.0.1")
       ∧ (is_Some (current_conf l !! "redis_password")
          ↔ REDIS_HOST w = "127.0.0.1")).
Proof.
  intros Hconf Hrun.
  destruct (pending_secrets_ok _ _ _ _ _ Hconf Hrun) as [[adds Hp] F].
  exists adds. split; [apply Hp|]. split; [apply Hp|].
  split; intros Habsent.
  - rewrite (pending_is_Some _ _ _ _ _ _ Hp Habsent).
    rewrite (pending_added _ _ _ _ _ _ Hp), memcached_ensured. tauto.
  - rewrite (pending_is_Some _ _ _ _ _ _ Hp Habsent).
    rewrite (pending_added _ _ _ _ _ _ Hp), redis_ensured. tauto.
Qed.

Lemma conditional_generation_witness :
  get_old_conf (OUTPUT_SETTINGS_FILENAME false) local_production
  = Ok (∅, local_production)
  ∧ pending_secrets false local_production
    = Ok ((pending_of false local_production).1,
          (pending_of false local_production).2)
  ∧ ∃ adds,
      lines (pending_of false local_production).1
      = header ∅ ++ (format_line <$> adds)
      ∧ current_conf (pending_of false local_production).1
        = inserts (Py.Str <$> ∅) adds
      ∧ ((∅ : gmap string string) !! "memcached_password" = None →
         ("memcached_password" ∈ adds.*1
          ↔ MEMCACHED_LOCATION local_production = "127.0.0.1:11211")
         ∧ (is_Some (current_conf (pending_of false local_production).1
                       !! "memcached_password")
            ↔ MEMCACHED_LOCATION local_production = "127.0.0.1:11211"))
      ∧ ((∅ : gmap string string) !! "redis_password" = None →
         ("redis_password" ∈ adds.*1
          ↔ REDIS_HOST local_production = "127.0.0.1")
         ∧ (is_Some (current_conf (pending_of false local_production).1
                       !! "redis_password")
            ↔ REDIS_HOST local_production = "127.0.0.1")).
Proof.
  assert (H1 : get_old_conf (OUTPUT_SETTINGS_FILENAME false) local_production
               = Ok (∅, local_production))
    by (vm_compute; reflexivity).
  assert (H2 : pending_secrets false local_production
               = Ok ((pending_of false local_production).1,
                     (pending_of false local_production).2))
    by (vm_compute; reflexivity).
  split; [exact H1|]. split; [exact H2|].
  exact (conditional_generation local_production _ _ _ H1 H2).
Defined.

(** The claim as first worded, with "resolves to the loopback address",
    fails: for a Redis at [localhost] and a memcached on the loopback
    address at another port, a production run generates neither
    password. *)
Lemma conditional_generation_counterexample :
  resolves_to_loopback
    (endpoint_host (MEMCACHED_LOCATION localhost_production)) = true
  ∧ resolves_to_loopback (REDIS_HOST localhost_production) = true
  ∧ get_old_conf (OUTPUT_SETTINGS_FILENAME false) localhost_production
    = Ok (∅, localhost_production)
  ∧ pending_secrets false localhost_production
    = Ok ((pending_of false localhost_production).1,
          (pending_of false localhost_production).2)
  ∧ current_conf (pending_of false localhost_production).1
      !! "memcached_password" = None
  ∧ current_conf (pending_of false localhost_production).1
      !! "redis_password" = None
  ∧ ¬ (is_Some (current_conf (pending_of false localhost_production).1
                  !! "memcached_password")
       ↔ resolves_to_loopback
           (endpoint_host (MEMCACHED_LOCATION localhost_production)) = true)
  ∧ ¬ (is_Some (current_conf (pending_of false localhost_production).1
                  !! "redis_password")
       ↔ resolves_to_loopback (REDIS_HOST localhost_production) = true).
Proof.
  assert (Hm : current_conf (pending_of false localhost_production).1
                 !! "memcached_password" = None) by (vm_compute; reflexivity).
  assert (Hr : current_conf (pending_of false localhost_production).1
                 !! "redis_password" = None) by (vm_compute; reflexivity).
  split; [reflexivity|]. split; [reflexivity|].
  split; [vm_compute; reflexivity|]. split; [vm_compute; reflexivity|].
  split; [exact Hm|]. split; [exact Hr|].
  split; intros [_ H]; specialize (H eq_refl);
    [rewrite Hm in H|rewrite Hr in H]; by destruct H.
Qed.

(** On a host with local services both passwords are generated; on a host
    with remote services neither is. *)
Example conditional_generation_hosts :
  is_Some (current_conf (pending_of false local_production).1
             !! "memcached_password")
  ∧ is_Some (current_conf (pending_of false local_production).1
               !! "redis_password")
  ∧ current_conf (pending_of false remote_production).1
      !! "memcached_password" = None
  ∧ current_conf (pending_of false remote_production).1
      !! "redis_password" = None.
Proof.
  split; [vm_compute; eauto|]. split; [vm_compute; eauto|].
  split; vm_compute; reflexivity.
Qed.

(** C5. No-op frame. When a run ends with an empty list of pending lines,
    the tool prints that there is nothing to generate and writes nothing:
    the file system is the one [pending_secrets] left and the secrets file
    is as it was before the run. Otherwise the run appends a newline
    followed by the pending lines to the secrets file and prints the
    success message with the file's path. *)
Theorem noop_frame (development : bool) (w : World) (l : Locals) (w1 : World) :
  pending_secrets development w = Ok (l, w1) →
  ∃ w2,
    generate_secrets development w = Ok (tt, w2)
    ∧ (lines l = [] →
       fs w2 = fs w1
       ∧ fs w2 !! OUTPUT_SETTINGS_FILENAME development
         = fs w !! OUTPUT_SETTINGS_FILENAME development
       ∧ stdout w2
         = stdout w ++ ["generate_secrets: No new secrets to generate."])
    ∧ (lines l ≠ [] →
       fs w2 !! OUTPUT_SETTINGS_FILENAME development
       = Some (default "" (fs w !! OUTPUT_SETTINGS_FILENAME development)
               +:+ NL +:+ Py.concat (lines l))
       ∧ stdout w2
         = stdout w ++ ["Generated new secrets in "
                        +:+ OUTPUT_SETTINGS_FILENAME development +:+ "."]).
Proof. apply run_outcome. Qed.

Lemma noop_frame_witness :
  pending_secrets true fresh_development
  = Ok ((pending_of true fresh_development).1,
        (pending_of true fresh_development).2)
  ∧ ∃ w2,
      generate_secrets true fresh_development = Ok (tt, w2)
      ∧ (lines (pending_of true fresh_development).1 = [] →
         fs w2 = fs (pending_of true fresh_development).2
         ∧ fs w2 !! OUTPUT_SETTINGS_FILENAME true
           = fs fresh_development !! OUTPUT_SETTINGS_FILENAME true
         ∧ stdout w2
           = stdout fresh_development
             ++ ["generate_secrets: No new secrets to generate."])
      ∧ (lines (pending_of true fresh_development).1 ≠ [] →
         fs w2 !! OUTPUT_SETTINGS_FILENAME true
         = Some (default ""
                   (fs fresh_development !! OUTPUT_SETTINGS_FILENAME true)
                 +:+ NL
                 +:+ Py.concat (lines (pending_of true fresh_development).1))
         ∧ stdout w2
           = stdout fresh_development
             ++ ["Generated new secrets in "
                 +:+ OUTPUT_SETTINGS_FILENAME true +:+ "."]).
Proof.
  assert (H1 : pending_secrets true fresh_development
               = Ok ((pending_of true fresh_development).1,
                     (pending_of true fresh_development).2))
    by (vm_compute; reflexivity).
  split; [exact H1|].
  exact (noop_frame true fresh_development _ _ H1).
Defined.

(** C6. Swallowed queue-connection failure. In production mode, with a
    loopback queue host and [redis_password] absent, when the live call
    that sets the password raises a connection error, no exception escapes
    the run: [generate_secrets] returns, the generated token is the value of
    [redis_password] in [current_conf], its line is among the pending lines,
    and the pending lines are appended to the secrets file. *)
Theorem swallowed_queue_connection_failure (w : World)
    (conf0 : gmap string string) (err : exn) :
  get_old_conf (OUTPUT_SETTINGS_FILENAME false) w = Ok (conf0, w) →
  conf0 !! "redis_password" = None →
  REDIS_HOST w = "127.0.0.1" →
  redis w = RedisFails err →
  is_ConnectionError err = true →
  ∃ l w1 w2 token,
    pending_secrets false w = Ok (l, w1)
    ∧ generate_secrets false w = Ok (tt, w2)
    ∧ String.length token = 64%nat ∧ all is_hex_lower token = true
    ∧ current_conf l !! "redis_password" = Some (Py.Str token)
    ∧ "redis_password = " +:+ token +:+ NL ∈ lines l
    ∧ fs w2 !! OUTPUT_SETTINGS_FILENAME false
      = Some (default "" (fs w !! OUTPUT_SETTINGS_FILENAME false)
              +:+ NL +:+ Py.concat (lines l)).
Proof.
  intros Hconf Habsent Hhost Hredis Hcatch.
  destruct (pending_secrets_total false w conf0 Hconf) as (l & w1 & Hrun).
  { intros err'. apply redis_call_returns_not_fatal. right.
    by rewrite Hredis. }
  destruct (pending_secrets_ok _ _ _ _ _ Hconf Hrun) as [[adds Hp] F].
  assert (Hin : "redis_password" ∈ adds.*1).
  { apply (pending_added _ _ _ _ _ _ Hp). by rewrite redis_ensured. }
  destruct (pending_conf_added _ _ _ _ _ _ Hp (ensured_NoDup _ _) Hin)
    as (v & Hv & Hl & Hshape).
  unfold value_shape in Hshape. repeat case_decide; try done;
    try (exfalso; intuition congruence).
  destruct Hshape as (token & -> & Hlen & Hall).
  pose proof (format_line_in_lines _ _ _ _ _ _ _ Hp Hv) as Hline.
  destruct (run_outcome false w l w1 Hrun) as (w2 & Hgen & _ & Happend).
  destruct Happend as [Hfs _]. { intros Hnil. rewrite Hnil in Hline. by apply elem_of_nil in Hline. }
  exists l, w1, w2, token. done.
Qed.

Lemma swallowed_queue_connection_failure_witness :
  ∃ l w1 w2 token,
    pending_secrets false fresh_production = Ok (l, w1)
    ∧ generate_secrets false fresh_production = Ok (tt, w2)
    ∧ String.length token = 64%nat ∧ all is_hex_lower token = true
    ∧ current_conf l !! "redis_password" = Some (Py.Str token)
    ∧ "redis_password = " +:+ token +:+ NL ∈ lines l
    ∧ fs w2 !! OUTPUT_SETTINGS_FILENAME false
      = Some (default "" (fs fresh_production !! OUTPUT_SETTINGS_FILENAME false)
              +:+ NL +:+ Py.concat (lines l)).
Proof.
  apply (swallowed_queue_connection_failure fresh_production ∅
           RedisConnectionError); reflexivity.
Defined.

(** C7. External-database password. When [postgres_password] is absent
    from the parsed file and the Redis call does not let an exception
    escape, the run adds it with the value of [os.getenv] on
    [REMOTE_POSTGRES_PASSWORD] and nothing else; when the variable is unset
    the run does not fail: the value recorded in [current_conf] is [None]
    and the line written is [postgres_password = None]. *)
Theorem external_database_password (development : bool) (w : World)
    (conf0 : gmap string string) :
  get_old_conf (OUTPUT_SETTINGS_FILENAME development) w = Ok (conf0, w) →
  conf0 !! "postgres_password" = None →
  redis_call_returns development w →
  ∃ l w1 w2,
    pending_secrets development w = Ok (l, w1)
    ∧ generate_secrets development w = Ok (tt, w2)
    ∧ current_conf l !! "postgres_password"
      = Some (environ_get w "REMOTE_POSTGRES_PASSWORD")
    ∧ "postgres_password = "
      +:+ Py.str (environ_get w "REMOTE_POSTGRES_PASSWORD") +:+ NL ∈ lines l
    ∧ fs w2 !! OUTPUT_SETTINGS_FILENAME development
      = Some (default "" (fs w !! OUTPUT_SETTINGS_FILENAME development)
              +:+ NL +:+ Py.concat (lines l))
    ∧ (environ w !! "REMOTE_POSTGRES_PASSWORD" = None →
       current_conf l !! "postgres_password" = Some Py.None_
       ∧ "postgres_password = None" +:+ NL ∈ lines l).
Proof.
  intros Hconf Habsent Hredis.
  destruct (pending_secrets_total development w conf0 Hconf) as (l & w1 & Hrun).
  { intros err'. by apply redis_call_returns_not_fatal. }
  destruct (pending_secrets_ok _ _ _ _ _ Hconf Hrun) as [[adds Hp] F].
  assert (Hin : "postgres_password" ∈ adds.*1).
  { apply (pending_added _ _ _ _ _ _ Hp). split; [|done].
    apply postgres_ensured. }
  destruct (pending_conf_added _ _ _ _ _ _ Hp (ensured_NoDup _ _) Hin)
    as (v & Hv & Hl & Hshape).
  unfold value_shape in Hshape. rewrite decide_True in Hshape by done.
  subst v.
  pose proof (format_line_in_lines _ _ _ _ _ _ _ Hp Hv) as Hline.
  destruct (run_outcome development w l w1 Hrun) as (w2 & Hgen & _ & Happend).
  destruct Happend as [Hfs _]. { intros Hnil. rewrite Hnil in Hline. by apply elem_of_nil in Hline. }
  exists l, w1, w2. do 5 (split; [done|]). intros Hunset. split.
  - rewrite Hl. unfold environ_get. by rewrite Hunset.
  - revert Hline. unfold environ_get. by rewrite Hunset.
Qed.

Lemma external_database_password_witness :
  ∃ l w1 w2,
    pending_secrets true fresh_development = Ok (l, w1)
    ∧ generate_secrets true fresh_development = Ok (tt, w2)
    ∧ current_conf l !! "postgres_password"
      = Some (environ_get fresh_development "REMOTE_POSTGRES_PASSWORD")
    ∧ "postgres_password = "
      +:+ Py.str (environ_get fresh_development "REMOTE_POSTGRES_PASSWORD")
      +:+ NL ∈ lines l
    ∧ fs w2 !! OUTPUT_SETTINGS_FILENAME true
      = Some (default "" (fs fresh_development !! OUTPUT_SETTINGS_FILENAME true)
              +:+ NL +:+ Py.concat (lines l))
    ∧ (environ fresh_development !! "REMOTE_POSTGRES_PASSWORD" = None →
       current_conf l !! "postgres_password" = Some Py.None_
       ∧ "postgres_password = None" +:+ NL ∈ lines l).
Proof.
  apply (external_database_password true fresh_development ∅);
    [reflexivity|reflexivity|left; reflexivity].
Defined.

(* The contract of the loader is proved at the end, after the lemmas on
   the files the loader rejects. *)

(** C9. Generated value shape. In every world, the token generator returns
    a string of 64 lowercase hexadecimal digits, the Django secret key is a
    string of exactly 50 characters that are lowercase letters, digits or
    one of the symbols [!@#$%^&*(-_=+)], and the installation id is the text
    of a version-4 UUID: 36 characters that the [UUID] constructor parses
    back to the same integer. *)
Theorem generated_value_shape (w : World) :
  (∃ token w', random_token w = Ok (token, w')
     ∧ String.length token = 64%nat ∧ all is_hex_lower token = true)
  ∧ (∃ key w', generate_django_secretkey w = Ok (key, w')
       ∧ String.length key = 50%nat ∧ all is_secret_key_char key = true)
  ∧ (∃ u w', uuid.uuid4 w = Ok (u, w')
       ∧ String.length (uuid.str u) = 36%nat
       ∧ uuid.UUID_of_hex (uuid.str u) = Some u
       ∧ uuid.version u = 4%Z).
Proof.
  repeat split.
  - apply (wp_ok random_token w
             (λ v _, String.length v = 64%nat ∧ all is_hex_lower v = true)).
    apply wp_random_token. auto.
  - apply (wp_ok generate_django_secretkey w
             (λ v _, String.length v = 50%nat
                     ∧ all is_secret_key_char v = true)).
    apply wp_generate_django_secretkey. auto.
  - apply (wp_ok uuid.uuid4 w
             (λ u _, String.length (uuid.str u) = 36%nat
                     ∧ uuid.UUID_of_hex (uuid.str u) = Some u
                     ∧ uuid.version u = 4%Z)).
    apply wp_uuid4. auto.
Qed.

(** C10. Section-header emission. The [[secrets]] header line is the first
    pending line exactly when the mapping parsed from the existing file is
    empty, whatever the file contains: then the text appended to the file
    is a newline, the header and the lines of the assignments. When the
    mapping has a key, the pending lines are the [name = value] lines of the
    assignments alone, none of which is the header, and the file is left as
    it was when there is no assignment. *)
Theorem section_header_emission (development : bool) (w : World)
    (conf0 : gmap string string) (l : Locals) (w1 : World) :
  get_old_conf (OUTPUT_SETTINGS_FILENAME development) w = Ok (conf0, w) →
  pending_secrets development w = Ok (l, w1) →
  ∃ adds w2,
    generate_secrets development w = Ok (tt, w2)
    ∧ adds.*1 ⊆ known_names
    ∧ (conf0 = ∅ →
       lines l = ("[secrets]" +:+ NL) :: (format_line <$> adds)
       ∧ fs w2 !! OUTPUT_SETTINGS_FILENAME development
         = Some (default "" (fs w !! OUTPUT_SETTINGS_FILENAME development)
                 +:+ NL +:+ "[secrets]" +:+ NL
                 +:+ Py.concat (format_line <$> adds)))
    ∧ (conf0 ≠ ∅ →
       lines l = format_line <$> adds
       ∧ ("[secrets]" +:+ NL ∉ lines l)
       ∧ (adds = [] →
          fs w2 !! OUTPUT_SETTINGS_FILENAME development
          = fs w !! OUTPUT_SETTINGS_FILENAME development)
       ∧ (adds ≠ [] →
          fs w2 !! OUTPUT_SETTINGS_FILENAME development
          = Some (default "" (fs w !! OUTPUT_SETTINGS_FILENAME development)
                  +:+ NL +:+ Py.concat (format_line <$> adds)))).
Proof.
  intros Hconf Hrun.
  destruct (pending_secrets_ok _ _ _ _ _ Hconf Hrun) as [[adds Hp] F].
  destruct (run_outcome development w l w1 Hrun) as (w2 & Hgen & Hnoop & Happend).
  pose proof (pending_lines _ _ _ _ _ Hp) as Hl.
  assert (Hknown : adds.*1 ⊆ known_names).
  { etrans; [by eapply pending_adds_ensured|apply ensured_known]. }
  exists adds, w2. split; [done|]. split; [done|]. split.
  - intros ->. rewrite header_empty in Hl. split; [done|].
    destruct Happend as [-> _]; [by rewrite Hl|].
    rewrite Hl. unfold Py.concat. simpl. by rewrite !app_assoc_s.
  - intros Hne. rewrite header_nonempty in Hl by done. simpl in Hl.
    split; [done|]. split; [|split].
    + rewrite Hl. intros ((k & v) & Heq & Hin)%list_elem_of_fmap.
      symmetry in Heq. revert Heq. apply format_line_not_header, Hknown.
      apply list_elem_of_fmap. by exists (k, v).
    + intros ->. destruct Hnoop as (_ & -> & _); done.
    + intros Hadds. destruct Happend as [-> _]; [|by rewrite Hl].
      rewrite Hl. by destruct adds.
Qed.

Lemma section_header_emission_witness :
  get_old_conf (OUTPUT_SETTINGS_FILENAME true) header_only_development
  = Ok (∅, header_only_development)
  ∧ pending_secrets true header_only_development
    = Ok ((pending_of true header_only_development).1,
          (pending_of true header_only_development).2)
  ∧ ∃ adds w2,
      generate_secrets true header_only_development = Ok (tt, w2)
      ∧ adds.*1 ⊆ known_names
      ∧ ((∅ : gmap string string) = ∅ →
         lines (pending_of true header_only_development).1
         = ("[secrets]" +:+ NL) :: (format_line <$> adds)
         ∧ fs w2 !! OUTPUT_SETTINGS_FILENAME true
           = Some (default ""
                     (fs header_only_development
                      !! OUTPUT_SETTINGS_FILENAME true)
                   +:+ NL +:+ "[secrets]" +:+ NL
                   +:+ Py.concat (format_line <$> adds)))
      ∧ ((∅ : gmap string string) ≠ ∅ →
         lines (pending_of true header_only_development).1
         = format_line <$> adds
         ∧ ("[secrets]" +:+ NL
            ∉ lines (pending_of true header_only_development).1)
         ∧ (adds = [] →
            fs w2 !! OUTPUT_SETTINGS_FILENAME true
            = fs header_only_development !! OUTPUT_SETTINGS_FILENAME true)
         ∧ (adds ≠ [] →
            fs w2 !! OUTPUT_SETTINGS_FILENAME true
            = Some (default ""
                      (fs header_only_development
                       !! OUTPUT_SETTINGS_FILENAME true)
                    +:+ NL +:+ Py.concat (format_line <$> adds)))).
Proof.
  assert (H1 : get_old_conf (OUTPUT_SETTINGS_FILENAME true)
                 header_only_development
               = Ok (∅, header_only_development))
    by (vm_compute; reflexivity).
  assert (H2 : pending_secrets true header_only_development
               = Ok ((pending_of true header_only_development).1,
                     (pending_of true header_only_development).2))
    by (vm_compute; reflexivity).
  split; [exact H1|]. split; [exact H2|].
  exact (section_header_emission true header_only_development _ _ _ H1 H2).
Defined.

(** A run against a non-empty file whose [secrets] section has no key
    appends a second section header. *)
Example second_header :
  generate_secrets true header_only_development
  = Ok (tt, after_run true header_only_development)
  ∧ String.prefix
      ("[secrets]" +:+ NL +:+ NL +:+ "[secrets]" +:+ NL +:+ "avatar_salt = ")
      (default ""
         (fs (after_run true header_only_development)
            !! "zproject/dev-secrets.conf"))
    = true.
Proof. split; vm_compute; reflexivity. Qed.
(** * Further properties *)

(** ** The generators, for every length *)

Lemma advance_0 w : advance 0 w = w.
Proof. destruct w. unfold advance. simpl. f_equal. lia. Qed.

Lemma advance_advance n m w : advance m (advance n w) = advance (n + m) w.
Proof. unfold advance. simpl. f_equal. lia. Qed.

Lemma draw_run w : draw w = Ok (entropy w (entropy_used w), advance 1 w).
Proof. unfold draw, advance. do 3 f_equal. lia. Qed.

Lemma drawn_bytes_S n w :
  drawn_bytes (S n) w
  = entropy w (entropy_used w) mod 256 :: drawn_bytes n (advance 1 w).
Proof.
  unfold drawn_bytes. simpl seq. rewrite fmap_cons, Nat.add_0_r. f_equal.
  rewrite <- fmap_S_seq, <- list_fmap_compose. apply list_fmap_ext.
  intros _ i _. simpl. do 2 f_equal. lia.
Qed.

Lemma length_drawn_bytes n w : length (drawn_bytes n w) = n.
Proof. unfold drawn_bytes. by rewrite length_fmap, length_seq. Qed.

Lemma drawn_bytes_bound n w : Forall (λ b, b < 256) (drawn_bytes n w).
Proof.
  unfold drawn_bytes. apply Forall_fmap, Forall_forall. intros i _. simpl.
  by apply N.mod_lt.
Qed.

Lemma bind_run {A B} (m : M A) (f : A → M B) w a w' :
  m w = Ok (a, w') → (m ≫= f) w = f a w'.
Proof. intros H. unfold mbind, M_bind. by rewrite H. Qed.

Lemma urandom_run n w : urandom n w = Ok (drawn_bytes n w, advance n w).
Proof.
  revert w. induction n as [|n IH]; intros w.
  - simpl. by rewrite advance_0.
  - simpl urandom. rewrite (bind_run _ _ _ _ _ (draw_run w)).
    rewrite (bind_run _ _ _ _ _ (IH (advance 1 w))).
    by rewrite drawn_bytes_S, advance_advance.
Qed.

Lemma choice_run seq w :
  choice seq w
  = Ok (default "000"%char
          (String.get (N.to_nat (entropy w (entropy_used w)
                                 mod N.of_nat (String.length seq))) seq),
        advance 1 w).
Proof. unfold choice. by rewrite (bind_run _ _ _ _ _ (draw_run w)). Qed.

Lemma get_random_string_from_run n chars w :
  chars ≠ "" →
  ∃ v, get_random_string_from n chars w = Ok (v, advance n w)
       ∧ String.length v = n
       ∧ ∀ i, (i < n)%nat →
           String.get i v
           = String.get (N.to_nat (entropy w (entropy_used w + i)
                                   mod N.of_nat (String.length chars))) chars.
Proof.
  intros Hne. revert w. induction n as [|n IH]; intros w.
  - exists "". simpl. rewrite advance_0. split; [done|]. split; [done|]. lia.
  - destruct (IH (advance 1 w)) as (v & Hv & Hlen & Hget).
    destruct (get_mem (N.to_nat (entropy w (entropy_used w)
                                 mod N.of_nat (String.length chars))) chars)
      as (c & Hc & _).
    { destruct chars as [|a chars]; [done|].
      assert (entropy w (entropy_used w)
                mod N.of_nat (String.length (String a chars))
              < N.of_nat (String.length (String a chars)))
        by (apply N.mod_lt; simpl; lia).
      lia. }
    exists (String c v). simpl get_random_string_from.
    rewrite (bind_run _ _ _ _ _ (choice_run chars w)), Hc. simpl default.
    rewrite (bind_run _ _ _ _ _ Hv), advance_advance.
    split; [done|]. split; [by simpl; rewrite Hlen|].
    intros [|i] Hi.
    + simpl. by rewrite Nat.add_0_r.
    + simpl String.get. rewrite Hget by lia. simpl.
      by replace (entropy_used w + 1 + i)%nat with (entropy_used w + S i)%nat
        by lia.
Qed.

Lemma all_get (p : ascii → bool) s :
  (∀ i c, String.get i s = Some c → p c = true) → all p s = true.
Proof.
  induction s as [|c s IH]; intros H; [done|]. simpl.
  rewrite (H 0%nat c eq_refl), IH; [done|].
  intros i c' Hi. by apply (H (S i)).
Qed.

Lemma get_lt i s c : String.get i s = Some c → (i < String.length s)%nat.
Proof.
  revert i. induction s as [|a s IH]; intros [|i]; simpl; try done; [lia|].
  intros H%IH. lia.
Qed.

(** [random_string(cnt)], for every [cnt]: it returns a string of
    exactly [cnt] characters, each of them a letter or a digit, and it
    changes nothing in the world but the position of the source of
    randomness. *)
Theorem random_string_shape (cnt : nat) (w : World) :
  ∃ v n, random_string cnt w = Ok (v, advance n w)
         ∧ String.length v = cnt
         ∧ all is_alnum v = true.
Proof.
  destruct (get_random_string_from_run cnt default_allowed_chars w)
    as (v & Hv & Hlen & Hget); [done|].
  exists v, cnt. split; [done|]. split; [done|].
  apply all_get. intros i c Hi.
  pose proof (get_lt _ _ _ Hi) as Hlt. rewrite Hlen in Hlt.
  rewrite (Hget i Hlt) in Hi.
  assert (Hall : all is_alnum default_allowed_chars = true) by reflexivity.
  apply (all_mem _ _ _ Hall).
  destruct (get_mem (N.to_nat (entropy w (entropy_used w + i)
                               mod N.of_nat
                                     (String.length default_allowed_chars)))
              default_allowed_chars) as (c' & Hc' & Hmem).
  { apply get_lt with c. exact Hi. }
  rewrite Hi in Hc'. by injection Hc' as ->.
Qed.

(** ** The loop over the Redis configuration files *)

Lemma set_fs_same w : set_fs w (fs w) = w.
Proof. by destruct w. Qed.

Lemma append_requirepass_run filenames redis_password w :
  append_requirepass filenames redis_password w
  = Ok (tt, set_fs w
              match first_existing (fs w) filenames with
              | Some (filename, old) =>
                  <[filename := old +:+ requirepass_text redis_password]> (fs w)
              | None => fs w
              end).
Proof.
  induction filenames as [|f filenames IH]; simpl.
  - by rewrite set_fs_same.
  - unfold mbind, M_bind, path_exists, gets.
    destruct (fs w !! f) as [old|] eqn:Hf.
    + rewrite bool_decide_eq_true_2 by eauto.
      unfold append_file, modify. by rewrite Hf.
    + rewrite bool_decide_eq_false_2 by (by intros [? ?]). apply IH.
Qed.

Lemma first_existing_none files filenames :
  Forall (λ f, files !! f = None) filenames →
  first_existing files filenames = None.
Proof. induction 1 as [|f filenames Hf _ IH]; simpl; [done|]. by rewrite Hf. Qed.

Lemma first_existing_some files pre filename post old :
  Forall (λ f, files !! f = None) pre → files !! filename = Some old →
  first_existing files (pre ++ filename :: post) = Some (filename, old).
Proof.
  induction 1 as [|f pre Hf _ IH]; simpl; intros Hold.
  - by rewrite Hold.
  - rewrite Hf. by apply IH.
Qed.

(** The loop over the candidate configuration files of Redis, for every
    list of candidates: when none of them exists the loop changes nothing
    and creates no file; otherwise the comment and the [requirepass] line
    are appended to the first candidate that exists, and the loop stops
    there, so that every other file, the later candidates included, is
    left as it was. *)
Theorem append_requirepass_first_match (filenames : list string)
    (redis_password : string) (w : World) :
  (Forall (λ f, fs w !! f = None) filenames →
   append_requirepass filenames redis_password w = Ok (tt, w))
  ∧ (∀ pre filename post old,
       filenames = pre ++ filename :: post →
       Forall (λ f, fs w !! f = None) pre →
       fs w !! filename = Some old →
       ∃ w',
         append_requirepass filenames redis_password w = Ok (tt, w')
         ∧ fs w' !! filename
           = Some (old +:+ "# Set a Redis password based on zulip-secrets.conf"
                   +:+ NL +:+ "requirepass '" +:+ redis_password +:+ "'"
                   +:+ NL)
         ∧ (∀ other, other ≠ filename → fs w' !! other = fs w !! other)
         ∧ w' = set_fs w (fs w')).
Proof.
  split.
  - intros Hnone.
    by rewrite append_requirepass_run, first_existing_none, set_fs_same.
  - intros pre filename post old -> Hpre Hold.
    rewrite append_requirepass_run,
      (first_existing_some _ _ _ _ _ Hpre Hold).
    eexists. split; [done|]. simpl. split; [by rewrite lookup_insert_eq|].
    split; [|done]. intros other Hother. by rewrite lookup_insert_ne.
Qed.

Example append_requirepass_second_candidate :
  append_requirepass
    ["/etc/redis/zuli-redis.conf"; "/etc/redis/zulip-redis.conf"] "pw"
    (world_of {["/etc/redis/zulip-redis.conf" := "port 6379" +:+ NL]} ∅
       "" "" RedisUp)
  = Ok (tt,
        world_of {["/etc/redis/zulip-redis.conf" :=
                     "port 6379" +:+ NL
                     +:+ "# Set a Redis password based on zulip-secrets.conf"
                     +:+ NL +:+ "requirepass 'pw'" +:+ NL]} ∅
          "" "" RedisUp).
Proof. vm_compute. reflexivity. Qed.

(** ** The effect of [pending_secrets] on the world *)

Lemma wp_urandom_exact n w (Q : list N → World → Prop) E :
  Q (drawn_bytes n w) (advance n w) → wp (urandom n) w Q E.
Proof. intros HQ. unfold wp. by rewrite urandom_run. Qed.

Lemma wp_random_token_exact w (Q : string → World → Prop) E :
  (∀ v, String.length v = 64%nat → all is_hex_lower v = true →
        Q v (advance 32 w)) →
  wp random_token w Q E.
Proof.
  intros HQ. unfold random_token, generate_random_token.
  change (64 / 2)%nat with 32%nat.
  apply wp_bind, wp_urandom_exact, wp_ret.
  destruct (b2a_hex_shape (drawn_bytes 32 w) (drawn_bytes_bound _ _))
    as [Hlen Hall].
  apply HQ; [|done]. by rewrite Hlen, length_drawn_bytes.
Qed.

Lemma wp_get_random_string_from_exact n chars w
    (Q : string → World → Prop) E :
  chars ≠ "" →
  (∀ v, String.length v = n → all (λ c, mem c chars) v = true →
        Q v (advance n w)) →
  wp (get_random_string_from n chars) w Q E.
Proof.
  intros Hne HQ.
  destruct (get_random_string_from_run n chars w Hne) as (v & Hv & Hlen & Hget).
  unfold wp. rewrite Hv. apply HQ; [done|].
  apply all_get. intros i c Hi.
  pose proof (get_lt _ _ _ Hi) as Hlt. rewrite Hlen in Hlt.
  rewrite (Hget i Hlt) in Hi.
  destruct (get_mem (N.to_nat (entropy w (entropy_used w + i)
                               mod N.of_nat (String.length chars))) chars)
    as (c' & Hc' & Hmem); [by apply get_lt with c|].
  rewrite Hi in Hc'. by injection Hc' as ->.
Qed.

Lemma wp_random_string_exact cnt w (Q : string → World → Prop) E :
  (∀ v, String.length v = cnt → all is_alnum v = true → Q v (advance cnt w)) →
  wp (random_string cnt) w Q E.
Proof.
  intros HQ. apply wp_get_random_string_from_exact; [done|].
  intros v Hlen Hall. apply HQ; [done|].
  revert Hall. apply all_impl. intros c. by apply all_mem.
Qed.

Lemma wp_generate_django_secretkey_exact w (Q : string → World → Prop) E :
  (∀ v, String.length v = 50%nat → all is_secret_key_char v = true →
        Q v (advance 50 w)) →
  wp generate_django_secretkey w Q E.
Proof.
  intros HQ. apply wp_get_random_string_from_exact; [done|].
  intros v Hlen Hall. apply HQ; [done|].
  revert Hall. apply all_impl. intros c. by apply all_mem.
Qed.

Lemma wp_uuid4_exact w (Q : Z → World → Prop) E :
  (∀ u, String.length (uuid.str u) = 36%nat →
        uuid.UUID_of_hex (uuid.str u) = Some u →
        uuid.version u = 4%Z → Q u (advance 16 w)) →
  wp uuid.uuid4 w Q E.
Proof.
  intros HQ. unfold uuid.uuid4. apply wp_bind, wp_urandom_exact, wp_ret.
  pose proof (UUID_of_bytes_v4_bound (drawn_bytes 16 w)
                (drawn_bytes_bound _ _) (length_drawn_bytes _ _)).
  apply HQ; auto using length_str, UUID_of_hex_str, UUID_of_bytes_v4_version.
Qed.

Lemma effects_snoc w adds kv :
  effects w (adds ++ [kv]) = effect_of kv (effects w adds).
Proof. unfold effects. by rewrite foldl_app. Qed.

Lemma effect_of_settings kv w :
  environ (effect_of kv w) = environ w
  ∧ MEMCACHED_LOCATION (effect_of kv w) = MEMCACHED_LOCATION w
  ∧ REDIS_HOST (effect_of kv w) = REDIS_HOST w
  ∧ redis (effect_of kv w) = redis w
  ∧ entropy (effect_of kv w) = entropy w
  ∧ stdout (effect_of kv w) = stdout w.
Proof. unfold effect_of. by repeat case_decide. Qed.

Lemma effects_settings w adds :
  environ (effects w adds) = environ w
  ∧ MEMCACHED_LOCATION (effects w adds) = MEMCACHED_LOCATION w
  ∧ REDIS_HOST (effects w adds) = REDIS_HOST w
  ∧ redis (effects w adds) = redis w
  ∧ entropy (effects w adds) = entropy w
  ∧ stdout (effects w adds) = stdout w.
Proof.
  induction adds as [|kv adds IH] using rev_ind; [done|].
  rewrite effects_snoc.
  destruct (effect_of_settings kv (effects w adds)) as (-> & -> & -> & -> & -> & ->).
  exact IH.
Qed.

Section run_state.
Context (w0 : World) (conf0 : gmap string string).

Lemma run_state_init :
  run_state w0 conf0 [] (MkLocals (Py.Str <$> conf0) (header conf0)) [] w0.
Proof. split; [apply pending_init|done|by intros ?%elem_of_nil]. Qed.

(** One step: [if need_secret(name): ...add_secret(name, v)...]. *)
Lemma wp_step_effect name names l adds w (m : M Locals)
    (Q : Locals → World → Prop) E :
  run_state w0 conf0 names l adds w → name ∉ names →
  (conf0 !! name = None →
   wp m w (λ l' w', ∃ v, l' = add_secret name v l ∧ value_shape w0 name v
                         ∧ w' = effect_of (name, v) w
                         ∧ (name = "redis_password" → redis_survives w0)) E) →
  (∀ l' adds' w', run_state w0 conf0 (names ++ [name]) l' adds' w' → Q l' w') →
  wp (if need_secret l name then m else mret l) w Q E.
Proof.
  intros [Hp Hw Hr] Hname Hm HQ. destruct (need_secret l name) eqn:Hneed.
  - eapply wp_mono; [| |apply Hm]; [|done|].
    + intros l' w' (v & -> & Hshape & -> & Hredis). eapply HQ. split.
      * by apply pending_add.
      * by rewrite effects_snoc, Hw.
      * rewrite fmap_app. intros [Hin|Hin%list_elem_of_singleton]%elem_of_app;
          [by apply Hr|]. simpl in Hin. by apply Hredis.
    + rewrite (pending_need_secret _ _ _ _ _ _ Hp Hname) in Hneed.
      by apply bool_decide_eq_true in Hneed.
  - apply wp_ret. eapply HQ. split; [by apply pending_present|done|done].
Qed.

Lemma run_state_settings names l adds w :
  run_state w0 conf0 names l adds w →
  environ w = environ w0
  ∧ MEMCACHED_LOCATION w = MEMCACHED_LOCATION w0
  ∧ REDIS_HOST w = REDIS_HOST w0
  ∧ redis w = redis w0
  ∧ entropy w = entropy w0
  ∧ stdout w = stdout w0.
Proof. intros [_ -> _]. apply effects_settings. Qed.

End run_state.

Ltac effect_body gen_lemma :=
  intros _; apply wp_bind, gen_lemma; intros; apply wp_ret;
  eexists; split; [reflexivity|]; split; [shape_of_value|];
  split; [reflexivity|discriminate].

Ltac effect_next Hs := clear Hs; intros ? ? ? Hs; simpl app in Hs.

Ltac effect_step gen_lemma Hs :=
  apply wp_bind; eapply wp_step_effect;
  [exact Hs|not_in_names|effect_body gen_lemma|effect_next Hs].

Ltac effect_secret_key Hs :=
  apply wp_bind; eapply wp_step_effect;
  [exact Hs|not_in_names| |effect_next Hs];
  [intros _; apply wp_bind, wp_generate_django_secretkey_exact; intros;
   apply wp_bind, wp_modify, wp_ret;
   eexists; split; [reflexivity|]; split; [shape_of_value|];
   split; [reflexivity|discriminate]|].

Ltac effect_postgres Hs :=
  eapply wp_step_effect;
  [exact Hs|not_in_names| |effect_next Hs];
  [intros _; apply wp_bind, wp_getenv, wp_ret;
   eexists; split; [reflexivity|]; split;
   [unfold value_shape, environ_get; simpl;
    by rewrite (proj1 (run_state_settings _ _ _ _ _ _ Hs))
   |split; [reflexivity|discriminate]]|].

Lemma wp_redis_step w0 w l (E : exn → Prop) :
  redis w = redis w0 →
  (∀ err, redis w0 = RedisFails err → is_ConnectionError err = false → E err) →
  wp (redis_password ← random_token;
      append_requirepass
        ["/etc/redis/zuli-redis.conf"; "/etc/redis/zulip-redis.conf"]
        redis_password;;
      try_except (config_set_requirepass redis_password)
        is_ConnectionError (mret tt);;
      mret (add_secret "redis_password" (Py.Str redis_password) l)) w
    (λ l' w', ∃ v, l' = add_secret "redis_password" v l
                   ∧ value_shape w0 "redis_password" v
                   ∧ w' = effect_of ("redis_password", v) w
                   ∧ ("redis_password" = "redis_password" → redis_survives w0))
    E.
Proof.
  intros Hredis HE. apply wp_bind, wp_random_token_exact. intros v Hlen Hall.
  apply wp_bind. unfold wp at 1. rewrite append_requirepass_run.
  apply wp_bind. unfold wp at 1, try_except, config_set_requirepass.
  simpl redis. destruct (redis w) as [|err] eqn:Hr.
  - apply wp_ret. exists (Py.Str v). split; [done|]. split; [shape_of_value|].
    split.
    + unfold effect_of. simpl. by rewrite Hr.
    + intros _ err. by rewrite <- Hredis.
  - destruct (is_ConnectionError err) eqn:Hcatch.
    + apply wp_ret. exists (Py.Str v). split; [done|].
      split; [shape_of_value|]. split.
      * unfold effect_of, set_fs. simpl. by rewrite Hr.
      * intros _ err'. rewrite <- Hredis. by intros [= <-].
    + apply HE; [by rewrite <- Hredis|done].
Qed.

Lemma wp_pending_secrets_effects development w conf0 :
  get_old_conf (OUTPUT_SETTINGS_FILENAME development) w = Ok (conf0, w) →
  wp (pending_secrets development) w
    (λ l w', ∃ adds, run_state w conf0 (ensured development w) l adds w')
    (redis_fatal development w conf0).
Proof.
  intros Hconf. unfold pending_secrets. apply wp_bind.
  unfold wp at 1. rewrite Hconf. fold (header conf0).
  apply wp_bind. pose proof (run_state_init w conf0) as Hs.
  unfold AUTOGENERATED_SETTINGS. simpl autogenerate.
  effect_step wp_random_token_exact Hs.
  effect_step wp_random_token_exact Hs.
  effect_step wp_random_token_exact Hs.
  effect_step wp_random_token_exact Hs.
  apply wp_ret.
  destruct development.
  - simpl andb. cbv beta iota.
    effect_step wp_random_token_exact Hs.
    effect_step wp_random_token_exact Hs.
    effect_secret_key Hs.
    effect_step (wp_random_string_exact 64) Hs.
    simpl negb. cbv beta iota. apply wp_bind, wp_ret.
    effect_step (wp_random_string_exact 64) Hs.
    effect_step wp_uuid4_exact Hs.
    effect_postgres Hs.
    eexists; exact Hs.
  - simpl andb. cbv beta iota.
    do 2 apply wp_bind, wp_ret.
    effect_secret_key Hs.
    effect_step (wp_random_string_exact 64) Hs.
    simpl negb. cbv beta iota. do 2 apply wp_bind.
    destruct (bool_decide (MEMCACHED_LOCATION w = "127.0.0.1:11211")) eqn:Hmem;
      [eapply wp_step_effect; [exact Hs|not_in_names| |effect_next Hs];
       [intros _; apply wp_bind, wp_gets;
        rewrite (proj1 (proj2 (run_state_settings _ _ _ _ _ _ Hs))), Hmem;
        apply wp_bind, wp_random_token_exact; intros; apply wp_ret;
        eexists; split; [reflexivity|]; split; [shape_of_value|];
        split; [reflexivity|discriminate]|]
      |case_need_secret;
       [apply wp_bind, wp_gets;
        rewrite (proj1 (proj2 (run_state_settings _ _ _ _ _ _ Hs))), Hmem|];
       apply wp_ret].
    all: destruct (bool_decide (REDIS_HOST w = "127.0.0.1")) eqn:Hredis;
      [eapply wp_step_effect; [exact Hs|not_in_names| |effect_next Hs];
       [intros Hnone; apply wp_bind, wp_gets;
        rewrite (proj1 (proj2 (proj2 (run_state_settings _ _ _ _ _ _ Hs)))),
          Hredis;
        apply wp_redis_step;
        [apply (proj1 (proj2 (proj2 (proj2
                 (run_state_settings _ _ _ _ _ _ Hs)))))
        |intros err Hr Hc; apply bool_decide_eq_true in Hredis;
         by repeat split]
       |]
      |case_need_secret;
       [apply wp_bind, wp_gets;
        rewrite (proj1 (proj2 (proj2 (run_state_settings _ _ _ _ _ _ Hs)))),
          Hredis|];
       apply wp_ret].
    all: effect_step (wp_random_string_exact 64) Hs.
    all: effect_step wp_uuid4_exact Hs.
    all: effect_postgres Hs.
    all: unfold ensured; rewrite Hmem, Hredis; eexists; exact Hs.
Qed.

(** ** Runs, with their effect on the world *)

Lemma pending_secrets_run development w conf0 l w1 :
  get_old_conf (OUTPUT_SETTINGS_FILENAME development) w = Ok (conf0, w) →
  pending_secrets development w = Ok (l, w1) →
  ∃ adds, run_state w conf0 (ensured development w) l adds w1.
Proof.
  intros Hconf Hrun.
  exact (wp_inv _ _ _ _ _ _ (wp_pending_secrets_effects _ _ _ Hconf) Hrun).
Qed.

Lemma write_secrets_run development l w :
  write_secrets development l w
  = Ok (tt,
        if decide (lines l = []) then
          printed w "generate_secrets: No new secrets to generate."
        else
          printed
            (set_fs w
               (<[OUTPUT_SETTINGS_FILENAME development :=
                    default "" (fs w !! OUTPUT_SETTINGS_FILENAME development)
                    +:+ NL +:+ Py.concat (lines l)]> (fs w)))
            ("Generated new secrets in "
             +:+ OUTPUT_SETTINGS_FILENAME development +:+ ".")).
Proof.
  unfold write_secrets. destruct (lines l) as [|x ls]; [done|].
  by rewrite decide_False.
Qed.

Lemma parses_loaded output_filename w :
  parses output_filename w = true →
  get_old_conf output_filename w = Ok (loaded output_filename w, w).
Proof.
  unfold parses, loaded.
  destruct (get_old_conf output_filename w) as [[conf w']|err] eqn:H; [|done].
  by rewrite (get_old_conf_world _ _ _ _ H).
Qed.

Lemma generate_secrets_run development w l w1 w2 :
  pending_secrets development w = Ok (l, w1) →
  generate_secrets development w = Ok (tt, w2) →
  w2 = if decide (lines l = []) then
         printed w1 "generate_secrets: No new secrets to generate."
       else
         printed
           (set_fs w1
              (<[OUTPUT_SETTINGS_FILENAME development :=
                   default "" (fs w1 !! OUTPUT_SETTINGS_FILENAME development)
                   +:+ NL +:+ Py.concat (lines l)]> (fs w1)))
           ("Generated new secrets in "
            +:+ OUTPUT_SETTINGS_FILENAME development +:+ ".").
Proof.
  intros Hrun. rewrite generate_secrets_unfold, Hrun, write_secrets_run.
  by intros [= <-].
Qed.

Lemma generate_secrets_fields development w l w1 w2 :
  pending_secrets development w = Ok (l, w1) →
  generate_secrets development w = Ok (tt, w2) →
  SECRET_KEY w2 = SECRET_KEY w1 ∧ requirepass w2 = requirepass w1
  ∧ entropy_used w2 = entropy_used w1 ∧ environ w2 = environ w1
  ∧ ∀ path, path ≠ OUTPUT_SETTINGS_FILENAME development →
            fs w2 !! path = fs w1 !! path.
Proof.
  intros Hrun Hgen. rewrite (generate_secrets_run _ _ _ _ _ Hrun Hgen).
  case_decide; simpl; repeat split; try done.
  intros path Hpath. by rewrite lookup_insert_ne.
Qed.

Lemma effect_of_other kv w :
  (kv.1 ≠ "secret_key" → SECRET_KEY (effect_of kv w) = SECRET_KEY w)
  ∧ (kv.1 ≠ "redis_password" →
     fs (effect_of kv w) = fs w
     ∧ requirepass (effect_of kv w) = requirepass w).
Proof. unfold effect_of. by repeat case_decide. Qed.

Lemma effects_other w adds :
  ("secret_key" ∉ adds.*1 → SECRET_KEY (effects w adds) = SECRET_KEY w)
  ∧ ("redis_password" ∉ adds.*1 →
     fs (effects w adds) = fs w
     ∧ requirepass (effects w adds) = requirepass w).
Proof.
  induction adds as [|kv adds [IH1 IH2]] using rev_ind; [done|].
  rewrite effects_snoc, fmap_app. simpl.
  destruct (effect_of_other kv (effects w adds)) as [H1 H2]. split.
  - intros [Hadds Hkv%not_elem_of_cons]%not_elem_of_app.
    rewrite H1 by (intros Heq; by destruct Hkv as [[] _]). by apply IH1.
  - intros [Hadds Hkv%not_elem_of_cons]%not_elem_of_app.
    destruct H2 as [-> ->]; [intros Heq; by destruct Hkv as [[] _]|].
    by apply IH2.
Qed.

Lemma effects_app w adds1 adds2 :
  effects w (adds1 ++ adds2) = effects (effects w adds1) adds2.
Proof. unfold effects. by rewrite foldl_app. Qed.

Lemma NoDup_keys_split (adds : list (string * Py.value)) k v :
  NoDup adds.*1 → (k, v) ∈ adds →
  ∃ adds1 adds2, adds = adds1 ++ (k, v) :: adds2
                 ∧ (k ∉ adds1.*1) ∧ (k ∉ adds2.*1).
Proof.
  intros Hnd (adds1 & adds2 & ->)%list_elem_of_split.
  exists adds1, adds2. split; [done|].
  rewrite fmap_app, fmap_cons in Hnd. simpl in Hnd.
  apply NoDup_app in Hnd as (_ & Hdis & [Hk _]%NoDup_cons).
  split; [|done]. intros Hin. apply (Hdis _ Hin). by left.
Qed.

Lemma effects_secret_key w adds v :
  NoDup adds.*1 → ("secret_key", v) ∈ adds →
  SECRET_KEY (effects w adds) = Some (Py.str v).
Proof.
  intros Hnd Hin.
  destruct (NoDup_keys_split _ _ _ Hnd Hin) as (adds1 & adds2 & -> & _ & H2).
  change (adds1 ++ ("secret_key", v) :: adds2)
    with (adds1 ++ [("secret_key", v)] ++ adds2).
  rewrite !effects_app. by rewrite (proj1 (effects_other _ adds2) H2).
Qed.

Lemma effects_redis_password w adds v :
  NoDup adds.*1 → ("redis_password", v) ∈ adds →
  fs (effects w adds) = with_requirepass (fs w) (Py.str v)
  ∧ requirepass (effects w adds)
    = match redis w with
      | RedisUp => Py.str v
      | RedisFails _ => requirepass w
      end.
Proof.
  intros Hnd Hin.
  destruct (NoDup_keys_split _ _ _ Hnd Hin) as (adds1 & adds2 & -> & H1 & H2).
  change (adds1 ++ ("redis_password", v) :: adds2)
    with (adds1 ++ [("redis_password", v)] ++ adds2).
  rewrite !effects_app.
  destruct (proj2 (effects_other (effects (effects w adds1)
                                   [("redis_password", v)]) adds2) H2)
    as [-> ->].
  destruct (proj2 (effects_other w adds1) H1) as [Hfs Hpass].
  unfold effects at 1 3. simpl. unfold effect_of. simpl.
  by rewrite Hfs, Hpass, (proj1 (proj2 (proj2 (proj2
                                  (effects_settings w adds1))))).
Qed.

Lemma pending_adds_NoDup development w conf0 l adds :
  pending w conf0 (ensured development w) l adds → NoDup adds.*1.
Proof.
  intros Hp. rewrite (pending_names _ _ _ _ _ Hp).
  apply NoDup_filter, ensured_NoDup.
Qed.

Lemma first_existing_elem files filenames filename old :
  first_existing files filenames = Some (filename, old) →
  filename ∈ filenames ∧ files !! filename = Some old.
Proof.
  induction filenames as [|f filenames IH]; simpl; [done|].
  destruct (files !! f) as [old'|] eqn:Hf.
  - intros [= <- <-]. split; [by left|done].
  - intros [Hin Hold]%IH. split; [by right|done].
Qed.

Lemma with_requirepass_other files redis_password path :
  path ∉ redis_conf_files →
  with_requirepass files redis_password !! path = files !! path.
Proof.
  intros Hpath. unfold with_requirepass.
  destruct (first_existing files redis_conf_files) as [[f old]|] eqn:Hfirst;
    [|done].
  apply first_existing_elem in Hfirst as [Hin _].
  apply lookup_insert_ne. by intros ->.
Qed.

Lemma redis_conf_not_secrets development :
  OUTPUT_SETTINGS_FILENAME development ∉ redis_conf_files.
Proof. destruct development; unfold redis_conf_files; not_in_names. Qed.

(** The Django settings object. When the secrets file has no
    [secret_key], a run assigns the key it generates, the one it stores
    in [current_conf] and writes to the file, to [settings.SECRET_KEY];
    when the file has a [secret_key], the run leaves
    [settings.SECRET_KEY] as it finds it. *)
Theorem secret_key_setting (development : bool) (w : World)
    (conf0 : gmap string string) (w2 : World) :
  get_old_conf (OUTPUT_SETTINGS_FILENAME development) w = Ok (conf0, w) →
  generate_secrets development w = Ok (tt, w2) →
  ∃ l w1,
    pending_secrets development w = Ok (l, w1)
    ∧ match conf0 !! "secret_key" with
      | Some _ => SECRET_KEY w2 = SECRET_KEY w
      | None =>
          ∃ secret_key,
            SECRET_KEY w2 = Some secret_key
            ∧ current_conf l !! "secret_key" = Some (Py.Str secret_key)
            ∧ "secret_key = " +:+ secret_key +:+ NL ∈ lines l
            ∧ String.length secret_key = 50%nat
            ∧ all is_secret_key_char secret_key = true
      end.
Proof.
  intros Hconf Hgen. pose proof Hgen as Hgen'.
  rewrite generate_secrets_unfold in Hgen'.
  destruct (pending_secrets development w) as [[l w1]|] eqn:Hrun; [|done].
  clear Hgen'. exists l, w1. split; [done|].
  destruct (pending_secrets_run _ _ _ _ _ Hconf Hrun) as [adds [Hp Hw _]].
  destruct (generate_secrets_fields _ _ _ _ _ Hrun Hgen) as (-> & _).
  pose proof (pending_added _ _ _ _ _ "secret_key" Hp) as Hadded.
  destruct (conf0 !! "secret_key") as [old|] eqn:Hold.
  - rewrite Hw. apply effects_other. rewrite Hadded. by intros [_ ?].
  - assert (Hin : "secret_key" ∈ adds.*1).
    { apply Hadded. split; [|done]. unfold ensured.
      rewrite !elem_of_app, !elem_of_cons. tauto. }
    destruct (pending_conf_added _ _ _ _ _ _ Hp (ensured_NoDup _ _) Hin)
      as (v & Hv & Hl & Hshape).
    unfold value_shape in Hshape. rewrite decide_False, decide_True in Hshape
      by done.
    destruct Hshape as (s & -> & Hlen & Hall). exists s.
    rewrite Hw, (effects_secret_key _ _ _ (pending_adds_NoDup _ _ _ _ _ Hp) Hv).
    repeat split; try done.
    exact (format_line_in_lines _ _ _ _ _ _ _ Hp Hv).
Qed.

Lemma secret_key_setting_witness :
  get_old_conf (OUTPUT_SETTINGS_FILENAME true) fresh_development
  = Ok (∅, fresh_development)
  ∧ generate_secrets true fresh_development
    = Ok (tt, after_run true fresh_development)
  ∧ ∃ l w1,
      pending_secrets true fresh_development = Ok (l, w1)
      ∧ match (∅ : gmap string string) !! "secret_key" with
        | Some _ =>
            SECRET_KEY (after_run true fresh_development)
            = SECRET_KEY fresh_development
        | None =>
            ∃ secret_key,
              SECRET_KEY (after_run true fresh_development) = Some secret_key
              ∧ current_conf l !! "secret_key" = Some (Py.Str secret_key)
              ∧ "secret_key = " +:+ secret_key +:+ NL ∈ lines l
              ∧ String.length secret_key = 50%nat
              ∧ all is_secret_key_char secret_key = true
        end.
Proof.
  assert (H1 : get_old_conf (OUTPUT_SETTINGS_FILENAME true) fresh_development
               = Ok (∅, fresh_development)) by reflexivity.
  assert (H2 : generate_secrets true fresh_development
               = Ok (tt, after_run true fresh_development))
    by (vm_compute; reflexivity).
  split; [exact H1|]. split; [exact H2|].
  exact (secret_key_setting true fresh_development ∅ _ H1 H2).
Defined.

(** The password of the Redis server. In production mode, when the
    secrets file has no [redis_password] and [settings.REDIS_HOST] is the
    loopback address, a run that returns has generated a token, stored it
    in [current_conf], and set it as the password of the running server if
    the server answered; it has appended the [requirepass] line with that
    token to [/etc/redis/zuli-redis.conf] if that file existed, otherwise
    to [/etc/redis/zulip-redis.conf] if that one existed, and has created
    neither. *)
Theorem redis_password_step (w : World) (conf0 : gmap string string)
    (w2 : World) :
  get_old_conf (OUTPUT_SETTINGS_FILENAME false) w = Ok (conf0, w) →
  conf0 !! "redis_password" = None →
  REDIS_HOST w = "127.0.0.1" →
  generate_secrets false w = Ok (tt, w2) →
  ∃ l w1 redis_password,
    pending_secrets false w = Ok (l, w1)
    ∧ current_conf l !! "redis_password" = Some (Py.Str redis_password)
    ∧ "redis_password = " +:+ redis_password +:+ NL ∈ lines l
    ∧ requirepass w2 = match redis w with
                       | RedisUp => redis_password
                       | RedisFails _ => requirepass w
                       end
    ∧ match fs w !! "/etc/redis/zuli-redis.conf",
            fs w !! "/etc/redis/zulip-redis.conf" with
      | Some old, other =>
          fs w2 !! "/etc/redis/zuli-redis.conf"
          = Some (old +:+ requirepass_text redis_password)
          ∧ fs w2 !! "/etc/redis/zulip-redis.conf" = other
      | None, Some old =>
          fs w2 !! "/etc/redis/zuli-redis.conf" = None
          ∧ fs w2 !! "/etc/redis/zulip-redis.conf"
            = Some (old +:+ requirepass_text redis_password)
      | None, None =>
          fs w2 !! "/etc/redis/zuli-redis.conf" = None
          ∧ fs w2 !! "/etc/redis/zulip-redis.conf" = None
      end.
Proof.
  intros Hconf Hnone Hhost Hgen. pose proof Hgen as Hgen'.
  rewrite generate_secrets_unfold in Hgen'.
  destruct (pending_secrets false w) as [[l w1]|] eqn:Hrun; [|done].
  clear Hgen'.
  destruct (pending_secrets_run _ _ _ _ _ Hconf Hrun) as [adds [Hp Hw _]].
  destruct (generate_secrets_fields _ _ _ _ _ Hrun Hgen)
    as (_ & Hpass & _ & _ & Hfs).
  assert (Hin : "redis_password" ∈ adds.*1).
  { apply (pending_added _ _ _ _ _ _ Hp). split; [|done].
    by apply redis_ensured. }
  destruct (pending_conf_added _ _ _ _ _ _ Hp (ensured_NoDup _ _) Hin)
    as (v & Hv & Hl & Hshape).
  unfold value_shape in Hshape. repeat rewrite decide_False in Hshape
    by (intros H; try destruct H; discriminate).
  destruct Hshape as (s & -> & _ & _). exists l, w1, s.
  destruct (effects_redis_password w adds _
              (pending_adds_NoDup _ _ _ _ _ Hp) Hv) as [Hfs1 Hpass1].
  rewrite <- Hw in Hfs1, Hpass1.
  split; [done|]. split; [done|].
  split; [exact (format_line_in_lines _ _ _ _ _ _ _ Hp Hv)|].
  split; [by rewrite Hpass, Hpass1|].
  rewrite !Hfs, Hfs1 by discriminate. unfold with_requirepass. simpl.
  destruct (fs w !! "/etc/redis/zuli-redis.conf") as [old|] eqn:H1.
  - by rewrite lookup_insert_eq, lookup_insert_ne.
  - destruct (fs w !! "/etc/redis/zulip-redis.conf") as [old|] eqn:H2.
    + by rewrite lookup_insert_ne, lookup_insert_eq.
    + done.
Qed.

Lemma redis_password_step_witness :
  get_old_conf (OUTPUT_SETTINGS_FILENAME false) local_production
  = Ok (∅, local_production)
  ∧ (∅ : gmap string string) !! "redis_password" = None
  ∧ REDIS_HOST local_production = "127.0.0.1"
  ∧ generate_secrets false local_production
    = Ok (tt, after_run false local_production)
  ∧ ∃ l w1 redis_password,
      pending_secrets false local_production = Ok (l, w1)
      ∧ current_conf l !! "redis_password" = Some (Py.Str redis_password)
      ∧ "redis_password = " +:+ redis_password +:+ NL ∈ lines l
      ∧ requirepass (after_run false local_production)
        = match redis local_production with
          | RedisUp => redis_password
          | RedisFails _ => requirepass local_production
          end
      ∧ match fs local_production !! "/etc/redis/zuli-redis.conf",
              fs local_production !! "/etc/redis/zulip-redis.conf" with
        | Some old, other =>
            fs (after_run false local_production)
              !! "/etc/redis/zuli-redis.conf"
            = Some (old +:+ requirepass_text redis_password)
            ∧ fs (after_run false local_production)
                !! "/etc/redis/zulip-redis.conf" = other
        | None, Some old =>
            fs (after_run false local_production)
              !! "/etc/redis/zuli-redis.conf" = None
            ∧ fs (after_run false local_production)
                !! "/etc/redis/zulip-redis.conf"
              = Some (old +:+ requirepass_text redis_password)
        | None, None =>
            fs (after_run false local_production)
              !! "/etc/redis/zuli-redis.conf" = None
            ∧ fs (after_run false local_production)
                !! "/etc/redis/zulip-redis.conf" = None
        end.
Proof.
  assert (H1 : get_old_conf (OUTPUT_SETTINGS_FILENAME false) local_production
               = Ok (∅, local_production)) by reflexivity.
  assert (H2 : (∅ : gmap string string) !! "redis_password" = None)
    by reflexivity.
  assert (H3 : REDIS_HOST local_production = "127.0.0.1") by reflexivity.
  assert (H4 : generate_secrets false local_production
               = Ok (tt, after_run false local_production))
    by (vm_compute; reflexivity).
  split; [exact H1|]. split; [exact H2|]. split; [exact H3|].
  split; [exact H4|].
  exact (redis_password_step local_production ∅ _ H1 H2 H3 H4).
Defined.

(** A run that finds every secret of its mode in the secrets file changes
    nothing but the standard output, on which it prints that there is no
    new secret: it draws no entropy, writes no file, leaves
    [settings.SECRET_KEY] alone and does not call Redis. *)
Theorem noop_run_only_prints (development : bool) (w : World)
    (conf0 : gmap string string) :
  get_old_conf (OUTPUT_SETTINGS_FILENAME development) w = Ok (conf0, w) →
  (∀ name, name ∈ ensured development w → is_Some (conf0 !! name)) →
  generate_secrets development w
  = Ok (tt, printed w "generate_secrets: No new secrets to generate.").
Proof.
  intros Hconf Hall.
  destruct (pending_secrets_total development w conf0 Hconf) as (l & w1 & Hrun).
  { intros err (-> & Hnone & Hhost & _).
    destruct (Hall "redis_password") as [v Hv]; [|congruence].
    by apply redis_ensured. }
  destruct (pending_secrets_run _ _ _ _ _ Hconf Hrun) as [adds [Hp Hw _]].
  assert (Hadds : adds = []).
  { apply fmap_nil_inv with (f := fst). rewrite (pending_names _ _ _ _ _ Hp).
    apply filter_none, Forall_forall. intros k Hk%Hall Hnone.
    rewrite Hnone in Hk. by destruct Hk. }
  subst adds. simpl in Hw. subst w1.
  rewrite generate_secrets_unfold, Hrun, write_secrets_run.
  rewrite decide_True; [done|].
  rewrite (pending_lines _ _ _ _ _ Hp), header_nonempty; [done|].
  intros ->. destruct (Hall "avatar_salt") as [v Hv];
    [apply avatar_salt_ensured|].
  by rewrite lookup_empty in Hv.
Qed.

Lemma noop_run_only_prints_witness :
  get_old_conf (OUTPUT_SETTINGS_FILENAME true) complete_development
  = Ok (loaded "zproject/dev-secrets.conf" complete_development,
        complete_development)
  ∧ (∀ name, name ∈ ensured true complete_development →
             is_Some (loaded "zproject/dev-secrets.conf" complete_development
                        !! name))
  ∧ generate_secrets true complete_development
    = Ok (tt, printed complete_development
                "generate_secrets: No new secrets to generate.").
Proof.
  assert (H1 : get_old_conf (OUTPUT_SETTINGS_FILENAME true)
                 complete_development
               = Ok (loaded "zproject/dev-secrets.conf" complete_development,
                     complete_development))
    by (apply parses_loaded; vm_compute; reflexivity).
  assert (H2 : ∀ name, name ∈ ensured true complete_development →
                 is_Some (loaded "zproject/dev-secrets.conf"
                            complete_development !! name)).
  { intros name Hin. unfold ensured, AUTOGENERATED_SETTINGS in Hin.
    simpl in Hin.
    repeat (apply elem_of_cons in Hin as [->|Hin];
            [exists "x"; vm_compute; reflexivity|]).
    apply elem_of_nil in Hin. destruct Hin. }
  split; [exact H1|]. split; [exact H2|].
  exact (noop_run_only_prints true complete_development _ H1 H2).
Defined.

(** An error of the Redis call that is not a connection error. In a
    production run whose secrets file parses without [redis_password],
    with [settings.REDIS_HOST] equal to ["127.0.0.1"], when the call to the
    server raises an error that the [except] clause does not catch (a
    timeout or an error response, not a [ConnectionError]), that error
    escapes: [generate_secrets] raises it. *)
Theorem redis_error_escapes (w : World) (conf0 : gmap string string)
    (err : exn) :
  get_old_conf (OUTPUT_SETTINGS_FILENAME false) w = Ok (conf0, w) →
  conf0 !! "redis_password" = None →
  REDIS_HOST w = "127.0.0.1" →
  redis w = RedisFails err →
  is_ConnectionError err = false →
  generate_secrets false w = Raise err.
Proof.
  intros Hconf Hnone Hhost Hfails Hcatch. rewrite generate_secrets_unfold.
  destruct (pending_secrets false w) as [[l w1]|err'] eqn:Hrun.
  - destruct (pending_secrets_run _ _ _ _ _ Hconf Hrun) as [adds [Hp _ Hr]].
    rewrite (Hr ltac:(apply (pending_added _ _ _ _ _ _ Hp); split;
                       [by apply redis_ensured|done]) err Hfails) in Hcatch.
    done.
  - pose proof (wp_inv_raise _ _ _ _ _ (wp_pending_secrets _ _ _ Hconf) Hrun)
      as (_ & _ & _ & Hfails' & _).
    congruence.
Qed.

Lemma redis_error_escapes_witness :
  get_old_conf (OUTPUT_SETTINGS_FILENAME false) timeout_production
  = Ok (∅, timeout_production)
  ∧ (∅ : gmap string string) !! "redis_password" = None
  ∧ REDIS_HOST timeout_production = "127.0.0.1"
  ∧ redis timeout_production = RedisFails RedisTimeoutError
  ∧ is_ConnectionError RedisTimeoutError = false
  ∧ generate_secrets false timeout_production = Raise RedisTimeoutError.
Proof.
  assert (H1 : get_old_conf (OUTPUT_SETTINGS_FILENAME false) timeout_production
               = Ok (∅, timeout_production)) by reflexivity.
  assert (H2 : (∅ : gmap string string) !! "redis_password" = None)
    by reflexivity.
  assert (H3 : REDIS_HOST timeout_production = "127.0.0.1") by reflexivity.
  assert (H4 : redis timeout_production = RedisFails RedisTimeoutError)
    by reflexivity.
  assert (H5 : is_ConnectionError RedisTimeoutError = false) by reflexivity.
  split; [exact H1|]. split; [exact H2|]. split; [exact H3|].
  split; [exact H4|]. split; [exact H5|].
  exact (redis_error_escapes timeout_production ∅ RedisTimeoutError
           H1 H2 H3 H4 H5).
Defined.

(** The files a run leaves alone. A run changes no file other than the
    secrets file of its mode and, in production mode, the candidate
    configuration files of Redis; and it changes those only when it
    generates [redis_password]. *)
Theorem other_files_untouched (development : bool) (w : World)
    (conf0 : gmap string string) (w2 : World) (path : string) :
  get_old_conf (OUTPUT_SETTINGS_FILENAME development) w = Ok (conf0, w) →
  generate_secrets development w = Ok (tt, w2) →
  path ≠ OUTPUT_SETTINGS_FILENAME development →
  development = true ∨ is_Some (conf0 !! "redis_password")
  ∨ REDIS_HOST w ≠ "127.0.0.1"
  ∨ (path ≠ "/etc/redis/zuli-redis.conf"
     ∧ path ≠ "/etc/redis/zulip-redis.conf") →
  fs w2 !! path = fs w !! path.
Proof.
  intros Hconf Hgen Hpath Hcases. pose proof Hgen as Hgen'.
  rewrite generate_secrets_unfold in Hgen'.
  destruct (pending_secrets development w) as [[l w1]|] eqn:Hrun; [|done].
  clear Hgen'.
  destruct (pending_secrets_run _ _ _ _ _ Hconf Hrun) as [adds [Hp Hw _]].
  destruct (generate_secrets_fields _ _ _ _ _ Hrun Hgen)
    as (_ & _ & _ & _ & Hfs).
  rewrite Hfs, Hw by done.
  destruct (decide ("redis_password" ∈ adds.*1)) as [Hin|Hnotin].
  - destruct (pending_conf_added _ _ _ _ _ _ Hp (ensured_NoDup _ _) Hin)
      as (v & Hv & _ & _).
    rewrite (proj1 (effects_redis_password w adds _
                      (pending_adds_NoDup _ _ _ _ _ Hp) Hv)).
    apply (pending_added _ _ _ _ _ _ Hp) in Hin as [Hens Hnone].
    destruct Hcases as [->|[Hsome|[Hhost|[Hp1 Hp2]]]].
    + unfold ensured in Hens. simpl in Hens.
      repeat (apply elem_of_cons in Hens as [?|Hens]; [done|]).
      by apply elem_of_nil in Hens.
    + rewrite Hnone in Hsome. by destruct Hsome.
    + destruct development.
      * unfold ensured in Hens. simpl in Hens.
        repeat (apply elem_of_cons in Hens as [?|Hens]; [done|]).
        by apply elem_of_nil in Hens.
      * by apply redis_ensured in Hens.
    + apply with_requirepass_other. unfold redis_conf_files.
      rewrite !not_elem_of_cons. repeat split; try done. apply not_elem_of_nil.
  - by rewrite (proj1 (proj2 (effects_other w adds) Hnotin)).
Qed.

Lemma other_files_untouched_witness :
  get_old_conf (OUTPUT_SETTINGS_FILENAME false) local_production
  = Ok (∅, local_production)
  ∧ generate_secrets false local_production
    = Ok (tt, after_run false local_production)
  ∧ "/etc/zulip/settings.py" ≠ OUTPUT_SETTINGS_FILENAME false
  ∧ (false = true ∨ is_Some ((∅ : gmap string string) !! "redis_password")
     ∨ REDIS_HOST local_production ≠ "127.0.0.1"
     ∨ ("/etc/zulip/settings.py" ≠ "/etc/redis/zuli-redis.conf"
        ∧ "/etc/zulip/settings.py" ≠ "/etc/redis/zulip-redis.conf"))
  ∧ fs (after_run false local_production) !! "/etc/zulip/settings.py"
    = fs local_production !! "/etc/zulip/settings.py".
Proof.
  assert (H1 : get_old_conf (OUTPUT_SETTINGS_FILENAME false) local_production
               = Ok (∅, local_production)) by reflexivity.
  assert (H2 : generate_secrets false local_production
               = Ok (tt, after_run false local_production))
    by (vm_compute; reflexivity).
  assert (H3 : "/etc/zulip/settings.py" ≠ OUTPUT_SETTINGS_FILENAME false)
    by discriminate.
  assert (H4 : false = true
               ∨ is_Some ((∅ : gmap string string) !! "redis_password")
               ∨ REDIS_HOST local_production ≠ "127.0.0.1"
               ∨ ("/etc/zulip/settings.py" ≠ "/etc/redis/zuli-redis.conf"
                  ∧ "/etc/zulip/settings.py" ≠ "/etc/redis/zulip-redis.conf"))
    by (right; right; right; split; discriminate).
  split; [exact H1|]. split; [exact H2|]. split; [exact H3|].
  split; [exact H4|].
  exact (other_files_untouched false local_production ∅ _ _ H1 H2 H3 H4).
Defined.

(** ** The file a run writes, and how it reads back *)

Lemma filter_all {A} (P : A → Prop) `{∀ x, Decision (P x)} (l : list A) :
  Forall P l → filter P l = l.
Proof.
  induction 1 as [|x l Hx _ IH]; [done|].
  by rewrite filter_cons_True, IH.
Qed.

Lemma concat_singleton s : Py.concat [s] = s.
Proof. unfold Py.concat. simpl. apply app_empty_r. Qed.

(** A run on a secrets file that is absent or empty, in either mode, when
    the Redis call (if it is made) does not raise out of the [try]: the run
    returns, it assigns exactly the names of its mode, in the order of the
    script, each with a value of the shape of its generator, and the file
    it leaves consists of an empty line, the header [[secrets]] and one
    line [name = value] per assignment, in that order. *)
Theorem fresh_run_contents (development : bool) (w : World) :
  fs w !! OUTPUT_SETTINGS_FILENAME development = None
  ∨ fs w !! OUTPUT_SETTINGS_FILENAME development = Some "" →
  redis_call_returns development w →
  ∃ adds w2,
    generate_secrets development w = Ok (tt, w2)
    ∧ adds.*1 = ensured development w
    ∧ Forall (λ kv, value_shape w kv.1 kv.2) adds
    ∧ fs w2 !! OUTPUT_SETTINGS_FILENAME development
      = Some (NL +:+ "[secrets]" +:+ NL +:+ Py.concat (format_line <$> adds))
    ∧ stdout w2
      = stdout w ++ ["Generated new secrets in "
                     +:+ OUTPUT_SETTINGS_FILENAME development +:+ "."].
Proof.
  intros Hfresh Hredis.
  pose proof (get_old_conf_absent_or_empty _ _ Hfresh) as Hconf.
  destruct (pending_secrets_total development w ∅ Hconf) as (l & w1 & Hrun).
  { intros err. by apply redis_call_returns_not_fatal. }
  destruct (pending_secrets_ok _ _ _ _ _ Hconf Hrun) as [[adds Hp] _].
  destruct (run_outcome development w l w1 Hrun) as (w2 & Hgen & _ & Happ).
  pose proof (pending_lines _ _ _ _ _ Hp) as Hl. rewrite header_empty in Hl.
  destruct Happ as [Hfile Hout]; [by rewrite Hl|].
  exists adds, w2. split; [done|]. split; [|split; [apply Hp|split; [|done]]].
  - rewrite (pending_names _ _ _ _ _ Hp). apply filter_all, Forall_forall.
    intros k _. apply lookup_empty.
  - rewrite Hfile, Hl, concat_app, concat_singleton.
    destruct Hfresh as [->| ->]; simpl default;
      by rewrite app_empty_l, !app_assoc_s.
Qed.

Lemma fresh_run_contents_witness :
  (fs fresh_production !! OUTPUT_SETTINGS_FILENAME false = None
   ∨ fs fresh_production !! OUTPUT_SETTINGS_FILENAME false = Some "")
  ∧ redis_call_returns false fresh_production
  ∧ ∃ adds w2,
      generate_secrets false fresh_production = Ok (tt, w2)
      ∧ adds.*1 = ensured false fresh_production
      ∧ Forall (λ kv, value_shape fresh_production kv.1 kv.2) adds
      ∧ fs w2 !! OUTPUT_SETTINGS_FILENAME false
        = Some (NL +:+ "[secrets]" +:+ NL
                +:+ Py.concat (format_line <$> adds))
      ∧ stdout w2
        = stdout fresh_production
          ++ ["Generated new secrets in "
              +:+ OUTPUT_SETTINGS_FILENAME false +:+ "."].
Proof.
  assert (H1 : fs fresh_production !! OUTPUT_SETTINGS_FILENAME false = None
               ∨ fs fresh_production !! OUTPUT_SETTINGS_FILENAME false
                 = Some "") by (left; reflexivity).
  assert (H2 : redis_call_returns false fresh_production)
    by (right; reflexivity).
  split; [exact H1|]. split; [exact H2|].
  exact (fresh_run_contents false fresh_production H1 H2).
Defined.

Lemma strip_nonspace s :
  all (λ c, negb (Py.isspace c)) s = true → Py.strip s = s.
Proof.
  intros Hs. unfold Py.strip.
  assert (Hr : Py.rstrip s = s).
  { induction s as [|c s IH]; [done|]. simpl in *.
    apply andb_prop in Hs as [Hc Hs]. rewrite IH by done.
    destruct s; [|done]. apply negb_true_iff in Hc. by rewrite Hc. }
  rewrite Hr. destruct s as [|c s]; [done|]. simpl in *.
  apply andb_prop in Hs as [Hc _]. apply negb_true_iff in Hc. by rewrite Hc.
Qed.

Lemma hex_lower_nonspace c : is_hex_lower c = true → negb (Py.isspace c) = true.
Proof. destruct c as [[] [] [] [] [] [] [] []]; done. Qed.

Lemma alnum_nonspace c : is_alnum c = true → negb (Py.isspace c) = true.
Proof. destruct c as [[] [] [] [] [] [] [] []]; done. Qed.

Lemma secret_key_char_nonspace c :
  is_secret_key_char c = true → negb (Py.isspace c) = true.
Proof. destruct c as [[] [] [] [] [] [] [] []]; done. Qed.

Lemma UUID_of_hex_nonspace s n :
  uuid.UUID_of_hex s = Some n → all (λ c, negb (Py.isspace c)) s = true.
Proof.
  unfold uuid.UUID_of_hex. destruct (_ =? _)%nat; [|done].
  intros Hs%int16_acc_oneline%remove_dashes_all.
  revert Hs. apply all_impl. intros c.
  destruct c as [[] [] [] [] [] [] [] []]; done.
Qed.

Lemma value_shape_generated w k v :
  k ≠ "postgres_password" → value_shape w k v →
  ∃ s, v = Py.Str s ∧ Py.strip s = s.
Proof.
  intros Hk. unfold value_shape. repeat case_decide; [done|..].
  - intros (s & -> & _ & Hs). exists s. split; [done|]. apply strip_nonspace.
    revert Hs. apply all_impl, secret_key_char_nonspace.
  - intros (s & -> & _ & Hs). exists s. split; [done|]. apply strip_nonspace.
    revert Hs. apply all_impl, alnum_nonspace.
  - intros (u & -> & _ & Hu & _). exists (uuid.str u). split; [done|].
    by eapply strip_nonspace, UUID_of_hex_nonspace.
  - intros (s & -> & _ & Hs). exists s. split; [done|]. apply strip_nonspace.
    revert Hs. apply all_impl, hex_lower_nonspace.
Qed.

Lemma with_options_lookup_in m kvs k t :
  NoDup kvs.*1 → (k, t) ∈ kvs → with_options m kvs !! k = Some (Py.strip t).
Proof.
  intros Hnd (kvs1 & kvs2 & ->)%list_elem_of_split.
  rewrite fmap_app, fmap_cons in Hnd. simpl in Hnd.
  apply NoDup_app in Hnd as (_ & _ & [Hk _]%NoDup_cons).
  unfold with_options. rewrite foldl_app. simpl.
  fold (with_options
          (<[k := Py.strip t]>
             (foldl (λ m kv, <[kv.1 := Py.strip kv.2]> m) m kvs1)) kvs2).
  rewrite with_options_lookup_notin by done. apply lookup_insert_eq.
Qed.

Lemma read_back_lookup development w conf0 l adds name :
  pending w conf0 (ensured development w) l adds →
  with_options conf0 (texts_of adds) !! name
  = match conf0 !! name with
    | Some value => Some value
    | None => (λ v, Py.strip (Py.str v)) <$> current_conf l !! name
    end.
Proof.
  intros Hp. pose proof (pending_added _ _ _ _ _ name Hp) as Hadded.
  destruct (decide (name ∈ adds.*1)) as [Hin|Hnotin].
  - apply Hadded in Hin as Hnone. destruct Hnone as [_ ->].
    destruct (pending_conf_added _ _ _ _ _ _ Hp (ensured_NoDup _ _) Hin)
      as (v & Hv & -> & _).
    simpl. apply with_options_lookup_in.
    + rewrite texts_of_keys. by eapply pending_adds_NoDup.
    + apply list_elem_of_fmap. by exists (name, v).
  - rewrite with_options_lookup_notin by by rewrite texts_of_keys.
    destruct (conf0 !! name) as [value|] eqn:Hc; [done|].
    destruct (current_conf l !! name) as [v|] eqn:Hl; [|done].
    destruct Hnotin. apply (pending_is_Some _ _ _ _ _ _ Hp Hc). eauto.
Qed.

Lemma run_reads_back development w conf0 l w1 w2 :
  good_start development w → env_oneline w →
  get_old_conf (OUTPUT_SETTINGS_FILENAME development) w = Ok (conf0, w) →
  pending_secrets development w = Ok (l, w1) →
  generate_secrets development w = Ok (tt, w2) →
  ∃ adds,
    pending w conf0 (ensured development w) l adds
    ∧ get_old_conf (OUTPUT_SETTINGS_FILENAME development) w2
      = Ok (with_options conf0 (texts_of adds), w2).
Proof.
  intros Hgood Henv Hconf Hrun Hgen.
  rewrite generate_secrets_unfold, Hrun in Hgen.
  destruct (pending_secrets_ok _ _ _ _ _ Hconf Hrun) as [[adds Hp] F].
  pose proof (read_back _ _ _ _ _ _ _ Hconf Hp F Hgen Henv) as Hback.
  destruct (get_old_conf (OUTPUT_SETTINGS_FILENAME development) w2)
    as [[conf2 w2']|err] eqn:Hconf2; [|by destruct Hback].
  pose proof (get_old_conf_world _ _ _ _ Hconf2) as ->.
  destruct Hback as [_ Hc2]. specialize (Hc2 Hgood). subst conf2.
  by exists adds.
Qed.

(** The file a run leaves reads back as the run's [current_conf]. When
    the starting file is absent, empty, or parses to at least one key and
    ends in the section [[secrets]] or [[DEFAULT]], and the value of
    [REMOTE_POSTGRES_PASSWORD] has no line break, the loader accepts the
    file the run leaves; a name of the starting file has its old value, any
    other name has the value of [current_conf], written as text and
    stripped of surrounding white space; and every name other than
    [postgres_password] has exactly its value of [current_conf]. *)
Theorem file_reads_back (development : bool) (w : World)
    (conf0 : gmap string string) (w2 : World) :
  good_start development w → env_oneline w →
  get_old_conf (OUTPUT_SETTINGS_FILENAME development) w = Ok (conf0, w) →
  generate_secrets development w = Ok (tt, w2) →
  ∃ l w1 conf2,
    pending_secrets development w = Ok (l, w1)
    ∧ get_old_conf (OUTPUT_SETTINGS_FILENAME development) w2 = Ok (conf2, w2)
    ∧ (∀ name,
         conf2 !! name
         = match conf0 !! name with
           | Some value => Some value
           | None => (λ v, Py.strip (Py.str v)) <$> current_conf l !! name
           end)
    ∧ (∀ name, name ≠ "postgres_password" →
               Py.Str <$> conf2 !! name = current_conf l !! name).
Proof.
  intros Hgood Henv Hconf Hgen. pose proof Hgen as Hgen'.
  rewrite generate_secrets_unfold in Hgen'.
  destruct (pending_secrets development w) as [[l w1]|] eqn:Hrun; [|done].
  clear Hgen'.
  destruct (run_reads_back _ _ _ _ _ _ Hgood Henv Hconf Hrun Hgen)
    as (adds & Hp & Hconf2).
  exists l, w1, (with_options conf0 (texts_of adds)).
  split; [done|]. split; [done|].
  split; [intros name; by eapply read_back_lookup|].
  intros name Hname. rewrite (read_back_lookup _ _ _ _ _ name Hp).
  rewrite (pending_conf_lookup _ _ _ _ _ name Hp).
  destruct (conf0 !! name) as [value|] eqn:Hc; [done|].
  case_decide as Hens; [|done].
  assert (Hin : name ∈ adds.*1) by by apply (pending_added _ _ _ _ _ _ Hp).
  destruct (pending_conf_added _ _ _ _ _ _ Hp (ensured_NoDup _ _) Hin)
    as (v & _ & -> & Hshape).
  destruct (value_shape_generated _ _ _ Hname Hshape) as (s & -> & Hs).
  simpl. by rewrite Hs.
Qed.

Lemma remote_production_good_start : good_start false remote_production.
Proof.
  right. right.
  exists ("[secrets]" +:+ NL +:+ "secret_key = x" +:+ NL),
    {["secret_key" := "x"]}.
  split; [reflexivity|]. split; [vm_compute; reflexivity|].
  split; [apply map_size_non_empty_iff; vm_compute; lia|].
  left. vm_compute; reflexivity.
Defined.

Lemma file_reads_back_witness :
  good_start false remote_production
  ∧ env_oneline remote_production
  ∧ get_old_conf (OUTPUT_SETTINGS_FILENAME false) remote_production
    = Ok ({["secret_key" := "x"]}, remote_production)
  ∧ generate_secrets false remote_production
    = Ok (tt, after_run false remote_production)
  ∧ ∃ l w1 conf2,
      pending_secrets false remote_production = Ok (l, w1)
      ∧ get_old_conf (OUTPUT_SETTINGS_FILENAME false)
          (after_run false remote_production)
        = Ok (conf2, after_run false remote_production)
      ∧ (∀ name,
           conf2 !! name
           = match ({["secret_key" := "x"]} : gmap string string) !! name with
             | Some value => Some value
             | None => (λ v, Py.strip (Py.str v)) <$> current_conf l !! name
             end)
      ∧ (∀ name, name ≠ "postgres_password" →
                 Py.Str <$> conf2 !! name = current_conf l !! name).
Proof.
  assert (H2 : env_oneline remote_production) by reflexivity.
  assert (H3 : get_old_conf (OUTPUT_SETTINGS_FILENAME false) remote_production
               = Ok ({["secret_key" := "x"]}, remote_production))
    by (vm_compute; reflexivity).
  assert (H4 : generate_secrets false remote_production
               = Ok (tt, after_run false remote_production))
    by (vm_compute; reflexivity).
  split; [exact remote_production_good_start|]. split; [exact H2|].
  split; [exact H3|]. split; [exact H4|].
  exact (file_reads_back false remote_production _ _
           remote_production_good_start H2 H3 H4).
Defined.

(** An unset [REMOTE_POSTGRES_PASSWORD] is persisted as the text [None].
    When the starting file is absent, empty, or parses to at least one key
    and ends in the section [[secrets]] or [[DEFAULT]], has no
    [postgres_password], and the variable is unset, the file the run leaves
    gives [postgres_password] the value ["None"]; and a later run on that
    file keeps this value whatever the environment then holds. *)
Theorem unset_password_persists (development : bool) (w : World)
    (conf0 : gmap string string) (w2 : World) :
  good_start development w →
  get_old_conf (OUTPUT_SETTINGS_FILENAME development) w = Ok (conf0, w) →
  conf0 !! "postgres_password" = None →
  environ w !! "REMOTE_POSTGRES_PASSWORD" = None →
  generate_secrets development w = Ok (tt, w2) →
  ∃ conf2,
    get_old_conf (OUTPUT_SETTINGS_FILENAME development) w2 = Ok (conf2, w2)
    ∧ conf2 !! "postgres_password" = Some "None"
    ∧ ∀ w3 l3 w4,
        fs w3 !! OUTPUT_SETTINGS_FILENAME development
        = fs w2 !! OUTPUT_SETTINGS_FILENAME development →
        pending_secrets development w3 = Ok (l3, w4) →
        current_conf l3 !! "postgres_password" = Some (Py.Str "None").
Proof.
  intros Hgood Hconf Hnone Hunset Hgen. pose proof Hgen as Hgen'.
  rewrite generate_secrets_unfold in Hgen'.
  destruct (pending_secrets development w) as [[l w1]|] eqn:Hrun; [|done].
  clear Hgen'.
  assert (Henv : env_oneline w).
  { unfold env_oneline, environ_get. by rewrite Hunset. }
  destruct (run_reads_back _ _ _ _ _ _ Hgood Henv Hconf Hrun Hgen)
    as (adds & Hp & Hconf2).
  assert (Hvalue : with_options conf0 (texts_of adds) !! "postgres_password"
                   = Some "None").
  { rewrite (read_back_lookup _ _ _ _ _ _ Hp), Hnone.
    assert (Hin : "postgres_password" ∈ adds.*1).
    { apply (pending_added _ _ _ _ _ _ Hp). split; [|done].
      apply postgres_ensured. }
    destruct (pending_conf_added _ _ _ _ _ _ Hp (ensured_NoDup _ _) Hin)
      as (v & _ & -> & Hshape).
    unfold value_shape in Hshape. rewrite decide_True in Hshape by done.
    subst v. unfold environ_get. by rewrite Hunset. }
  exists (with_options conf0 (texts_of adds)).
  split; [done|]. split; [done|].
  intros w3 l3 w4 Hfs Hrun3.
  pose proof (get_old_conf_ext _ w2 w3 Hfs) as Hconf3.
  rewrite Hconf2 in Hconf3.
  destruct (pending_secrets_ok _ _ _ _ _ Hconf3 Hrun3) as [[adds3 Hp3] _].
  by rewrite (pending_conf_lookup _ _ _ _ _ _ Hp3), Hvalue.
Qed.

Lemma unset_password_persists_witness :
  good_start true fresh_development
  ∧ get_old_conf (OUTPUT_SETTINGS_FILENAME true) fresh_development
    = Ok (∅, fresh_development)
  ∧ (∅ : gmap string string) !! "postgres_password" = None
  ∧ environ fresh_development !! "REMOTE_POSTGRES_PASSWORD" = None
  ∧ generate_secrets true fresh_development
    = Ok (tt, after_run true fresh_development)
  ∧ ∃ conf2,
      get_old_conf (OUTPUT_SETTINGS_FILENAME true)
        (after_run true fresh_development)
      = Ok (conf2, after_run true fresh_development)
      ∧ conf2 !! "postgres_password" = Some "None"
      ∧ ∀ w3 l3 w4,
          fs w3 !! OUTPUT_SETTINGS_FILENAME true
          = fs (after_run true fresh_development)
              !! OUTPUT_SETTINGS_FILENAME true →
          pending_secrets true w3 = Ok (l3, w4) →
          current_conf l3 !! "postgres_password" = Some (Py.Str "None").
Proof.
  assert (H1 : good_start true fresh_development) by (left; reflexivity).
  assert (H2 : get_old_conf (OUTPUT_SETTINGS_FILENAME true) fresh_development
               = Ok (∅, fresh_development)) by reflexivity.
  assert (H3 : (∅ : gmap string string) !! "postgres_password" = None)
    by reflexivity.
  assert (H4 : environ fresh_development !! "REMOTE_POSTGRES_PASSWORD" = None)
    by reflexivity.
  assert (H5 : generate_secrets true fresh_development
               = Ok (tt, after_run true fresh_development))
    by (vm_compute; reflexivity).
  split; [exact H1|]. split; [exact H2|]. split; [exact H3|].
  split; [exact H4|]. split; [exact H5|].
  exact (unset_password_persists true fresh_development ∅ _ H1 H2 H3 H4 H5).
Defined.

(** ** Files the loader rejects *)

Section rejected.
Import configparser.

Lemma read_line_skipped st line :
  is_skipped line = true → cursect st = None → read_line st line = Ok st.
Proof.
  unfold is_skipped, read_line. intros Hskip Hcur.
  destruct (existsb _ comment_prefixes); simpl; [by destruct (cursect st)|].
  simpl in Hskip. rewrite Hskip, Hcur. done.
Qed.

Lemma read_lines_skipped st lines :
  Forall (λ line, is_skipped line = true) lines → cursect st = None →
  read_lines st lines = Ok st.
Proof.
  induction 1 as [|line lines Hline _ IH]; intros Hcur; [done|].
  simpl. rewrite read_line_skipped by done. by apply IH.
Qed.

Lemma file_lines_empty : file_lines "" = [].
Proof. reflexivity. Qed.

Lemma file_lines_nonempty content :
  file_lines content ≠ [] → content ≠ "".
Proof. by intros Hne ->. Qed.

End rejected.

(** A secrets file that is not empty but has only comments and lines of
    white space: the loader does not return the empty mapping, it raises
    [NoSectionError] for the section [secrets]; so does [generate_secrets],
    in either mode. *)
Theorem blank_file_has_no_section (output_filename : string) (w : World)
    (content : string) :
  fs w !! output_filename = Some content → content ≠ "" →
  Forall (λ line, is_skipped line = true) (file_lines content) →
  get_old_conf output_filename w = Raise (NoSectionError "secrets")
  ∧ ∀ development,
      output_filename = OUTPUT_SETTINGS_FILENAME development →
      generate_secrets development w = Raise (NoSectionError "secrets").
Proof.
  intros Hf Hne Hlines.
  assert (Hraise : get_old_conf output_filename w
                   = Raise (NoSectionError "secrets")).
  { rewrite (get_old_conf_read _ _ _ Hf Hne).
    by rewrite (read_lines_skipped configparser.initial _ Hlines eq_refl). }
  split; [done|]. intros development ->.
  by rewrite generate_secrets_unfold, (pending_secrets_raise _ _ _ Hraise).
Qed.

Lemma blank_file_has_no_section_witness :
  fs (world_of {["zproject/dev-secrets.conf" := "# no secrets yet" +:+ NL +:+ NL]}
        ∅ "" "" RedisUp) !! "zproject/dev-secrets.conf"
  = Some ("# no secrets yet" +:+ NL +:+ NL)
  ∧ "# no secrets yet" +:+ NL +:+ NL ≠ ""
  ∧ Forall (λ line, is_skipped line = true)
      (file_lines ("# no secrets yet" +:+ NL +:+ NL))
  ∧ get_old_conf "zproject/dev-secrets.conf"
      (world_of {["zproject/dev-secrets.conf" :=
                    "# no secrets yet" +:+ NL +:+ NL]} ∅ "" "" RedisUp)
    = Raise (NoSectionError "secrets")
  ∧ ∀ development,
      "zproject/dev-secrets.conf" = OUTPUT_SETTINGS_FILENAME development →
      generate_secrets development
        (world_of {["zproject/dev-secrets.conf" :=
                      "# no secrets yet" +:+ NL +:+ NL]} ∅ "" "" RedisUp)
      = Raise (NoSectionError "secrets").
Proof.
  assert (H1 : fs (world_of {["zproject/dev-secrets.conf" :=
                                "# no secrets yet" +:+ NL +:+ NL]}
                     ∅ "" "" RedisUp) !! "zproject/dev-secrets.conf"
               = Some ("# no secrets yet" +:+ NL +:+ NL)) by reflexivity.
  assert (H2 : "# no secrets yet" +:+ NL +:+ NL ≠ "") by discriminate.
  assert (H3 : Forall (λ line, is_skipped line = true)
                 (file_lines ("# no secrets yet" +:+ NL +:+ NL)))
    by (repeat constructor).
  split; [exact H1|]. split; [exact H2|]. split; [exact H3|].
  exact (blank_file_has_no_section _ _ _ H1 H2 H3).
Defined.

(** An option before any section header. When the first line of the
    secrets file that is neither a comment nor white space is not a
    section header, the loader raises [MissingSectionHeaderError], whatever
    follows that line. *)
Theorem option_before_header (output_filename : string) (w : World)
    (content : string) (skipped : list string) (line : string)
    (rest : list string) :
  fs w !! output_filename = Some content →
  file_lines content = skipped ++ line :: rest →
  Forall (λ line, is_skipped line = true) skipped →
  is_skipped line = false →
  configparser.SECTCRE_match (Py.strip line) = None →
  get_old_conf output_filename w = Raise MissingSectionHeaderError.
Proof.
  intros Hf Hlines Hskipped Hline Hsect.
  rewrite (get_old_conf_read _ _ _ Hf)
    by (apply file_lines_nonempty; rewrite Hlines; by destruct skipped).
  rewrite Hlines, read_lines_app,
    (read_lines_skipped configparser.initial _ Hskipped eq_refl).
  simpl. unfold configparser.read_line.
  unfold is_skipped in Hline. apply orb_false_elim in Hline as [-> Hvalue].
  simpl. rewrite Hvalue, Hsect. done.
Qed.

Lemma option_before_header_witness :
  fs (world_of {["f" := NL +:+ "secret_key = x" +:+ NL]} ∅ "" "" RedisUp)
    !! "f"
  = Some (NL +:+ "secret_key = x" +:+ NL)
  ∧ file_lines (NL +:+ "secret_key = x" +:+ NL)
    = [""] ++ "secret_key = x" :: []
  ∧ Forall (λ line, is_skipped line = true) [""]
  ∧ is_skipped "secret_key = x" = false
  ∧ configparser.SECTCRE_match (Py.strip "secret_key = x") = None
  ∧ get_old_conf "f"
      (world_of {["f" := NL +:+ "secret_key = x" +:+ NL]} ∅ "" "" RedisUp)
    = Raise MissingSectionHeaderError.
Proof.
  assert (H1 : fs (world_of {["f" := NL +:+ "secret_key = x" +:+ NL]}
                     ∅ "" "" RedisUp) !! "f"
               = Some (NL +:+ "secret_key = x" +:+ NL)) by reflexivity.
  assert (H2 : file_lines (NL +:+ "secret_key = x" +:+ NL)
               = [""] ++ "secret_key = x" :: []) by reflexivity.
  assert (H3 : Forall (λ line, is_skipped line = true) [""])
    by (repeat constructor).
  assert (H4 : is_skipped "secret_key = x" = false) by reflexivity.
  assert (H5 : configparser.SECTCRE_match (Py.strip "secret_key = x") = None)
    by reflexivity.
  split; [exact H1|]. split; [exact H2|]. split; [exact H3|].
  split; [exact H4|]. split; [exact H5|].
  exact (option_before_header _ _ _ _ _ _ H1 H2 H3 H4 H5).
Defined.

(** ** Section headers *)

Section headers.
Import configparser.

Lemma rstrip_snoc_nonspace s c :
  Py.isspace c = false → Py.rstrip (s +:+ String c "") = s +:+ String c "".
Proof.
  intros Hc. induction s as [|a s IH].
  - simpl. by rewrite Hc.
  - rewrite app_cons. simpl. rewrite IH. by destruct s.
Qed.

Lemma strip_header_line name : Py.strip (header_line name) = header_line name.
Proof.
  unfold Py.strip, header_line.
  change ("[" +:+ name +:+ "]") with (String "[" (name +:+ "]")).
  rewrite rstrip_cons_nonspace by done.
  by rewrite rstrip_snoc_nonspace.
Qed.

Lemma upto_last_snoc d s : upto_last d (s +:+ String d "") = Some s.
Proof.
  induction s as [|c s IH].
  - simpl. by rewrite Ascii.eqb_refl.
  - rewrite app_cons. simpl. by rewrite IH.
Qed.

Lemma SECTCRE_match_header_line name :
  name ≠ "" → SECTCRE_match (header_line name) = Some name.
Proof.
  intros Hne. unfold header_line.
  change ("[" +:+ name +:+ "]") with (String "[" (name +:+ "]")).
  unfold SECTCRE_match. rewrite upto_last_snoc. by destruct name.
Qed.

Lemma read_line_header st name :
  name ≠ "" →
  read_line st (header_line name) = enter_section (set_indent_level st 0) name.
Proof.
  intros Hne. unfold read_line. cbv zeta. rewrite strip_header_line.
  change (existsb (Py.startswith (header_line name)) comment_prefixes)
    with false.
  change (first_nonspace (header_line name)) with (Some 0%nat).
  cbv iota. rewrite SECTCRE_match_header_line by done.
  change (Py.truthy (header_line name)) with true.
  cbn [negb default]. cbv iota.
  destruct (cursect st) as [ref|]; [|done].
  destruct (optname st) as [o|]; [|done].
  by rewrite andb_false_r.
Qed.

Lemma enter_section_seen st name st' :
  name ≠ default_section → enter_section st name = Ok st' →
  section_seen name st'.
Proof.
  intros Hne. unfold enter_section, section_seen.
  destruct (_sections st !! name) as [d|] eqn:Hs.
  - case_bool_decide; [done|]. intros [= <-]. simpl.
    split; [apply elem_of_union_l, elem_of_singleton_2; done|by rewrite Hs].
  - rewrite bool_decide_eq_false_2 by done. intros [= <-]. simpl.
    split; [apply elem_of_union_l, elem_of_singleton_2; done|].
    rewrite lookup_insert_eq. eauto.
Qed.

Lemma enter_section_again st name :
  section_seen name st →
  enter_section st name = Raise (DuplicateSectionError name).
Proof.
  intros [Hin [d Hd]]. unfold enter_section. rewrite Hd.
  by rewrite bool_decide_eq_true_2.
Qed.

Lemma section_seen_assign name st ref d :
  section_seen name st → section_seen name (assign st ref d).
Proof.
  intros [Hin [d' Hd']]. destruct ref as [|n]; [split; eauto|].
  split; [done|]. cbn [assign _sections].
  destruct (decide (n = name)) as [->|Hne].
  - exists d. apply lookup_insert_eq.
  - exists d'. by rewrite lookup_insert_ne.
Qed.

Lemma section_seen_enter_section name st header st' :
  section_seen name st → enter_section st header = Ok st' →
  section_seen name st'.
Proof.
  intros [Hin Hs]. unfold enter_section.
  destruct (_sections st !! header) as [d|] eqn:Hh.
  - case_bool_decide; [done|]. intros [= <-]. simpl.
    split; [by apply elem_of_union_r|done].
  - case_bool_decide; intros [= <-]; [done|].
    split; [by apply elem_of_union_r|]. cbn [_sections].
    destruct Hs as [d Hd]. exists d.
    rewrite lookup_insert_ne; [done|]. intros ->. congruence.
Qed.

Lemma section_seen_enter_option name st ref option_ optval st' :
  section_seen name st → enter_option st ref option_ optval = Ok st' →
  section_seen name st'.
Proof.
  intros Hseen. unfold enter_option.
  assert (Hseen' : section_seen name
                     (if Py.truthy option_ then st else handle_error st))
    by by destruct (Py.truthy option_).
  case_bool_decide; [done|]. intros [= <-].
  by apply (section_seen_assign _ _ ref
              (<[optionxform (Py.rstrip option_) := [Py.strip optval]]>
                 (deref (if Py.truthy option_ then st else handle_error st)
                    ref))) in Hseen'.
Qed.

Lemma section_seen_read_line name st line st' :
  section_seen name st → read_line st line = Ok st' → section_seen name st'.
Proof.
  intros Hseen. unfold read_line.
  repeat case_match; try done; intros Hst'; simplify_eq;
    try done; try (by apply section_seen_assign);
    try (by eapply section_seen_enter_section;
           [|eassumption]);
    try (by eapply section_seen_enter_option; [|eassumption]).
Qed.

Lemma section_seen_read_lines name st lines st' :
  section_seen name st → read_lines st lines = Ok st' → section_seen name st'.
Proof.
  revert st. induction lines as [|line lines IH]; intros st Hseen; simpl.
  - by intros [= <-].
  - destruct (read_line st line) as [st1|] eqn:Hline; [|done].
    apply IH. by eapply section_seen_read_line.
Qed.

End headers.

(** A section header that occurs twice. When the lines of the secrets
    file up to some point are accepted and include the unindented header of
    a section other than [DEFAULT], a later unindented header of the same
    section makes the loader raise [DuplicateSectionError], whatever
    follows; this is what happens to the second [[secrets]] header that a
    run appends to a file with a header and no key. *)
Theorem duplicate_section_fatal (output_filename : string) (w : World)
    (content : string) (l0 l1 rest : list string) (name : string)
    (st1 : configparser.read_state) :
  fs w !! output_filename = Some content →
  name ≠ "" → name ≠ "DEFAULT" →
  file_lines content
  = l0 ++ header_line name :: l1 ++ header_line name :: rest →
  configparser.read_lines configparser.initial (l0 ++ header_line name :: l1)
  = Ok st1 →
  get_old_conf output_filename w = Raise (DuplicateSectionError name).
Proof.
  intros Hf Hne Hdefault Hlines Hprefix.
  rewrite (get_old_conf_read _ _ _ Hf)
    by (apply file_lines_nonempty; rewrite Hlines; by destruct l0).
  assert (Hseen : section_seen name st1).
  { rewrite read_lines_app in Hprefix.
    destruct (configparser.read_lines configparser.initial l0)
      as [st0|] eqn:H0; [|done].
    simpl in Hprefix. rewrite read_line_header in Hprefix by done.
    destruct (configparser.enter_section _ name) as [st0'|] eqn:Henter;
      [|done].
    eapply section_seen_read_lines; [|exact Hprefix].
    by eapply enter_section_seen. }
  replace (l0 ++ header_line name :: l1 ++ header_line name :: rest)
    with ((l0 ++ header_line name :: l1) ++ header_line name :: rest)
    in Hlines by by rewrite <- app_assoc.
  rewrite Hlines, read_lines_app, Hprefix. simpl.
  rewrite read_line_header by done.
  by rewrite enter_section_again.
Qed.

Lemma duplicate_section_fatal_witness :
  fs (world_of {["f" := two_headers]} ∅ "" "" RedisUp) !! "f"
  = Some two_headers
  ∧ "secrets" ≠ ""
  ∧ "secrets" ≠ "DEFAULT"
  ∧ file_lines two_headers
    = [] ++ header_line "secrets" :: [""] ++ header_line "secrets"
      :: ["a = 1"]
  ∧ configparser.read_lines configparser.initial
      ([] ++ header_line "secrets" :: [""])
    = Ok (configparser.ReadState {["secrets" := ∅]} ∅ {["secrets"]} ∅
            (Some (configparser.RefSection "secrets")) (Some "secrets")
            None 0 false)
  ∧ get_old_conf "f" (world_of {["f" := two_headers]} ∅ "" "" RedisUp)
    = Raise (DuplicateSectionError "secrets").
Proof.
  assert (H1 : fs (world_of {["f" := two_headers]} ∅ "" "" RedisUp) !! "f"
               = Some two_headers) by reflexivity.
  assert (H2 : "secrets" ≠ "") by discriminate.
  assert (H3 : "secrets" ≠ "DEFAULT") by discriminate.
  assert (H4 : file_lines two_headers
               = [] ++ header_line "secrets" :: [""] ++ header_line "secrets"
                 :: ["a = 1"]) by reflexivity.
  assert (H5 : configparser.read_lines configparser.initial
                 ([] ++ header_line "secrets" :: [""])
               = Ok (configparser.ReadState {["secrets" := ∅]} ∅
                       {["secrets"]} ∅
                       (Some (configparser.RefSection "secrets"))
                       (Some "secrets") None 0 false))
    by (vm_compute; reflexivity).
  split; [exact H1|]. split; [exact H2|]. split; [exact H3|].
  split; [exact H4|]. split; [exact H5|].
  exact (duplicate_section_fatal _ _ _ _ _ _ _ _ H1 H2 H3 H4 H5).
Defined.

(** ** Option names *)

Section option_names.
Import configparser.

Lemma lower_char_idem c : Py.lower_char (Py.lower_char c) = Py.lower_char c.
Proof. destruct c as [[] [] [] [] [] [] [] []]; reflexivity. Qed.

Lemma lower_idem s : Py.lower (Py.lower s) = Py.lower s.
Proof.
  induction s as [|c s IH]; [done|]. simpl. by rewrite lower_char_idem, IH.
Qed.

Lemma names_normal_initial : names_normal initial.
Proof.
  split; [|split]; [intros n d k Hn|intros k [v Hk]|done].
  - cbn in Hn. by rewrite lookup_empty in Hn.
  - cbn in Hk. by rewrite lookup_empty in Hk.
Qed.

Lemma names_normal_deref st ref k :
  names_normal st → is_Some (deref st ref !! k) → Py.lower k = k.
Proof.
  intros (Hs & Hd & _). destruct ref as [|n]; simpl; [apply Hd|].
  destruct (_sections st !! n) as [d|] eqn:Hn; simpl.
  - by apply (Hs n).
  - intros [v Hv]. by rewrite lookup_empty in Hv.
Qed.

Lemma names_normal_assign st ref o vs :
  names_normal st → Py.lower o = o →
  names_normal (assign st ref (<[o := vs]> (deref st ref))).
Proof.
  intros Hst Ho. pose proof Hst as (Hs & Hd & Hopt).
  destruct ref as [|n]; (split; [|split]); cbn [assign _sections _defaults optname];
    try done.
  - intros k [v Hk]. destruct (decide (k = o)) as [->|Hne]; [done|].
    rewrite lookup_insert_ne in Hk by done. apply Hd. eauto.
  - intros n' d k Hn' [v Hk].
    destruct (decide (n' = n)) as [->|Hne].
    + rewrite lookup_insert_eq in Hn'. injection Hn' as <-.
      destruct (decide (k = o)) as [->|Hko]; [done|].
      rewrite lookup_insert_ne in Hk by done.
      apply (names_normal_deref st (RefSection n)); [done|]. eauto.
    + rewrite lookup_insert_ne in Hn' by done. eapply Hs; eauto.
Qed.

Lemma names_normal_fields st st' :
  _sections st' = _sections st → _defaults st' = _defaults st →
  optname st' = optname st → names_normal st → names_normal st'.
Proof. intros Hs Hd Ho. unfold names_normal. by rewrite Hs, Hd, Ho. Qed.

Lemma names_normal_enter_section st header st' :
  names_normal st → enter_section st header = Ok st' → names_normal st'.
Proof.
  intros (Hs & Hd & Hopt). unfold enter_section.
  repeat case_match; try done; intros [= <-];
    (split; [|split]); cbn [_sections _defaults optname]; try done.
  intros n d k Hn Hk. destruct (decide (n = header)) as [->|Hne].
  - rewrite lookup_insert_eq in Hn. injection Hn as <-.
    destruct Hk as [v Hv]. by rewrite lookup_empty in Hv.
  - rewrite lookup_insert_ne in Hn by done. eapply Hs; eauto.
Qed.

Lemma names_normal_enter_option st ref option_ optval st' :
  names_normal st → enter_option st ref option_ optval = Ok st' →
  names_normal st'.
Proof.
  intros Hst. unfold enter_option. cbv zeta.
  case_bool_decide; [done|]. intros [= <-].
  set (st1 := if Py.truthy option_ then st else handle_error st).
  assert (Hst1 : names_normal st1) by (unfold st1; by destruct (Py.truthy _)).
  assert (Ho : Py.lower (optionxform (Py.rstrip option_))
               = optionxform (Py.rstrip option_)) by apply lower_idem.
  pose proof (names_normal_assign st1 ref _ [Py.strip optval] Hst1 Ho)
    as (Hs & Hd & _).
  split; [|split]; cbn [_sections _defaults optname]; try done.
  by intros o [= <-].
Qed.

Lemma names_normal_read_line st line st' :
  names_normal st → read_line st line = Ok st' → names_normal st'.
Proof.
  intros Hst. pose proof Hst as (_ & _ & Hopt). unfold read_line.
  repeat case_match; try done; intros Hst'; simplify_eq; try done;
    try (by apply names_normal_assign; [|apply Hopt]);
    try (by eapply names_normal_enter_section; [|eassumption]);
    try (by eapply names_normal_enter_option; [|eassumption]).
Qed.

Lemma names_normal_read_lines st lines st' :
  names_normal st → read_lines st lines = Ok st' → names_normal st'.
Proof.
  revert st. induction lines as [|line lines IH]; intros st Hst; simpl.
  - by intros [= <-].
  - destruct (read_line st line) as [st1|] eqn:Hline; [|done].
    apply IH. by eapply names_normal_read_line.
Qed.

Lemma rstrip_join_value vs : Py.rstrip (join_value vs) = join_value vs.
Proof. apply rstrip_idem. Qed.

Lemma elements_added_options_assign st ref d :
  elements_added_options (assign st ref d) = elements_added_options st.
Proof. by destruct ref. Qed.

Lemma read_options_added kvs st ref n :
  cursect st = Some ref → sectname st = Some n →
  Forall (λ kv, key_ok kv.1 = true) kvs → NoDup kvs.*1 →
  (∀ k, k ∈ kvs.*1 → (Some n, k) ∉ elements_added_options st) →
  ∃ st', read_lines st (option_text <$> kvs) = Ok st'
         ∧ cursect st' = Some ref ∧ sectname st' = Some n
         ∧ elements_added_options st ⊆ elements_added_options st'
         ∧ ∀ k, k ∈ kvs.*1 → (Some n, k) ∈ elements_added_options st'.
Proof.
  revert st.
  induction kvs as [|[k v] kvs IH]; intros st Hcur Hname Hkeys Hnd Hnew.
  - exists st. repeat split; try done. by intros k ?%elem_of_nil.
  - rewrite fmap_cons in *. apply Forall_cons in Hkeys as [Hk Hkeys].
    apply NoDup_cons in Hnd as [Hnotin Hnd]. simpl in Hk, Hnotin.
    cbn [read_lines]. unfold option_text at 1. cbn [fst snd].
    rewrite (read_line_option st ref k v Hk Hcur), Hname.
    rewrite bool_decide_eq_false_2 by (apply Hnew; by left).
    set (st1 := add_option (set_indent_level st 0) ref k (Py.strip v)).
    assert (Hadded : elements_added_options st1
                     = {[(Some n, k)]} ∪ elements_added_options st).
    { unfold st1, add_option. cbn [elements_added_options].
      rewrite elements_added_options_assign.
      cbn [sectname set_indent_level elements_added_options].
      by rewrite Hname. }
    destruct (add_option_fields (set_indent_level st 0) ref k (Py.strip v))
      as (Hcur1 & Hname1 & _).
    destruct (IH st1) as (st' & Hread & Hcur' & Hname' & Hsub & Hall);
      try done.
    + unfold st1. by rewrite Hcur1.
    + unfold st1. by rewrite Hname1.
    + intros k' Hk'. rewrite Hadded.
      intros [Heq%elem_of_singleton|Hold]%elem_of_union.
      * injection Heq as ->. done.
      * revert Hold. apply Hnew. by right.
    + exists st'. repeat split; try done.
      * intros x Hx. apply Hsub. rewrite Hadded. by apply elem_of_union_r.
      * intros k' [->|Hk']%elem_of_cons; [|by apply Hall].
        apply Hsub. rewrite Hadded. apply elem_of_union_l.
        by apply elem_of_singleton.
Qed.

End option_names.

(** The names and values the loader returns. Whatever the secrets file
    holds, every name of the mapping the loader returns is in lower case,
    as [optionxform] leaves it, so that a name written in upper case in the
    file counts as present for [need_secret]; and no value ends in white
    space. *)
Theorem loaded_names_lower_case (output_filename : string) (w w' : World)
    (conf : gmap string string) (name value : string) :
  get_old_conf output_filename w = Ok (conf, w') →
  conf !! name = Some value →
  Py.lower name = name ∧ Py.rstrip value = value.
Proof.
  intros Hconf Hname. pose proof (get_old_conf_world _ _ _ _ Hconf) as ->.
  destruct (get_old_conf_nonempty _ _ _ Hconf)
    as (content & st & _ & _ & Hread & _ & Hitems).
  { intros ->. by rewrite lookup_empty in Hname. }
  pose proof (names_normal_read_lines _ _ _ names_normal_initial Hread)
    as (Hs & Hd & _).
  unfold items_of in Hitems.
  destruct (configparser._sections st !! "secrets") as [d|] eqn:Hsec; [|done].
  simpl in Hitems. injection Hitems as <-.
  apply lookup_union_Some_raw in Hname as [Hin|[_ Hin]];
    apply lookup_fmap_Some in Hin as (vs & <- & Hvs).
  - split; [eapply Hs; eauto|apply rstrip_join_value].
  - split; [apply Hd; eauto|apply rstrip_join_value].
Qed.

Lemma loaded_names_lower_case_witness :
  get_old_conf "f"
    (world_of {["f" := "[secrets]" +:+ NL +:+ "SECRET_KEY = x  " +:+ NL]}
       ∅ "" "" RedisUp)
  = Ok ({["secret_key" := "x"]},
        world_of {["f" := "[secrets]" +:+ NL +:+ "SECRET_KEY = x  " +:+ NL]}
          ∅ "" "" RedisUp)
  ∧ ({["secret_key" := "x"]} : gmap string string) !! "secret_key" = Some "x"
  ∧ Py.lower "secret_key" = "secret_key" ∧ Py.rstrip "x" = "x".
Proof.
  assert (H1 : get_old_conf "f"
                 (world_of {["f" := "[secrets]" +:+ NL
                                    +:+ "SECRET_KEY = x  " +:+ NL]}
                    ∅ "" "" RedisUp)
               = Ok ({["secret_key" := "x"]},
                     world_of {["f" := "[secrets]" +:+ NL
                                       +:+ "SECRET_KEY = x  " +:+ NL]}
                       ∅ "" "" RedisUp)) by (vm_compute; reflexivity).
  assert (H2 : ({["secret_key" := "x"]} : gmap string string) !! "secret_key"
               = Some "x") by (vm_compute; reflexivity).
  split; [exact H1|]. split; [exact H2|].
  exact (loaded_names_lower_case _ _ _ _ _ _ H1 H2).
Defined.

(** A name that occurs twice. When the secrets file consists of the
    header [[secrets]] and lines [name = value] with distinct names,
    followed by a line for a name that has occurred, the loader raises
    [DuplicateOptionError] for that name, whatever follows. *)
Theorem duplicate_option_fatal (output_filename : string) (w : World)
    (content : string) (kvs : list (string * string)) (k v : string)
    (rest : list string) :
  fs w !! output_filename = Some content →
  file_lines content
  = "[secrets]" :: (option_text <$> kvs) ++ option_text (k, v) :: rest →
  Forall (λ kv, key_ok kv.1 = true) kvs → NoDup kvs.*1 → k ∈ kvs.*1 →
  get_old_conf output_filename w
  = Raise (DuplicateOptionError (Some "secrets") k).
Proof.
  intros Hf Hlines Hkeys Hnd Hk.
  rewrite (get_old_conf_read _ _ _ Hf)
    by (apply file_lines_nonempty; by rewrite Hlines).
  rewrite Hlines.
  set (st1 := configparser.ReadState {["secrets" := ∅]} ∅ {["secrets"]} ∅
                (Some (configparser.RefSection "secrets")) (Some "secrets")
                None 0 false).
  assert (Hst1 : configparser.read_line configparser.initial "[secrets]"
                 = Ok st1) by (vm_compute; reflexivity).
  cbn [configparser.read_lines]. rewrite Hst1, read_lines_app.
  destruct (read_options_added kvs st1 (configparser.RefSection "secrets")
              "secrets" eq_refl eq_refl Hkeys Hnd)
    as (st' & -> & Hcur & Hname & _ & Hall).
  { intros k' _. cbn. apply not_elem_of_empty. }
  cbn [configparser.read_lines]. unfold option_text. cbn [fst snd].
  assert (Hok : key_ok k = true).
  { rewrite Forall_forall in Hkeys.
    apply list_elem_of_fmap in Hk as (kv & -> & Hin). by apply Hkeys. }
  rewrite (read_line_option st' _ k v Hok Hcur), Hname.
  by rewrite bool_decide_eq_true_2 by by apply Hall.
Qed.

Lemma duplicate_option_fatal_witness :
  fs (world_of {["f" := "[secrets]" +:+ NL +:+ "a = 1" +:+ NL
                        +:+ "a = 2" +:+ NL]} ∅ "" "" RedisUp) !! "f"
  = Some ("[secrets]" +:+ NL +:+ "a = 1" +:+ NL +:+ "a = 2" +:+ NL)
  ∧ file_lines ("[secrets]" +:+ NL +:+ "a = 1" +:+ NL +:+ "a = 2" +:+ NL)
    = "[secrets]" :: (option_text <$> [("a", "1")])
      ++ option_text ("a", "2") :: []
  ∧ Forall (λ kv, key_ok kv.1 = true) [("a", "1")]
  ∧ NoDup [("a", "1")].*1
  ∧ "a" ∈ [("a", "1")].*1
  ∧ get_old_conf "f"
      (world_of {["f" := "[secrets]" +:+ NL +:+ "a = 1" +:+ NL
                         +:+ "a = 2" +:+ NL]} ∅ "" "" RedisUp)
    = Raise (DuplicateOptionError (Some "secrets") "a").
Proof.
  assert (H1 : fs (world_of {["f" := "[secrets]" +:+ NL +:+ "a = 1" +:+ NL
                                     +:+ "a = 2" +:+ NL]} ∅ "" "" RedisUp)
                 !! "f"
               = Some ("[secrets]" +:+ NL +:+ "a = 1" +:+ NL
                       +:+ "a = 2" +:+ NL)) by reflexivity.
  assert (H2 : file_lines ("[secrets]" +:+ NL +:+ "a = 1" +:+ NL
                           +:+ "a = 2" +:+ NL)
               = "[secrets]" :: (option_text <$> [("a", "1")])
                 ++ option_text ("a", "2") :: []) by reflexivity.
  assert (H3 : Forall (λ kv, key_ok kv.1 = true) [("a", "1")])
    by (repeat constructor).
  assert (H4 : NoDup [("a", "1")].*1)
    by (apply NoDup_singleton).
  assert (H5 : "a" ∈ [("a", "1")].*1) by (left).
  split; [exact H1|]. split; [exact H2|]. split; [exact H3|].
  split; [exact H4|]. split; [exact H5|].
  exact (duplicate_option_fatal _ _ _ _ _ _ _ H1 H2 H3 H4 H5).
Defined.

(** ** Line terminators *)

Lemma read_chars_line_CR ls b t :
  oneline t = true →
  read_chars (LineReader ls "" b) (t +:+ String CR "")
  = LineReader (ls ++ [t]) "" true.
Proof.
  intros Ht. destruct t as [|c t]; [done|].
  simpl in Ht. apply andb_prop in Ht as [Hc Ht].
  apply negb_true_iff, orb_false_elim in Hc as [Hlf Hcr].
  assert (Hfirst : read_char (LineReader ls "" b) c
                   = LineReader ls (String c "") false).
  { unfold read_char. by rewrite Hlf, Hcr. }
  rewrite app_cons. cbn [read_chars]. rewrite Hfirst.
  by rewrite read_chars_app, read_chars_oneline.
Qed.

Lemma read_chars_line_CRLF ls t :
  oneline t = true →
  read_chars (LineReader ls "" false) (t +:+ String CR NL)
  = LineReader (ls ++ [t]) "" false.
Proof.
  intros Ht. by rewrite read_chars_app, read_chars_oneline.
Qed.

Lemma file_lines_CR texts :
  Forall (λ t, oneline t = true) texts →
  file_lines (Py.concat ((λ t, t +:+ String CR "") <$> texts)) = texts.
Proof.
  intros Htexts. unfold file_lines.
  assert (H : ∀ ls b,
    reader_lines (read_chars (LineReader ls "" b)
                    (Py.concat ((λ t, t +:+ String CR "") <$> texts)))
    = ls ++ texts); [|apply (H [] false)].
  induction Htexts as [|t texts Ht _ IH]; intros ls b.
  - unfold reader_lines. simpl. by rewrite app_nil_r.
  - rewrite fmap_cons. unfold Py.concat. simpl foldr.
    fold (Py.concat ((λ t, t +:+ String CR "") <$> texts)).
    rewrite read_chars_app, read_chars_line_CR, IH by done.
    by rewrite <- app_assoc.
Qed.

Lemma file_lines_CRLF texts :
  Forall (λ t, oneline t = true) texts →
  file_lines (Py.concat ((λ t, t +:+ String CR NL) <$> texts)) = texts.
Proof.
  intros Htexts. unfold file_lines.
  assert (H : ∀ ls,
    reader_lines (read_chars (LineReader ls "" false)
                    (Py.concat ((λ t, t +:+ String CR NL) <$> texts)))
    = ls ++ texts); [|apply (H [])].
  induction Htexts as [|t texts Ht _ IH]; intros ls.
  - unfold reader_lines. simpl. by rewrite app_nil_r.
  - rewrite fmap_cons. unfold Py.concat. simpl foldr.
    fold (Py.concat ((λ t, t +:+ String CR NL) <$> texts)).
    rewrite read_chars_app, read_chars_line_CRLF, IH by done.
    by rewrite <- app_assoc.
Qed.

(** Line terminators. A secrets file whose lines end in ["\r\n"] or in
    a lone ["\r"] loads exactly as the file with the same lines ending in
    ["\n"]: the same mapping, or the same exception. *)
Theorem loader_universal_newlines (output_filename : string) (w w' : World)
    (texts : list string) (eol : string) :
  eol = String CR NL ∨ eol = String CR "" →
  Forall (λ t, oneline t = true) texts →
  fs w !! output_filename
  = Some (Py.concat ((λ t, t +:+ NL) <$> texts)) →
  fs w' !! output_filename
  = Some (Py.concat ((λ t, t +:+ eol) <$> texts)) →
  get_old_conf output_filename w'
  = match get_old_conf output_filename w with
    | Ok (conf, _) => Ok (conf, w')
    | Raise err => Raise err
    end.
Proof.
  intros Heol Htexts Hf Hf'.
  destruct texts as [|t texts].
  - by rewrite !get_old_conf_absent_or_empty by (right; done).
  - assert (Hlines : file_lines (Py.concat ((λ t, t +:+ eol) <$> t :: texts))
                     = t :: texts)
      by (destruct Heol as [->| ->];
          [by apply file_lines_CRLF|by apply file_lines_CR]).
    pose proof (file_lines_texts (t :: texts) Htexts) as Hlines0.
    rewrite (get_old_conf_read _ _ _ Hf')
      by (apply file_lines_nonempty; by rewrite Hlines).
    rewrite (get_old_conf_read _ _ _ Hf)
      by (apply file_lines_nonempty; by rewrite Hlines0).
    rewrite Hlines, Hlines0.
    destruct (configparser.read_lines _ _) as [st|err]; [|done].
    destruct (configparser.e st); [done|]. by destruct (items_of st).
Qed.

Lemma loader_universal_newlines_witness :
  (String CR NL = String CR NL ∨ String CR NL = String CR "")
  ∧ Forall (λ t, oneline t = true) ["[secrets]"; "a = 1"]
  ∧ fs (world_of {["f" := "[secrets]" +:+ NL +:+ "a = 1" +:+ NL]}
          ∅ "" "" RedisUp) !! "f"
    = Some (Py.concat ((λ t, t +:+ NL) <$> ["[secrets]"; "a = 1"]))
  ∧ fs (world_of {["f" := "[secrets]" +:+ String CR NL
                          +:+ "a = 1" +:+ String CR NL]}
          ∅ "" "" RedisUp) !! "f"
    = Some (Py.concat ((λ t, t +:+ String CR NL)
                       <$> ["[secrets]"; "a = 1"]))
  ∧ get_old_conf "f"
      (world_of {["f" := "[secrets]" +:+ String CR NL
                         +:+ "a = 1" +:+ String CR NL]} ∅ "" "" RedisUp)
    = match get_old_conf "f"
              (world_of {["f" := "[secrets]" +:+ NL +:+ "a = 1" +:+ NL]}
                 ∅ "" "" RedisUp) with
      | Ok (conf, _) =>
          Ok (conf,
              world_of {["f" := "[secrets]" +:+ String CR NL
                                +:+ "a = 1" +:+ String CR NL]}
                ∅ "" "" RedisUp)
      | Raise err => Raise err
      end.
Proof.
  assert (H1 : String CR NL = String CR NL ∨ String CR NL = String CR "")
    by (left; reflexivity).
  assert (H2 : Forall (λ t, oneline t = true) ["[secrets]"; "a = 1"])
    by (repeat constructor).
  assert (H3 : fs (world_of {["f" := "[secrets]" +:+ NL +:+ "a = 1" +:+ NL]}
                     ∅ "" "" RedisUp) !! "f"
               = Some (Py.concat ((λ t, t +:+ NL)
                                  <$> ["[secrets]"; "a = 1"])))
    by reflexivity.
  assert (H4 : fs (world_of {["f" := "[secrets]" +:+ String CR NL
                                     +:+ "a = 1" +:+ String CR NL]}
                     ∅ "" "" RedisUp) !! "f"
               = Some (Py.concat ((λ t, t +:+ String CR NL)
                                  <$> ["[secrets]"; "a = 1"])))
    by reflexivity.
  split; [exact H1|]. split; [exact H2|]. split; [exact H3|].
  split; [exact H4|].
  exact (loader_universal_newlines _ _ _ _ _ H1 H2 H3 H4).
Defined.

(** ** The text of a UUID *)

Section uuid_layout.
Local Open Scope Z_scope.

Lemma UUID_of_bytes_v4_variant bs :
  Z.land (Z.shiftr (uuid.UUID_of_bytes_v4 bs) 62) 3 = 2.
Proof.
  unfold uuid.UUID_of_bytes_v4.
  apply Z.bits_inj'. intros n Hn.
  rewrite Z.land_spec, Z.shiftr_spec, Z.lor_spec, Z.land_spec, Z.lor_spec,
    Z.land_spec by done.
  rewrite !Z.lnot_spec by lia.
  destruct (decide (2 ≤ n)) as [Hge|Hlt].
  - rewrite (bound_high_bits 3 2 n), (bound_high_bits 2 2 n) by done.
    apply andb_false_r.
  - assert (n = 0 ∨ n = 1) as [-> | ->] by lia;
      simpl; by rewrite ?andb_false_r, ?andb_true_r, ?orb_true_r.
Qed.

Lemma get_hexw w n i :
  (i < w)%nat →
  String.get i (uuid.hexw w n)
  = Some (hex_digit (Z.to_N ((n / 16 ^ Z.of_nat (w - 1 - i)) mod 16))).
Proof.
  revert n i. induction w as [|w IH]; intros n i Hi; [lia|].
  cbn [uuid.hexw].
  destruct (decide (i < w)%nat) as [Hlt|Hge].
  - rewrite <- String.append_correct1 by (rewrite length_hexw; lia).
    rewrite IH by done. do 4 f_equal.
    replace (Z.of_nat (S w - 1 - i)) with (Z.succ (Z.of_nat (w - 1 - i)))
      by lia.
    rewrite Z.pow_succ_r by lia. by rewrite Z.div_div by lia.
  - assert (i = w) as -> by lia.
    pose proof (String.append_correct2 (uuid.hexw w (n / 16))
                  (String (hex_digit (Z.to_N (n mod 16))) "") 0) as Hget.
    rewrite length_hexw in Hget. simpl Nat.add in Hget. rewrite <- Hget.
    simpl String.get. do 4 f_equal.
    replace (S w - 1 - w)%nat with 0%nat by lia. simpl. by rewrite Z.div_1_r.
Qed.

Lemma str_layout (h : string) :
  String.length h = 32%nat →
  let text := Py.take 8 h +:+ "-" +:+ Py.slice 8 12 h +:+ "-"
              +:+ Py.slice 12 16 h +:+ "-" +:+ Py.slice 16 20 h
              +:+ "-" +:+ Py.drop 20 h in
  String.get 8 text = Some "-"%char ∧ String.get 13 text = Some "-"%char
  ∧ String.get 18 text = Some "-"%char ∧ String.get 23 text = Some "-"%char
  ∧ String.get 14 text = String.get 12 h
  ∧ String.get 19 text = String.get 16 h.
Proof.
  intros Hlen.
  do 32 (destruct h as [|? h]; [discriminate Hlen|]).
  destruct h; [|discriminate Hlen].
  cbv [Py.take Py.drop Py.slice String.app Nat.sub String.get].
  repeat split.
Qed.

End uuid_layout.

Section uuid_theorems.
Local Open Scope Z_scope.

Lemma uuid4_run w :
  uuid.uuid4 w
  = Ok (uuid.UUID_of_bytes_v4 (drawn_bytes 16 w), advance 16 w).
Proof.
  unfold uuid.uuid4. by rewrite (bind_run _ _ _ _ _ (urandom_run 16 w)).
Qed.

Lemma version_digit u :
  uuid.version u = 4 → (u / 16 ^ Z.of_nat 19) mod 16 = 4.
Proof.
  unfold uuid.version. change 0xf with (Z.ones 4).
  rewrite Z.land_ones, Z.shiftr_div_pow2 by lia. done.
Qed.

Lemma variant_digit u :
  Z.land (Z.shiftr u 62) 3 = 2 → 8 ≤ (u / 16 ^ Z.of_nat 15) mod 16 ≤ 11.
Proof.
  change 3 with (Z.ones 2).
  rewrite Z.land_ones, Z.shiftr_div_pow2 by lia.
  change (16 ^ Z.of_nat 15) with (2 ^ 60).
  replace (u / 2 ^ 62) with (u / 2 ^ 60 / 4)
    by (rewrite Z.div_div by lia; done).
  generalize (u / 2 ^ 60). intros q. change (2 ^ 2) with 4.
  intros Hq. Z.to_euclidean_division_equations. lia.
Qed.

Lemma all_str n :
  0 ≤ n < 2 ^ 128 →
  all (λ c, is_hex_lower c || Ascii.eqb c "-") (uuid.str n) = true.
Proof.
  intros Hn. unfold uuid.str, Py.slice. rewrite format_032x_hexw by done.
  assert (Hh : all (λ c, is_hex_lower c || Ascii.eqb c "-")
                 (uuid.hexw 32 n) = true).
  { eapply all_impl; [|apply all_hexw]. by intros c ->. }
  rewrite !all_app.
  rewrite !all_take, !all_drop by auto using all_drop. done.
Qed.

End uuid_theorems.


(** The text of a UUID and the constructor [UUID(text)] are inverse to
    each other on the 128-bit integers: the text has 36 characters, all
    hyphens or lowercase hexadecimal digits, and parses back to the
    integer. *)
Theorem uuid_text_round_trip (n : Z) :
  (0 ≤ n < 2 ^ 128)%Z →
  String.length (uuid.str n) = 36%nat
  ∧ all (λ c, is_hex_lower c || Ascii.eqb c "-") (uuid.str n) = true
  ∧ uuid.remove_dashes (uuid.str n) = uuid.hexw 32 n
  ∧ uuid.UUID_of_hex (uuid.str n) = Some n.
Proof.
  intros Hn. split; [by apply length_str|]. split; [by apply all_str|].
  split; [by apply str_hex|by apply UUID_of_hex_str].
Qed.

Lemma uuid_text_round_trip_witness :
  (0 ≤ 2 ^ 128 - 1 < 2 ^ 128)%Z
  ∧ String.length (uuid.str (2 ^ 128 - 1)) = 36%nat
  ∧ all (λ c, is_hex_lower c || Ascii.eqb c "-") (uuid.str (2 ^ 128 - 1))
    = true
  ∧ uuid.remove_dashes (uuid.str (2 ^ 128 - 1)) = uuid.hexw 32 (2 ^ 128 - 1)
  ∧ uuid.UUID_of_hex (uuid.str (2 ^ 128 - 1)) = Some (2 ^ 128 - 1)%Z.
Proof.
  assert (H : (0 ≤ 2 ^ 128 - 1 < 2 ^ 128)%Z)
    by (split; vm_compute; [discriminate|reflexivity]).
  split; [exact H|]. exact (uuid_text_round_trip _ H).
Defined.

Example uuid_text_example :
  uuid.str 0x0123456789abcdef0123456789abcdef
  = "01234567-89ab-cdef-0123-456789abcdef".
Proof. vm_compute. reflexivity. Qed.

(** ** The contract of the loader *)

Section parsing_error.
Import configparser.

Lemma e_assign st ref d : e (assign st ref d) = e st.
Proof. by destruct ref. Qed.

Lemma e_enter_section st header st' :
  enter_section st header = Ok st' → e st' = e st.
Proof.
  unfold enter_section. repeat case_match; try done; by intros [= <-].
Qed.

Lemma e_enter_option st ref option_ optval st' :
  e st = true → enter_option st ref option_ optval = Ok st' → e st' = true.
Proof.
  intros He. unfold enter_option. cbv zeta. case_bool_decide; [done|].
  intros [= <-]. cbn [e]. rewrite e_assign. by destruct (Py.truthy option_).
Qed.

(** Once [_handle_error] has recorded a line, the error stays recorded. *)
Lemma e_read_line st line st' :
  e st = true → read_line st line = Ok st' → e st' = true.
Proof.
  intros He. unfold read_line.
  repeat case_match; try done; intros Hst'; simplify_eq; try done;
    try (by rewrite e_assign);
    try (by erewrite e_enter_section by eassumption);
    try (by eapply e_enter_option; [|eassumption]).
Qed.

Lemma e_read_lines st lines st' :
  e st = true → read_lines st lines = Ok st' → e st' = true.
Proof.
  revert st. induction lines as [|line lines IH]; intros st He; simpl.
  - by intros [= <-].
  - destruct (read_line st line) as [st1|] eqn:Hline; [|done].
    apply IH. by eapply e_read_line.
Qed.

(** A line in a section that starts in the first column and is neither a
    comment, a header nor an option is recorded as an error. *)
Lemma read_line_unparsable st line :
  is_Some (cursect st) → is_skipped line = false →
  first_nonspace line = Some 0%nat →
  SECTCRE_match (Py.strip line) = None →
  OPTCRE_match (Py.strip line) = None →
  read_line st line = Ok (handle_error (set_indent_level st 0)).
Proof.
  intros [ref Hcur] Hline Hindent Hsect Hopt. unfold read_line. cbv zeta.
  unfold is_skipped in Hline. apply orb_false_elim in Hline as [-> Hvalue].
  rewrite Hvalue, Hindent, Hcur. cbn [default]. rewrite Hsect.
  cbn [cursect set_indent_level]. rewrite Hcur, Hopt.
  destruct (optname st) as [o|]; [|done].
  by rewrite andb_false_r.
Qed.

End parsing_error.

(** C8. Config loader contract. For every path: when the file does not
    exist or has size zero the loader returns the empty mapping; otherwise
    it returns what the parser's [items] gives for the section [secrets],
    the pairs of that section over the parser's defaults; a file that
    consists of the header [[secrets]] and lines [name = value] loads as
    the mapping of each name to its stripped value. A malformed file makes
    the loader raise: [MissingSectionHeaderError] when the first line that
    is neither a comment nor white space is not a section header;
    [ParsingError], or the exception of a later line, when a line in a
    section starts in the first column and is neither a comment, a header
    nor an option; [DuplicateSectionError] when the header of a section
    occurs a second time; [DuplicateOptionError] when a name of the section
    occurs a second time; [NoSectionError] when the file is not empty and
    has only comments and white space. And an exception of the loader
    escapes [generate_secrets] unchanged, in either mode. *)
Theorem config_loader_contract (output_filename : string) (w : World) :
  (fs w !! output_filename = None ∨ fs w !! output_filename = Some "" →
   get_old_conf output_filename w = Ok (∅, w))
  ∧ (∀ content,
       fs w !! output_filename = Some content → content ≠ "" →
       get_old_conf output_filename w
       = match configparser.read content with
         | Ok secrets_file =>
             match configparser.sections secrets_file !! "secrets" with
             | Some d => Ok (d ∪ configparser.defaults secrets_file, w)
             | None => Raise (NoSectionError "secrets")
             end
         | Raise err => Raise err
         end)
  ∧ (∀ kvs,
       Forall (λ kv, key_ok kv.1 = true) kvs →
       Forall (λ kv, oneline kv.2 = true) kvs →
       NoDup kvs.*1 →
       fs w !! output_filename
       = Some ("[secrets]" +:+ NL
               +:+ Py.concat ((λ kv, option_text kv +:+ NL) <$> kvs)) →
       get_old_conf output_filename w = Ok (with_options ∅ kvs, w))
  ∧ (∀ content,
       fs w !! output_filename = Some content →
       (∀ skipped line rest,
          file_lines content = skipped ++ line :: rest →
          Forall (λ line, is_skipped line = true) skipped →
          is_skipped line = false →
          configparser.SECTCRE_match (Py.strip line) = None →
          get_old_conf output_filename w = Raise MissingSectionHeaderError)
       ∧ (∀ l0 line rest st0,
            file_lines content = l0 ++ line :: rest →
            configparser.read_lines configparser.initial l0 = Ok st0 →
            is_Some (configparser.cursect st0) →
            is_skipped line = false →
            configparser.first_nonspace line = Some 0%nat →
            configparser.SECTCRE_match (Py.strip line) = None →
            configparser.OPTCRE_match (Py.strip line) = None →
            get_old_conf output_filename w
            = match configparser.read_lines configparser.initial
                      (file_lines content) with
              | Ok _ => Raise ParsingError
              | Raise err => Raise err
              end)
       ∧ (∀ l0 l1 rest name st1,
            name ≠ "" → name ≠ "DEFAULT" →
            file_lines content
            = l0 ++ header_line name :: l1 ++ header_line name :: rest →
            configparser.read_lines configparser.initial
              (l0 ++ header_line name :: l1) = Ok st1 →
            get_old_conf output_filename w
            = Raise (DuplicateSectionError name))
       ∧ (∀ kvs k v rest,
            file_lines content
            = "[secrets]" :: (option_text <$> kvs)
              ++ option_text (k, v) :: rest →
            Forall (λ kv, key_ok kv.1 = true) kvs → NoDup kvs.*1 →
            k ∈ kvs.*1 →
            get_old_conf output_filename w
            = Raise (DuplicateOptionError (Some "secrets") k))
       ∧ (content ≠ "" →
          Forall (λ line, is_skipped line = true) (file_lines content) →
          get_old_conf output_filename w = Raise (NoSectionError "secrets")))
  ∧ (∀ development err,
       get_old_conf (OUTPUT_SETTINGS_FILENAME development) w = Raise err →
       generate_secrets development w = Raise err).
Proof.
  split; [apply get_old_conf_absent_or_empty|].
  split; [|split; [|split]].
  - intros content Hf Hne. unfold get_old_conf. rewrite Hf.
    destruct content as [|c content]; [done|]. simpl Nat.eqb. cbv iota.
    destruct (configparser.read _) as [p|err]; [|done].
    unfold configparser.items.
    by destruct (configparser.sections p !! "secrets").
  - intros kvs Hkeys Hvals Hnd Hf.
    rewrite (get_old_conf_read _ _ _ Hf) by done.
    by destruct (read_single_section kvs Hkeys Hvals Hnd)
      as (st2 & -> & -> & ->).
  - intros content Hf.
    split; [|split; [|split; [|split]]].
    + (* no section header *)
      intros skipped line rest Hlines Hskipped Hline Hsect.
      rewrite (get_old_conf_read _ _ _ Hf)
        by (apply file_lines_nonempty; rewrite Hlines; by destruct skipped).
      rewrite Hlines, read_lines_app,
        (read_lines_skipped configparser.initial _ Hskipped eq_refl).
      simpl. unfold configparser.read_line.
      unfold is_skipped in Hline.
      apply orb_false_elim in Hline as [-> Hvalue].
      simpl. rewrite Hvalue, Hsect. done.
    + (* a line that is no option *)
      intros l0 line rest st0 Hlines Hprefix Hcur Hline Hindent Hsect Hopt.
      rewrite (get_old_conf_read _ _ _ Hf)
        by (apply file_lines_nonempty; rewrite Hlines; by destruct l0).
      rewrite Hlines, read_lines_app, Hprefix. cbn [configparser.read_lines].
      rewrite (read_line_unparsable _ _ Hcur Hline Hindent Hsect Hopt).
      destruct (configparser.read_lines _ rest) as [st|err] eqn:Hrest; [|done].
      by rewrite (e_read_lines (configparser.handle_error _) _ _ eq_refl
                    Hrest).
    + (* a header that occurs twice *)
      intros l0 l1 rest name st1 Hne Hdefault Hlines Hprefix.
      rewrite (get_old_conf_read _ _ _ Hf)
        by (apply file_lines_nonempty; rewrite Hlines; by destruct l0).
      assert (Hseen : section_seen name st1).
      { rewrite read_lines_app in Hprefix.
        destruct (configparser.read_lines configparser.initial l0)
          as [st0|] eqn:H0; [|done].
        simpl in Hprefix. rewrite read_line_header in Hprefix by done.
        destruct (configparser.enter_section _ name) as [st0'|] eqn:Henter;
          [|done].
        eapply section_seen_read_lines; [|exact Hprefix].
        by eapply enter_section_seen. }
      replace (l0 ++ header_line name :: l1 ++ header_line name :: rest)
        with ((l0 ++ header_line name :: l1) ++ header_line name :: rest)
        in Hlines by by rewrite <- app_assoc.
      rewrite Hlines, read_lines_app, Hprefix. simpl.
      rewrite read_line_header by done.
      by rewrite enter_section_again.
    + (* a name that occurs twice *)
      intros kvs k v rest Hlines Hkeys Hnd Hk.
      rewrite (get_old_conf_read _ _ _ Hf)
        by (apply file_lines_nonempty; by rewrite Hlines).
      rewrite Hlines.
      set (st1 := configparser.ReadState {["secrets" := ∅]} ∅ {["secrets"]} ∅
                    (Some (configparser.RefSection "secrets"))
                    (Some "secrets") None 0 false).
      assert (Hst1 : configparser.read_line configparser.initial "[secrets]"
                     = Ok st1) by (vm_compute; reflexivity).
      cbn [configparser.read_lines]. rewrite Hst1, read_lines_app.
      destruct (read_options_added kvs st1
                  (configparser.RefSection "secrets") "secrets"
                  eq_refl eq_refl Hkeys Hnd)
        as (st' & -> & Hcur & Hname & _ & Hall).
      { intros k' _. cbn. apply not_elem_of_empty. }
      cbn [configparser.read_lines]. unfold option_text. cbn [fst snd].
      assert (Hok : key_ok k = true).
      { rewrite Forall_forall in Hkeys.
        apply list_elem_of_fmap in Hk as (kv & -> & Hin). by apply Hkeys. }
      rewrite (read_line_option st' _ k v Hok Hcur), Hname.
      by rewrite bool_decide_eq_true_2 by by apply Hall.
    + (* comments and white space only *)
      intros Hne Hlines.
      rewrite (get_old_conf_read _ _ _ Hf Hne).
      by rewrite (read_lines_skipped configparser.initial _ Hlines eq_refl).
  - intros development err Hraise.
    by rewrite generate_secrets_unfold, (pending_secrets_raise _ _ _ Hraise).
Qed.

(** A file written by hand, with a comment, Windows line ends and a
    value that continues on an indented line. *)
Example loader_example :
  get_old_conf "f"
    (world_of {["f" := "# secrets" +:+ String CR NL
                       +:+ "[secrets]" +:+ String CR NL
                       +:+ "Avatar_Salt: abc" +:+ String CR NL
                       +:+ "  def" +:+ String CR NL]}
       ∅ "" "" RedisUp)
  = Ok ({["avatar_salt" := "abc" +:+ NL +:+ "def"]},
        world_of {["f" := "# secrets" +:+ String CR NL
                          +:+ "[secrets]" +:+ String CR NL
                          +:+ "Avatar_Salt: abc" +:+ String CR NL
                          +:+ "  def" +:+ String CR NL]}
          ∅ "" "" RedisUp).
Proof. vm_compute. reflexivity. Qed.

(** A file with a line that is no option: the loader and the script raise
    [ParsingError]. *)
Example loader_parsing_error :
  get_old_conf "zproject/dev-secrets.conf" unparsable_development
  = Raise ParsingError
  ∧ generate_secrets true unparsable_development = Raise ParsingError.
Proof. split; vm_compute; reflexivity. Qed.
